(** * Vajra: the sampling engine and the alert coordinator of [vajra.py]

    A shallow embedding of the three classes of [vajra.py] that carry
    state across the monitoring loop

    - [CacheCleaner]     (best-effort RAM reclamation),
    - [AlertManager]     (threshold rules and the memory cooldown),
    - [MetricsCollector] (network rates and the throttled process scan),

    together with the disk loop of [collect], the parts of
    [SysMonDashboard] that compute what is shown (the event log, the bars,
    the core grid, the byte figures) and one turn of the loop of
    [start_monitor], which ties the three classes together.

    Conventions.  Python [float]s (wall-clock seconds, percentages, rates)
    are rationals [Q], with exact arithmetic: the properties below are
    about signs, tests for zero and comparisons with the constants 60, 85
    and 90; where a property depends on how a float operation rounds (the
    cells of a bar), the rounding is a parameter of the model.  Python
    [int]s are [Z].  Every call that leaves the
    interpreter (the garbage collector, [psutil], [ctypes], [os.system],
    the logger, the UI callback) is recorded as an [event] of a trace, and
    what the operating system answers is an input of the model; the clock,
    the network counters and the CPU and memory totals are plain inputs.
    A call is fallible in the model exactly where the source guards it
    with a [try]; asynchronous interrupts ([KeyboardInterrupt],
    [SystemExit]), which are not subclasses of [Exception], are outside
    the model.  The two writes of [AlertManager.check] (the cooldown
    timestamp and the list of alerts) are recorded in the trace as well,
    so that their place among the calls can be stated. *)

From Stdlib Require Import QArith Qminmax Qround Lqa ZArith Lia Sorted Ascii.
From stdpp Require Import gmap strings list pretty.

Local Open Scope string_scope.
Local Open Scope list_scope.

(** ** Outcomes, events and the effect monad *)

(** The exception classes that the source tells apart, and an exception:
    its class and the text that [str(e)] gives. *)
Inductive exn_class : Type :=
| NoSuchProcess      (* psutil.NoSuchProcess, with its subclass ZombieProcess *)
| AccessDenied       (* psutil.AccessDenied *)
| KeyError
| OtherException.    (* any other subclass of Exception *)

Record exn : Type := { exn_cls : exn_class; exn_str : string }.

(** What a Python call does: it returns a value or raises an [Exception]. *)
Inductive outcome (A : Type) : Type :=
| Returns (a : A)
| Raises (e : exn).
Arguments Returns {A} a.
Arguments Raises {A} e.

Inductive event : Type :=
| LoggerInfo (msg : string)        (* logger.info(msg) *)
| LoggerError (msg : string)       (* logger.error(msg) *)
| UiCallback (msg : string)        (* ui_callback(msg), dashboard.add_log(msg) *)
| GcCollect                        (* gc.collect() *)
| Windll                           (* import ctypes; ctypes.windll.kernel32/.psapi *)
| PsutilPids                       (* psutil.pids() *)
| OpenProcess (pid : Z)            (* kernel32.OpenProcess(.., False, pid) *)
| EmptyWorkingSet (handle : Z)     (* psapi.EmptyWorkingSet(handle) *)
| CloseHandle (handle : Z)         (* kernel32.CloseHandle(handle) *)
| CDLL (lib : string)              (* ctypes.CDLL(lib) *)
| MallocTrim                       (* libc.malloc_trim(0) *)
| OsSystem (cmd : string)          (* os.system(cmd) *)
| ProcessIter                      (* psutil.process_iter([...]) *)
| CpuPercent (pid : Z)             (* p.cpu_percent(interval=None) *)
| MemoryPercent (pid : Z)          (* p.memory_percent() *)
| ProcName (pid : Z)               (* p.name() *)
| SetLastTrigger (rule : string) (time : Q)  (* self.last_trigger[rule] = time *)
| AlertsAppend (msg : string).     (* alerts.append(msg) *)

(** A computation over a mutable store [S]: it appends to the trace, may
    change the store, and returns or raises.  The store it leaves behind is
    kept when it raises, as assignments made before a Python exception
    are. *)
Definition M (S A : Type) : Type := S -> list event * S * outcome A.

Definition ret {S A} (a : A) : M S A := fun s => ([], s, Returns a).

Definition bind {S A B} (m : M S A) (k : A -> M S B) : M S B :=
  fun s =>
    match m s with
    | (t, s1, Returns a) =>
        match k a s1 with (t', s2, r) => (t ++ t', s2, r) end
    | (t, s1, Raises e) => (t, s1, Raises e)
    end.

Definition emit {S} (ev : event) : M S unit := fun s => ([ev], s, Returns tt).

Definition get {S} : M S S := fun s => ([], s, Returns s).

Definition put {S} (s' : S) : M S unit := fun _ => ([], s', Returns tt).

(** An external call: the event is recorded, then the call's outcome is
    the computation's. *)
Definition extern {S A} (ev : event) (o : outcome A) : M S A :=
  fun s => ([ev], s, o).

(** [try: body except Exception as e: handler(e)] *)
Definition try_except {S A} (body : M S A) (handler : exn -> M S A) : M S A :=
  fun s =>
    match body s with
    | (t, s1, Returns a) => (t, s1, Returns a)
    | (t, s1, Raises e) =>
        match handler e s1 with (t', s2, r) => (t ++ t', s2, r) end
    end.

(** [try: body except (C1, C2, ...): handler]: an exception of another
    class passes through. *)
Definition try_except_of {S A} (caught : exn_class -> bool)
    (body : M S A) (handler : exn -> M S A) : M S A :=
  fun s =>
    match body s with
    | (t, s1, Returns a) => (t, s1, Returns a)
    | (t, s1, Raises e) =>
        if caught (exn_cls e)
        then match handler e s1 with (t', s2, r) => (t ++ t', s2, r) end
        else (t, s1, Raises e)
    end.

(** A method call: the callee runs on its own locals, starting from
    [locals]; its trace and its outcome are the caller's. *)
Definition call {S L A} (locals : L) (m : M L A) : M S A :=
  fun s => match m locals with (t, _, r) => (t, s, r) end.

Declare Scope py_scope.
Delimit Scope py_scope with py.
Notation "x <- c1 ;; c2" := (bind c1 (fun x => c2))
  (at level 100, c1 at next level, right associativity) : py_scope.
Notation "c1 ;;; c2" := (bind c1 (fun _ => c2))
  (at level 100, right associativity) : py_scope.

(** [for x in l: body(x)] *)
Fixpoint for_each {S A} (l : list A) (body : A -> M S unit) : M S unit :=
  match l with
  | [] => ret tt
  | x :: l' => (body x ;;; for_each l' body)%py
  end.

Definition trace_of {S A} (r : list event * S * outcome A) : list event := r.1.1.
Definition store_of {S A} (r : list event * S * outcome A) : S := r.1.2.
Definition result_of {S A} (r : list event * S * outcome A) : outcome A := r.2.

(** ** CacheCleaner *)

Module CacheCleaner.

(** What the platform answers during one [clean()]. *)
Record Os : Type := {
  gc_collect : outcome unit;             (* gc.collect() *)
  windll : outcome unit;                 (* ctypes.windll.kernel32, .psapi *)
  pids : outcome (list Z);               (* psutil.pids() *)
  open_process : Z -> outcome Z;         (* OpenProcess: a handle, 0 is falsy *)
  empty_working_set : Z -> outcome unit; (* EmptyWorkingSet(handle) *)
  close_handle : Z -> outcome unit;      (* CloseHandle(handle) *)
  libc : outcome bool;     (* CDLL("libc.so.6"), then hasattr(libc, "malloc_trim") *)
  malloc_trim : outcome unit;            (* libc.malloc_trim(0) *)
  os_system : outcome Z                  (* os.system("purge ...") *)
}.

(** The object: [self.os_type = platform.system().lower()]. *)
Record t : Type := { os_type : string }.

(** Local store of [_windows_trim]: the variable [count]. *)
Definition _windows_trim (os : Os) : M Z bool :=
  (extern Windll (windll os) ;;;
   ps <- extern PsutilPids (pids os) ;;
   for_each ps (fun pid =>
     try_except
       (handle <- extern (OpenProcess pid) (open_process os pid) ;;
        if Z.eqb handle 0 then ret tt
        else
          extern (EmptyWorkingSet handle) (empty_working_set os handle) ;;;
          extern (CloseHandle handle) (close_handle os handle) ;;;
          count <- get ;;
          put (count + 1)%Z)
       (fun _ => ret tt)) ;;;
   count <- get ;;
   if Z.ltb 0 count then
     emit (LoggerInfo ("Trimmed working set for " +:+ pretty count +:+ " processes")) ;;;
     ret true
   else ret false)%py.

Definition _linux_trim (os : Os) : M unit bool :=
  (r <- try_except
          (has <- extern (CDLL "libc.so.6") (libc os) ;;
           if has : bool then
             extern MallocTrim (malloc_trim os) ;;;
             emit (LoggerInfo "Linux malloc_trim executed") ;;;
             ret (Some true)
           else ret None)
          (fun _ => ret None) ;;
   match r with
   | Some b => ret b
   | None => ret false
   end)%py.

Definition _mac_trim (os : Os) : M unit bool :=
  try_except
    (st <- extern (OsSystem "purge >/dev/null 2>&1") (os_system os) ;;
     ret (Z.eqb st 0))%py
    (fun _ => ret false).

(** The body of the [try] of [clean]; the local store is the variable
    [success]. *)
Definition clean_try (self : t) (os : Os) : M bool unit :=
  (extern GcCollect (gc_collect os) ;;;
   put true ;;;
   if String.eqb (os_type self) "windows" then
     b <- call 0%Z (_windows_trim os) ;;
     success <- get ;; put (success || b)
   else if String.eqb (os_type self) "linux" then
     b <- call tt (_linux_trim os) ;;
     success <- get ;; put (success || b)
   else if String.eqb (os_type self) "darwin" then
     b <- call tt (_mac_trim os) ;;
     success <- get ;; put (success || b)
   else ret tt)%py.

Definition clean (self : t) (os : Os) : M bool bool :=
  (emit (LoggerInfo "RAM cleanup triggered (best-effort)") ;;;
   put false ;;;
   try_except
     (clean_try self os)
     (fun e => emit (LoggerError ("RAM cleanup error: " +:+ exn_str e))) ;;;
   success <- get ;;
   ret success)%py.

(** The calls that belong to a platform-specific step. *)
Definition platform_event (ev : event) : bool :=
  match ev with
  | Windll | PsutilPids | OpenProcess _ | EmptyWorkingSet _ | CloseHandle _
  | CDLL _ | MallocTrim | OsSystem _ => true
  | _ => false
  end.

End CacheCleaner.

(** ** The metrics dictionary *)

(** Python's [x > y] on numbers. *)
Definition Qgtb (x y : Q) : bool := negb (Qle_bool x y).

(** One entry of [top_procs]: the dict
    [{'pid', 'name', 'cpu_percent', 'memory_percent'}]. *)
Record ProcInfo : Type := {
  p_pid : Z;
  p_name : string;
  p_cpu_percent : Q;
  p_memory_percent : Q
}.

(** The dict that [collect()] returns, with the keys that the alert rules
    and the claims read: [m_cpu_percent] is [metrics["cpu"]["percent"]],
    [m_memory_percent] is [metrics["memory"]["percent"]].  The remaining
    keys ([cpu_freq], [per_core], the other memory figures, [disks]) are
    read-only passes of [psutil] values to the dashboard. *)
Record Metrics : Type := {
  m_cpu_percent : Q;
  m_memory_percent : Q;
  net_sent : Q;
  net_recv : Q;
  top_procs : list ProcInfo
}.

(** [d[k]]: a [KeyError] when the key is absent. *)
Definition getitem {S V} (d : gmap string V) (k : string) : M S V :=
  match d !! k with
  | Some v => ret v
  | None => fun s => ([], s, Raises {| exn_cls := KeyError; exn_str := k |})
  end.

(** ** AlertManager *)

Module AlertManager.

(** [self.cooldown] and [self.thresholds] are assigned once, in
    [__init__], and never again: they are constants of the model. *)
Definition cooldown : Q := 60.

Definition thresholds : gmap string Q := {[ "cpu" := 85%Q; "memory" := 90%Q ]}.

Record t : Type := {
  cleaner : CacheCleaner.t;
  last_trigger : gmap string Q
}.

Definition __init__ (cleaner : CacheCleaner.t) : t :=
  {| cleaner := cleaner; last_trigger := ∅ |}.

Section Check.

(** [str()] of a float, as the f-strings apply it. *)
Variable str_float : Q -> string.

Definition cpu_alert (metrics : Metrics) : string :=
  "High CPU usage: " +:+ str_float (m_cpu_percent metrics) +:+ "%".

Definition memory_detected (metrics : Metrics) : string :=
  "High memory (" +:+ str_float (m_memory_percent metrics)
  +:+ "%) detected. Cleaning RAM...".

Definition memory_alert (metrics : Metrics) : string :=
  "High Memory usage: " +:+ str_float (m_memory_percent metrics) +:+ "%".

(** [alerts.append(msg)] on the local list [alerts]. *)
Definition append (alerts : list string) (msg : string) : M t (list string) :=
  (emit (AlertsAppend msg) ;;; ret (alerts ++ [msg]))%py.

(** [ui_callback] is [true] when a callable was passed and [false] for
    the default [None]; [now] is what [time.time()] returns; [os] is
    what the platform answers should [clean()] run. *)
Definition check (metrics : Metrics) (ui_callback : bool) (now : Q)
    (os : CacheCleaner.Os) : M t (list string) :=
  (let alerts := [] in
   (* CPU *)
   cpu_threshold <- getitem thresholds "cpu" ;;
   alerts <-
     (if Qgtb (m_cpu_percent metrics) cpu_threshold
      then append alerts (cpu_alert metrics)
      else ret alerts) ;;
   (* MEMORY *)
   memory_threshold <- getitem thresholds "memory" ;;
   if Qgtb (m_memory_percent metrics) memory_threshold then
     self <- get ;;
     let last := default 0%Q (last_trigger self !! "memory") in
     if Qgtb (now - last) cooldown then
       emit (SetLastTrigger "memory" now) ;;;
       put {| cleaner := cleaner self;
              last_trigger := <["memory" := now]> (last_trigger self) |} ;;;
       (if ui_callback then emit (UiCallback (memory_detected metrics))
        else ret tt) ;;;
       cleaned <- call false (CacheCleaner.clean (cleaner self) os) ;;
       (if ui_callback then
          if cleaned : bool
          then emit (UiCallback "RAM cleanup completed (best-effort)")
          else emit (UiCallback "RAM cleanup skipped (OS restricted)")
        else ret tt) ;;;
       append alerts (memory_alert metrics)
     else ret alerts
   else ret alerts)%py.

End Check.

End AlertManager.

(** ** MetricsCollector *)

Module MetricsCollector.

(** [psutil.net_io_counters()]: the two fields that [collect] reads. *)
Record NetIO : Type := { bytes_sent : Z; bytes_recv : Z }.

(** What one [cpu_percent] call reads from the system: the timer and the
    CPU time that the process with this pid has consumed. *)
Record Sample : Type := { s_timer : Q; s_cpu_time : Q }.

(** A [psutil.Process] object.  [h_ident] is the identity of the system
    process the object was created for (psutil keeps the creation time
    for it); [h_last] is the accounting stored by the object's last
    [cpu_percent] call, [None] before the first one.  psutil keeps one
    object for each system process that [process_iter] has yielded, and
    yields it again as long as that process runs: two objects under one
    pid with the same [h_ident] are one and the same object. *)
Record Process : Type := {
  h_pid : Z;
  h_ident : Z;
  h_last : option Sample
}.

(** What psutil answers, during one scan, for one process of the
    iteration: the object that [process_iter] yields, the accounting read
    by the [cpu_percent()] call that [process_iter] itself makes on that
    object before it yields it (the attribute list of the source asks for
    ['cpu_percent']; the call leaves the object alone when it is denied,
    [None]), and the outcomes of the queries made on whichever object the
    scan uses for this pid. *)
Record Queries : Type := {
  q_proc : Process;
  q_info : option Sample;       (* process_iter's own cpu_percent call *)
  q_baseline : outcome Sample;  (* the first cpu_percent, made for a new pid *)
  q_cpu : outcome Sample;       (* p.cpu_percent(interval=None) *)
  q_mem : outcome Q;            (* p.memory_percent() *)
  q_name : outcome string       (* p.name() *)
}.

(** What the system answers during one [collect()]. *)
Record Os : Type := {
  now : Q;                       (* time.time() *)
  net : NetIO;                   (* psutil.net_io_counters() *)
  pids : outcome (list Z);       (* psutil.pids() *)
  process_iter : list Queries;   (* psutil.process_iter([...]) *)
  cpu_percent : Q;               (* psutil.cpu_percent(interval=None) *)
  memory_percent : Q             (* psutil.virtual_memory().percent *)
}.

Record t : Type := {
  last_net : NetIO;
  last_time : Q;
  procs : gmap Z Process;
  cached_top_procs : list ProcInfo;
  tick : Z
}.

Definition set_procs (f : gmap Z Process -> gmap Z Process) (self : t) : t :=
  {| last_net := last_net self; last_time := last_time self;
     procs := f (procs self);
     cached_top_procs := cached_top_procs self; tick := tick self |}.

Definition set_cached_top_procs (l : list ProcInfo) (self : t) : t :=
  {| last_net := last_net self; last_time := last_time self;
     procs := procs self; cached_top_procs := l; tick := tick self |}.

Definition set_last (n : NetIO) (time : Q) (self : t) : t :=
  {| last_net := n; last_time := time; procs := procs self;
     cached_top_procs := cached_top_procs self; tick := tick self |}.

Definition set_tick (k : Z) (self : t) : t :=
  {| last_net := last_net self; last_time := last_time self;
     procs := procs self;
     cached_top_procs := cached_top_procs self; tick := k |}.

Definition modify (f : t -> t) : M t unit :=
  fun self => ([], f self, Returns tt).

(** [__init__]: the first counters and clock reading; the two seeding
    [psutil.cpu_percent] calls leave no state in the object. *)
Definition __init__ (net0 : NetIO) (now0 : Q) : t :=
  {| last_net := net0; last_time := now0; procs := ∅;
     cached_top_procs := []; tick := 0 |}.

(** [sorted(l, key=lambda x: x['cpu_percent'], reverse=True)]: stable,
    descending. *)
Fixpoint insert_desc (x : ProcInfo) (l : list ProcInfo) : list ProcInfo :=
  match l with
  | [] => [x]
  | y :: l' =>
      if Qgtb (p_cpu_percent y) (p_cpu_percent x)
      then y :: insert_desc x l'
      else x :: y :: l'
  end.

Definition sorted_desc (l : list ProcInfo) : list ProcInfo :=
  foldr insert_desc [] l.

Section Collect.

(** psutil's percentage between a stored accounting and a new
    reading. *)
Variable cpu_between : Sample -> Sample -> Q.

(** [p.cpu_percent(interval=None)] on the object cached under [pid]:
    the reading replaces the object's accounting; the value is 0.0 when
    the object had none.  The scan calls it on an object that it has just
    stored in, or taken from, [self.procs], so the object is found. *)
Definition proc_cpu_percent (pid : Z) (reading : outcome Sample) : M t Q :=
  (s <- extern (CpuPercent pid) reading ;;
   self <- get ;;
   match procs self !! pid with
   | Some p =>
       put (set_procs <[pid := {| h_pid := h_pid p; h_ident := h_ident p;
                                  h_last := Some s |}]> self) ;;;
       ret (match h_last p with
            | Some b => cpu_between b s
            | None => 0%Q
            end)
   | None => ret 0%Q
   end)%py.

Definition caught_by_scan (c : exn_class) : bool :=
  match c with
  | NoSuchProcess | AccessDenied => true
  | _ => false
  end.

(** The object after the [cpu_percent()] call of [process_iter]. *)
Definition with_info (info : option Sample) (p : Process) : Process :=
  match info with
  | Some s => {| h_pid := h_pid p; h_ident := h_ident p; h_last := Some s |}
  | None => p
  end.

(** The object cached under a pid is the one that [process_iter] yields
    for the process [p']. *)
Definition same_object (p p' : Process) : bool :=
  Z.eqb (h_ident p) (h_ident p').

(** One step of the iterator [psutil.process_iter([..., 'cpu_percent'])]:
    the object that it yields has just had its [cpu_percent()] called.
    When that object is the one cached in [self.procs], it is the cached
    object whose accounting is replaced. *)
Definition yielded (q : Queries) : M t Process :=
  let pid := h_pid (q_proc q) in
  (self <- get ;;
   match procs self !! pid with
   | Some p =>
       if same_object p (q_proc q)
       then modify (set_procs <[pid := with_info (q_info q) p]>) ;;;
            ret (with_info (q_info q) p)
       else ret (with_info (q_info q) (q_proc q))
   | None => ret (with_info (q_info q) (q_proc q))
   end)%py.

(** The body of [for p in psutil.process_iter(...)], for the object [p]
    that the iterator has yielded. *)
Definition scan_body (q : Queries) (p : Process) (proc_list : list ProcInfo)
    : M t (list ProcInfo) :=
  let pid := h_pid (q_proc q) in
  try_except_of caught_by_scan
    (self <- get ;;
     (if decide (procs self !! pid = None) then
        modify (set_procs <[pid := p]>) ;;;
        _ <- proc_cpu_percent pid (q_baseline q) ;;
        ret tt
      else ret tt) ;;;
     p_cpu <- proc_cpu_percent pid (q_cpu q) ;;
     p_mem <- extern (MemoryPercent pid) (q_mem q) ;;
     p_name <- extern (ProcName pid) (q_name q) ;;
     ret (proc_list ++ [{| p_pid := pid; p_name := p_name;
                           p_cpu_percent := p_cpu;
                           p_memory_percent := p_mem |}]))%py
    (fun _ => modify (set_procs (delete pid)) ;;; ret proc_list)%py.

(** One turn of the loop: the step of the iterator, then the body. *)
Definition scan_item (q : Queries) (proc_list : list ProcInfo)
    : M t (list ProcInfo) :=
  (p <- yielded q ;; scan_body q p proc_list)%py.

Fixpoint scan_loop (qs : list Queries) (proc_list : list ProcInfo)
    : M t (list ProcInfo) :=
  match qs with
  | [] => ret proc_list
  | q :: qs' =>
      (proc_list' <- scan_item q proc_list ;; scan_loop qs' proc_list')%py
  end.

(** [for pid in cached_pids - current_pids: del self.procs[pid]] *)
Definition remove_dead (current_pids : gset Z) (m : gmap Z Process)
    : gmap Z Process :=
  foldr delete m (elements (dom m ∖ current_pids)).

(** The body of the [try] of a scanning cycle. *)
Definition scan (os : Os) : M t (list ProcInfo) :=
  (current <- extern PsutilPids (pids os) ;;
   let current_pids : gset Z := list_to_set current in
   modify (set_procs (remove_dead current_pids)) ;;;
   emit ProcessIter ;;;
   proc_list <- scan_loop (process_iter os) [] ;;
   let top_procs := take 5 (sorted_desc proc_list) in
   modify (set_cached_top_procs top_procs) ;;;
   ret top_procs)%py.

(** The divisor of the network rates. *)
Definition rate_dt (elapsed : Q) : Q :=
  if Qeq_bool elapsed 0 then (1 # 1000)%Q else elapsed.

(** [collect()] without its disk loop: the network rates, the tick, the
    throttled scan, and the dictionary that is returned at the end.  The
    disk loop, the one part of [collect()] that can raise, is added by
    [CollectDisks.collect_with_disks] below, which is the whole function. *)
Definition collect (os : Os) : M t Metrics :=
  (self <- get ;;
   (* Network Rates *)
   let dt := rate_dt (now os - last_time self) in
   let sent_per_sec :=
     (inject_Z (bytes_sent (net os) - bytes_sent (last_net self)) / dt)%Q in
   let recv_per_sec :=
     (inject_Z (bytes_recv (net os) - bytes_recv (last_net self)) / dt)%Q in
   modify (set_last (net os) (now os)) ;;;
   (* Process Monitoring *)
   modify (fun self => set_tick (tick self + 1) self) ;;;
   self <- get ;;
   let top_procs := cached_top_procs self in
   top_procs <-
     (if Z.eqb (tick self mod 4) 0
      then try_except (scan os) (fun _ => ret top_procs)
      else ret top_procs) ;;
   ret {| m_cpu_percent := cpu_percent os;
          m_memory_percent := memory_percent os;
          net_sent := sent_per_sec;
          net_recv := recv_per_sec;
          top_procs := top_procs |})%py.

End Collect.

End MetricsCollector.

(** ** Vocabulary of the statements *)

(** What [clean] returns: whether [gc.collect()] completed. *)
Definition gc_completed (os : CacheCleaner.Os) : bool :=
  match CacheCleaner.gc_collect os with
  | Returns _ => true
  | Raises _ => false
  end.

(** Some step inside the [try] of [clean] raised. *)
Definition step_raises (self : CacheCleaner.t) (os : CacheCleaner.Os) : Prop :=
  exists e, result_of (CacheCleaner.clean_try self os false) = Raises e.

(** The platform is one of the three families that [clean] knows. *)
Definition recognized (self : CacheCleaner.t) : bool :=
  String.eqb (CacheCleaner.os_type self) "windows"
  || String.eqb (CacheCleaner.os_type self) "linux"
  || String.eqb (CacheCleaner.os_type self) "darwin".

(** The first thing [clean] does, and nothing else does: its log line. *)
Definition is_clean_call (ev : event) : bool :=
  match ev with
  | LoggerInfo msg => String.eqb msg "RAM cleanup triggered (best-effort)"
  | _ => false
  end.

Definition quiet (ev : event) : Prop := is_clean_call ev = false.

(** Every event that [m] can record satisfies [P]. *)
Definition traces {S A} (P : event -> Prop) (m : M S A) : Prop :=
  forall s, Forall P (trace_of (m s)).

(** How many times the reclamation action fired in a trace. *)
Definition reclamations (tr : list event) : nat :=
  length (List.filter is_clean_call tr).

(** The timestamp that the memory rule compares with:
    [self.last_trigger.get("memory", 0)]. *)
Definition last_memory (self : AlertManager.t) : Q :=
  default 0%Q (AlertManager.last_trigger self !! "memory").

(** One cycle of the alert coordinator: the snapshot, whether a callback
    is passed, the clock, and what the platform would answer. *)
Record Cycle : Type := {
  c_metrics : Metrics;
  c_ui_callback : bool;
  c_now : Q;
  c_os : CacheCleaner.Os
}.

(** Consecutive [check()] calls on one [AlertManager]. *)
Fixpoint checks (str_float : Q -> string) (cs : list Cycle)
    : M AlertManager.t (list (list string)) :=
  match cs with
  | [] => ret []
  | c :: cs' =>
      (alerts <- AlertManager.check str_float (c_metrics c) (c_ui_callback c)
                   (c_now c) (c_os c) ;;
       rest <- checks str_float cs' ;;
       ret (alerts :: rest))%py
  end.

(** Every call answers normally: a well-behaved platform. *)
Definition os_quiet : CacheCleaner.Os :=
  {| CacheCleaner.gc_collect := Returns tt;
     CacheCleaner.windll := Returns tt;
     CacheCleaner.pids := Returns [4; 8]%Z;
     CacheCleaner.open_process := fun pid => Returns (pid + 100)%Z;
     CacheCleaner.empty_working_set := fun _ => Returns tt;
     CacheCleaner.close_handle := fun _ => Returns tt;
     CacheCleaner.libc := Returns true;
     CacheCleaner.malloc_trim := Returns tt;
     CacheCleaner.os_system := Returns 0%Z |}.

(** As [os_quiet], but [psutil.pids()] fails inside [_windows_trim]. *)
Definition os_pids_fail : CacheCleaner.Os :=
  {| CacheCleaner.gc_collect := Returns tt;
     CacheCleaner.windll := Returns tt;
     CacheCleaner.pids :=
       Raises {| exn_cls := OtherException; exn_str := "OSError" |};
     CacheCleaner.open_process := fun pid => Returns (pid + 100)%Z;
     CacheCleaner.empty_working_set := fun _ => Returns tt;
     CacheCleaner.close_handle := fun _ => Returns tt;
     CacheCleaner.libc := Returns true;
     CacheCleaner.malloc_trim := Returns tt;
     CacheCleaner.os_system := Returns 0%Z |}.

(** As [os_quiet], but [gc.collect()] fails. *)
Definition os_gc_fail : CacheCleaner.Os :=
  {| CacheCleaner.gc_collect :=
       Raises {| exn_cls := OtherException; exn_str := "MemoryError" |};
     CacheCleaner.windll := Returns tt;
     CacheCleaner.pids := Returns [4; 8]%Z;
     CacheCleaner.open_process := fun pid => Returns (pid + 100)%Z;
     CacheCleaner.empty_working_set := fun _ => Returns tt;
     CacheCleaner.close_handle := fun _ => Returns tt;
     CacheCleaner.libc := Returns true;
     CacheCleaner.malloc_trim := Returns tt;
     CacheCleaner.os_system := Returns 0%Z |}.

Definition freebsd : CacheCleaner.t := {| CacheCleaner.os_type := "freebsd" |}.
Definition windows : CacheCleaner.t := {| CacheCleaner.os_type := "windows" |}.
Definition linux : CacheCleaner.t := {| CacheCleaner.os_type := "linux" |}.

(** A snapshot with the given CPU and memory percentages. *)
Definition snapshot (cpu mem : Q) : Metrics :=
  {| m_cpu_percent := cpu; m_memory_percent := mem;
     net_sent := 0; net_recv := 0; top_procs := [] |}.

(** A float printer for the examples: the numerator and the denominator. *)
Definition show_Q (q : Q) : string :=
  pretty (Qnum q) +:+ "/" +:+ pretty (Zpos (Qden q)).

(** The spec's reading of [clean] on an unrecognized platform. *)
Definition spec_unrecognized_is_false (self : CacheCleaner.t)
    (os : CacheCleaner.Os) : Prop :=
  recognized self = false ->
  result_of (CacheCleaner.clean self os false) = Returns false.

(** The spec's reading of a raising reclamation: with a fresh trigger and
    a callback, the notification is "skipped" and never "completed". *)
Definition spec_raise_is_skipped (str_float : Q -> string) (metrics : Metrics)
    (now : Q) (os : CacheCleaner.Os) (self : AlertManager.t) : Prop :=
  step_raises (AlertManager.cleaner self) os ->
  (90 < m_memory_percent metrics)%Q ->
  (AlertManager.cooldown < now - last_memory self)%Q ->
  let tr := trace_of (AlertManager.check str_float metrics true now os self) in
  In (UiCallback "RAM cleanup skipped (OS restricted)") tr
  /\ ~ In (UiCallback "RAM cleanup completed (best-effort)") tr.

(** The spec's reading of the end of the cooldown: the action fires again
    as soon as [now - t >= 60]. *)
Definition spec_refires_at_cooldown (str_float : Q -> string) (metrics : Metrics)
    (cb : bool) (now : Q) (os : CacheCleaner.Os) (self : AlertManager.t) : Prop :=
  forall t, AlertManager.last_trigger self !! "memory" = Some t ->
  (90 < m_memory_percent metrics)%Q ->
  (60 <= now - t)%Q ->
  reclamations (trace_of (AlertManager.check str_float metrics cb now os self)) = 1%nat.

(** The steps of a memory trigger, in the order of the spec. *)
Definition trigger_steps (str_float : Q -> string) (metrics : Metrics)
    (cb : bool) (now : Q) (os : CacheCleaner.Os) (self : AlertManager.t)
    : list event :=
  [SetLastTrigger "memory" now]
  ++ (if cb then [UiCallback (AlertManager.memory_detected str_float metrics)]
      else [])
  ++ trace_of (CacheCleaner.clean (AlertManager.cleaner self) os false)
  ++ (if cb
      then [UiCallback (if gc_completed os
                        then "RAM cleanup completed (best-effort)"
                        else "RAM cleanup skipped (OS restricted)")]
      else [])
  ++ [AlertsAppend (AlertManager.memory_alert str_float metrics)].

(** The spec's reading of a fresh trigger: the memory percent is above the
    threshold and the rule never triggered, or its cooldown has elapsed;
    then the steps are performed. *)
Definition spec_fresh_trigger_steps (str_float : Q -> string) (metrics : Metrics)
    (now : Q) (os : CacheCleaner.Os) (self : AlertManager.t) : Prop :=
  (90 < m_memory_percent metrics)%Q ->
  (AlertManager.last_trigger self !! "memory" = None
   \/ exists t, AlertManager.last_trigger self !! "memory" = Some t
                /\ (AlertManager.cooldown < now - t)%Q) ->
  exists pre,
    trace_of (AlertManager.check str_float metrics true now os self)
    = pre ++ trigger_steps str_float metrics true now os self.

(** A cycle of the examples: memory at 95 percent, CPU at 10 percent, a
    callback, a well-behaved platform. *)
Definition pressure_at (now : Q) : Cycle :=
  {| c_metrics := snapshot 10 95; c_ui_callback := true;
     c_now := now; c_os := os_quiet |}.

(** The manager after a first trigger at clock 100. *)
Definition triggered_at_100 : AlertManager.t :=
  store_of (AlertManager.check show_Q (snapshot 10 95) true 100 os_quiet
              (AlertManager.__init__ linux)).

(** Consecutive [collect()] calls on one [MetricsCollector]. *)
Fixpoint collects (cpu_between : MetricsCollector.Sample -> MetricsCollector.Sample -> Q)
    (oss : list MetricsCollector.Os) : M MetricsCollector.t (list Metrics) :=
  match oss with
  | [] => ret []
  | os :: oss' =>
      (m <- MetricsCollector.collect cpu_between os ;;
       rest <- collects cpu_between oss' ;;
       ret (m :: rest))%py
  end.

(** The wall-clock time since the previous [collect()]. *)
Definition elapsed (os : MetricsCollector.Os) (self : MetricsCollector.t) : Q :=
  MetricsCollector.now os - MetricsCollector.last_time self.

Definition delta_sent (os : MetricsCollector.Os) (self : MetricsCollector.t) : Z :=
  MetricsCollector.bytes_sent (MetricsCollector.net os)
  - MetricsCollector.bytes_sent (MetricsCollector.last_net self).

Definition delta_recv (os : MetricsCollector.Os) (self : MetricsCollector.t) : Z :=
  MetricsCollector.bytes_recv (MetricsCollector.net os)
  - MetricsCollector.bytes_recv (MetricsCollector.last_net self).

(** The spec's formula for a rate:
    [(current - previous) / max(elapsed_seconds, epsilon)]. *)
Definition epsilon : Q := 1 # 1000.

Definition spec_rate (delta : Z) (elapsed_seconds : Q) : Q :=
  inject_Z delta / Qmax elapsed_seconds epsilon.

(** The spec's reading of the rates: computed by [spec_rate], over a
    positive divisor. *)
Definition spec_rates_by_max
    (cpu_between : MetricsCollector.Sample -> MetricsCollector.Sample -> Q)
    (os : MetricsCollector.Os) (self : MetricsCollector.t) : Prop :=
  (0 < MetricsCollector.rate_dt (elapsed os self))%Q
  /\ forall m,
      result_of (MetricsCollector.collect cpu_between os self) = Returns m ->
      (net_sent m == spec_rate (delta_sent os self) (elapsed os self))%Q
      /\ (net_recv m == spec_rate (delta_recv os self) (elapsed os self))%Q.

(** The spec's reading of the rates' sign: never negative, and 0 when a
    counter went down. *)
Definition spec_rates_nonnegative
    (cpu_between : MetricsCollector.Sample -> MetricsCollector.Sample -> Q)
    (os : MetricsCollector.Os) (self : MetricsCollector.t) : Prop :=
  forall m,
    result_of (MetricsCollector.collect cpu_between os self) = Returns m ->
    (0 <= net_sent m)%Q /\ (0 <= net_recv m)%Q
    /\ ((delta_sent os self < 0)%Z -> (net_sent m == 0)%Q)
    /\ ((delta_recv os self < 0)%Z -> (net_recv m == 0)%Q).

(** Everything of the collector but the process cache is the same. *)
Definition frame (s s' : MetricsCollector.t) : Prop :=
  MetricsCollector.last_net s' = MetricsCollector.last_net s
  /\ MetricsCollector.last_time s' = MetricsCollector.last_time s
  /\ MetricsCollector.cached_top_procs s' = MetricsCollector.cached_top_procs s
  /\ MetricsCollector.tick s' = MetricsCollector.tick s.

(** The process cache holds the same under [pid]. *)
Definition same_at (pid : Z) (s s' : MetricsCollector.t) : Prop :=
  MetricsCollector.procs s' !! pid = MetricsCollector.procs s !! pid.

(** [m] relates every store to the store it leaves. *)
Definition stable {S A} (R : S -> S -> Prop) (m : M S A) : Prop :=
  forall s, R s (store_of (m s)).

(** psutil's percentage, for the examples: CPU seconds per second of
    timer, in percent. *)
Definition percent_between (b c : MetricsCollector.Sample) : Q :=
  (MetricsCollector.s_cpu_time c - MetricsCollector.s_cpu_time b)
  / (MetricsCollector.s_timer c - MetricsCollector.s_timer b) * 100.

(** A cycle of the examples: the clock, the sent counter, no process. *)
Definition net_at (time : Q) (sent : Z) : MetricsCollector.Os :=
  {| MetricsCollector.now := time;
     MetricsCollector.net :=
       {| MetricsCollector.bytes_sent := sent; MetricsCollector.bytes_recv := 0 |};
     MetricsCollector.pids := Returns [];
     MetricsCollector.process_iter := [];
     MetricsCollector.cpu_percent := 10;
     MetricsCollector.memory_percent := 50 |}.

(** A collector built at clock [time] with [sent] bytes on the counter. *)
Definition collector_at (time : Q) (sent : Z) : MetricsCollector.t :=
  MetricsCollector.__init__
    {| MetricsCollector.bytes_sent := sent; MetricsCollector.bytes_recv := 0 |}
    time.

(** The pid that the iteration reports for an item. *)
Definition pid_of (q : MetricsCollector.Queries) : Z :=
  MetricsCollector.h_pid (MetricsCollector.q_proc q).

(** The cached object [p] as the body of the loop finds it, after the
    step of the iterator for [q]. *)
Definition seen (q : MetricsCollector.Queries) (p : MetricsCollector.Process)
    : MetricsCollector.Process :=
  if MetricsCollector.same_object p (MetricsCollector.q_proc q)
  then MetricsCollector.with_info (MetricsCollector.q_info q) p
  else p.

(** The collector after the step of the iterator for [q]. *)
Definition after_yield (q : MetricsCollector.Queries) (s : MetricsCollector.t)
    : MetricsCollector.t :=
  match MetricsCollector.procs s !! pid_of q with
  | Some p => MetricsCollector.set_procs <[pid_of q := seen q p]> s
  | None => s
  end.

(** The object that the iterator hands to the body for [q]. *)
Definition yield_object (q : MetricsCollector.Queries) (s : MetricsCollector.t)
    : MetricsCollector.Process :=
  match MetricsCollector.procs s !! pid_of q with
  | Some p =>
      if MetricsCollector.same_object p (MetricsCollector.q_proc q)
      then MetricsCollector.with_info (MetricsCollector.q_info q) p
      else MetricsCollector.with_info (MetricsCollector.q_info q)
             (MetricsCollector.q_proc q)
  | None =>
      MetricsCollector.with_info (MetricsCollector.q_info q)
        (MetricsCollector.q_proc q)
  end.

(** An outcome that the per-process handler of the scan does not catch. *)
Definition escapes {A} (o : outcome A) : bool :=
  match o with
  | Returns _ => false
  | Raises e => negb (MetricsCollector.caught_by_scan (exn_cls e))
  end.

(** Some query on this item raises past the per-process handler, which
    ends the scan. *)
Definition aborts (q : MetricsCollector.Queries) : bool :=
  escapes (MetricsCollector.q_baseline q) || escapes (MetricsCollector.q_cpu q)
  || escapes (MetricsCollector.q_mem q) || escapes (MetricsCollector.q_name q).

(** During the cycle [os], the iteration yields [q] for [pid], every query
    on it answers, and no other item carries [pid] or ends the scan. *)
Definition arrives (pid : Z) (os : MetricsCollector.Os)
    (q : MetricsCollector.Queries) (b c : MetricsCollector.Sample)
    (mem : Q) (name : string) : Prop :=
  exists qs1 qs2,
    MetricsCollector.process_iter os = qs1 ++ q :: qs2
    /\ pid_of q = pid
    /\ Forall (fun q' => pid_of q' <> pid /\ aborts q' = false) (qs1 ++ qs2)
    /\ MetricsCollector.q_baseline q = Returns b
    /\ MetricsCollector.q_cpu q = Returns c
    /\ MetricsCollector.q_mem q = Returns mem
    /\ MetricsCollector.q_name q = Returns name.

(** The cycle [os], run on [self], reads the CPU percent of [pid] against
    the baseline [b] taken in this very cycle on the object that the
    iteration yielded, and caches that object. *)
Definition fresh_reading
    (cpu_between : MetricsCollector.Sample -> MetricsCollector.Sample -> Q)
    (pid : Z) (q : MetricsCollector.Queries) (b c : MetricsCollector.Sample)
    (mem : Q) (name : string)
    (os : MetricsCollector.Os) (self : MetricsCollector.t) : Prop :=
  let r := MetricsCollector.collect cpu_between os self in
  MetricsCollector.procs (store_of r) !! pid
  = Some {| MetricsCollector.h_pid := pid;
            MetricsCollector.h_ident :=
              MetricsCollector.h_ident (MetricsCollector.q_proc q);
            MetricsCollector.h_last := Some c |}
  /\ exists m,
      result_of r = Returns m
      /\ (forall e, In e (top_procs m) -> p_pid e = pid ->
                    p_cpu_percent e = cpu_between b c)
      /\ ((length (MetricsCollector.process_iter os) <= 5)%nat ->
          In {| p_pid := pid; p_name := name;
                p_cpu_percent := cpu_between b c;
                p_memory_percent := mem |} (top_procs m)).

(** No process of the cycle carries [pid]. *)
Definition unassigned (pid : Z) (os : MetricsCollector.Os) : Prop :=
  Forall (fun q => pid_of q <> pid) (MetricsCollector.process_iter os).

(** The collector after three calls: the next call scans. *)
Definition after_three_calls : MetricsCollector.t :=
  store_of (collects percent_between [net_at 1 10; net_at 2 20; net_at 3 30]
              (collector_at 0 0)).

(** A process of the examples: every query answers; the call of the
    iterator and the baseline read report [cpu0] seconds of CPU at timer
    [t0], the reading reports [cpu1] seconds at timer [t1]. *)
Definition answering (pid ident : Z) (name : string) (t0 cpu0 t1 cpu1 : Q)
    : MetricsCollector.Queries :=
  {| MetricsCollector.q_proc :=
       {| MetricsCollector.h_pid := pid; MetricsCollector.h_ident := ident;
          MetricsCollector.h_last := None |};
     MetricsCollector.q_info :=
       Some {| MetricsCollector.s_timer := t0;
               MetricsCollector.s_cpu_time := cpu0 |};
     MetricsCollector.q_baseline :=
       Returns {| MetricsCollector.s_timer := t0;
                  MetricsCollector.s_cpu_time := cpu0 |};
     MetricsCollector.q_cpu :=
       Returns {| MetricsCollector.s_timer := t1;
                  MetricsCollector.s_cpu_time := cpu1 |};
     MetricsCollector.q_mem := Returns 1%Q;
     MetricsCollector.q_name := Returns name |}.

(** A cycle of the examples with the given pids and processes. *)
Definition scan_at (time : Q) (live : list Z)
    (qs : list MetricsCollector.Queries) : MetricsCollector.Os :=
  {| MetricsCollector.now := time;
     MetricsCollector.net :=
       {| MetricsCollector.bytes_sent := 0; MetricsCollector.bytes_recv := 0 |};
     MetricsCollector.pids := Returns live;
     MetricsCollector.process_iter := qs;
     MetricsCollector.cpu_percent := 10;
     MetricsCollector.memory_percent := 50 |}.

Definition init_proc (t0 cpu0 t1 cpu1 : Q) : MetricsCollector.Queries :=
  answering 1 100 "init" t0 cpu0 t1 cpu1.

(** The first process with pid 42, and the one that gets pid 42 later. *)
Definition old_42 : MetricsCollector.Queries :=
  answering 42 200 "old" 4 900 (401 # 100) 900.

Definition new_42 : MetricsCollector.Queries :=
  answering 42 300 "new" 12 0 (1201 # 100) (1 # 200).

(** Seven cycles: the scan of the fourth one tracks pid 42. *)
Definition tracking_42 : MetricsCollector.t :=
  store_of (collects percent_between
              [net_at 5 50; net_at 6 60; net_at 7 70]
              (store_of (MetricsCollector.collect percent_between
                           (scan_at 4 [1; 42]%Z [init_proc 4 10 4 10; old_42])
                           after_three_calls))).

(** The eighth cycle scans and pid 42 is gone; three quiet cycles follow;
    the twelfth cycle scans and finds a new process under pid 42. *)
Definition gone_42 : MetricsCollector.Os :=
  scan_at 8 [1]%Z [init_proc 8 11 8 11].

Definition back_42 : MetricsCollector.Os :=
  scan_at 12 [1; 42]%Z [init_proc 12 12 12 12; new_42].

(** The spec's reading of a reassigned pid: whenever the cache holds,
    under [pid], the object of a process that is no more, and a new
    process carries [pid] at a scan, the new process is read against a
    fresh baseline. *)
Definition spec_reassigned_is_fresh
    (cpu_between : MetricsCollector.Sample -> MetricsCollector.Sample -> Q)
    (pid : Z) (q : MetricsCollector.Queries) (b c : MetricsCollector.Sample)
    (mem : Q) (name : string)
    (os : MetricsCollector.Os) (self : MetricsCollector.t) : Prop :=
  forall old,
    MetricsCollector.procs self !! pid = Some old ->
    MetricsCollector.h_ident old
    <> MetricsCollector.h_ident (MetricsCollector.q_proc q) ->
    ((MetricsCollector.tick self + 1) mod 4 = 0)%Z ->
    arrives pid os q b c mem name ->
    fresh_reading cpu_between pid q b c mem name os self.

(** The process of pid 42 ends after the seventh cycle and another process
    gets pid 42 before the eighth: half a CPU busy since timer 8. *)
Definition reused_42 : MetricsCollector.Queries :=
  answering 42 300 "new" 8 0 (801 # 100) (1 # 200).

Definition reused_42_at_8 : MetricsCollector.Os :=
  scan_at 8 [1; 42]%Z [init_proc 8 11 8 11; reused_42].

(** ** Vocabulary of the platform steps *)

(** The call answered. *)
Definition returned {A} (o : outcome A) : bool :=
  match o with
  | Returns _ => true
  | Raises _ => false
  end.

(** [_linux_trim] goes through: the library loads, it has [malloc_trim],
    and the call answers. *)
Definition linux_trims (os : CacheCleaner.Os) : bool :=
  match CacheCleaner.libc os with
  | Returns has => has && returned (CacheCleaner.malloc_trim os)
  | Raises _ => false
  end.

(** [_mac_trim] goes through: [os.system] answers with status 0. *)
Definition mac_purges (os : CacheCleaner.Os) : bool :=
  match CacheCleaner.os_system os with
  | Returns status => Z.eqb status 0
  | Raises _ => false
  end.

(** The working set of [pid] is trimmed: the handle is not null and both
    calls on it answer. *)
Definition trims_pid (os : CacheCleaner.Os) (pid : Z) : bool :=
  match CacheCleaner.open_process os pid with
  | Returns handle =>
      negb (Z.eqb handle 0)
      && returned (CacheCleaner.empty_working_set os handle)
      && returned (CacheCleaner.close_handle os handle)
  | Raises _ => false
  end.

(** The pids on which [OpenProcess] was called, in the order of the calls. *)
Fixpoint opened (tr : list event) : list Z :=
  match tr with
  | [] => []
  | OpenProcess pid :: tr' => pid :: opened tr'
  | _ :: tr' => opened tr'
  end.

(** A call on a process handle. *)
Definition handle_call (ev : event) : Prop :=
  match ev with
  | OpenProcess _ | EmptyWorkingSet _ | CloseHandle _ => True
  | _ => False
  end.

(** The log line of a successful [_windows_trim]. *)
Definition trimmed_line (count : Z) : event :=
  LoggerInfo ("Trimmed working set for " +:+ pretty count +:+ " processes").

(** [logger.error] was called. *)
Definition is_error (ev : event) : bool :=
  match ev with
  | LoggerError _ => true
  | _ => false
  end.

(** The unguarded part of [_windows_trim] fails: [ctypes.windll] or
    [psutil.pids()]. *)
Definition windows_fails (os : CacheCleaner.Os) : bool :=
  negb (returned (CacheCleaner.windll os))
  || negb (returned (CacheCleaner.pids os)).

(** The times that [check] recorded in [last_trigger], in order. *)
Fixpoint trigger_times (tr : list event) : list Q :=
  match tr with
  | [] => []
  | SetLastTrigger _ time :: tr' => time :: trigger_times tr'
  | _ :: tr' => trigger_times tr'
  end.

(** Each time is more than the cooldown after the one before it, the
    first one after [last]. *)
Fixpoint spaced (last : Q) (times : list Q) : Prop :=
  match times with
  | [] => True
  | time :: times' =>
      (AlertManager.cooldown < time - last)%Q /\ spaced time times'
  end.

(** The last time of a list, [last] for the empty list. *)
Definition final_time (last : Q) (times : list Q) : Q :=
  List.last times last.

Definition no_trigger (ev : event) : Prop :=
  match ev with
  | SetLastTrigger _ _ => False
  | _ => True
  end.

Definition no_error (ev : event) : Prop := is_error ev = false.

(** ** Vocabulary of the process ranking *)

(** [a] does not rank below [b]: the order of [top_procs]. *)
Definition cpu_ge (a b : ProcInfo) : Prop :=
  (p_cpu_percent b <= p_cpu_percent a)%Q.

(** The entry has the CPU percent [k]. *)
Definition same_cpu (k : Q) (e : ProcInfo) : bool :=
  Qeq_bool (p_cpu_percent e) k.


(** [top] is the head of a stable descending sort of [pl], cut at five:
    with the entries left out it is a permutation of [pl], in descending
    order, and entries of equal CPU percent keep the order of [pl]. *)
Definition top_five_of (top pl : list ProcInfo) : Prop :=
  exists rest,
    length top = Nat.min 5 (length pl)
    /\ Permutation (top ++ rest) pl
    /\ StronglySorted cpu_ge (top ++ rest)
    /\ forall k, List.filter (same_cpu k) (top ++ rest)
                 = List.filter (same_cpu k) pl.

(** ** Vocabulary of the process cache *)

(** Every object of the cache is filed under its own pid. *)
Definition keyed (m : gmap Z MetricsCollector.Process) : Prop :=
  forall k p, m !! k = Some p -> MetricsCollector.h_pid p = k.

(** A cache that is [keyed] stays so. *)
Definition keeps_keyed (s s' : MetricsCollector.t) : Prop :=
  keyed (MetricsCollector.procs s) -> keyed (MetricsCollector.procs s').

(** The exception of a call that raised. *)
Definition failure {A} (o : outcome A) : option exn :=
  match o with
  | Returns _ => None
  | Raises e => Some e
  end.

(** The first query on an item that raises, among the queries that the
    scan makes: the baseline read is made for a pid that is not yet in the
    cache ([is_new]), then the reading, the memory percent and the name. *)
Definition first_failure (is_new : bool) (q : MetricsCollector.Queries)
    : option exn :=
  match (if is_new then failure (MetricsCollector.q_baseline q) else None) with
  | Some e => Some e
  | None =>
      match failure (MetricsCollector.q_cpu q) with
      | Some e => Some e
      | None =>
          match failure (MetricsCollector.q_mem q) with
          | Some e => Some e
          | None => failure (MetricsCollector.q_name q)
          end
      end
  end.

(** During the cycle [os], the iteration yields [q] for [pid], the three
    queries of the reading answer, and no other item carries [pid] or ends
    the scan. *)
Definition present (pid : Z) (os : MetricsCollector.Os)
    (q : MetricsCollector.Queries) (c : MetricsCollector.Sample)
    (mem : Q) (name : string) : Prop :=
  exists qs1 qs2,
    MetricsCollector.process_iter os = qs1 ++ q :: qs2
    /\ pid_of q = pid
    /\ Forall (fun q' => pid_of q' <> pid /\ aborts q' = false) (qs1 ++ qs2)
    /\ MetricsCollector.q_cpu q = Returns c
    /\ MetricsCollector.q_mem q = Returns mem
    /\ MetricsCollector.q_name q = Returns name.

(** The cycle [os], run on [self], reads the CPU percent of [pid] on the
    cached object [p], against the accounting [a], and the reading [c]
    becomes the accounting of the object. *)
Definition reading_against
    (cpu_between : MetricsCollector.Sample -> MetricsCollector.Sample -> Q)
    (pid : Z) (p : MetricsCollector.Process) (a c : MetricsCollector.Sample)
    (mem : Q) (name : string)
    (os : MetricsCollector.Os) (self : MetricsCollector.t) : Prop :=
  let r := MetricsCollector.collect cpu_between os self in
  MetricsCollector.procs (store_of r) !! pid
  = Some {| MetricsCollector.h_pid := MetricsCollector.h_pid p;
            MetricsCollector.h_ident := MetricsCollector.h_ident p;
            MetricsCollector.h_last := Some c |}
  /\ exists m,
      result_of r = Returns m
      /\ (forall e, In e (top_procs m) -> p_pid e = pid ->
                    p_cpu_percent e = cpu_between a c)
      /\ ((length (MetricsCollector.process_iter os) <= 5)%nat ->
          In {| p_pid := pid; p_name := name;
                p_cpu_percent := cpu_between a c;
                p_memory_percent := mem |} (top_procs m)).

(** ** The disks of [MetricsCollector.collect] *)

(** The loop over [psutil.disk_partitions(all=False)] that ends
    [collect()], after the process scan. *)
Module CollectDisks.

(** A partition, as [psutil] describes it. *)
Record Partition : Type := {
  device : string;
  mountpoint : string;
  fstype : string;
  opts : string
}.

(** The entry of a disk: [{"total", "used", "free", "percent"}]. *)
Record Usage : Type := {
  total : Z;
  used : Z;
  free : Z;
  percent : Q
}.

(** What [psutil.disk_usage(mountpoint)] does: [PermissionError] is the
    one exception that the loop catches. *)
Inductive answer : Type :=
| Answers (u : Usage)
| PermissionError
| Fails (e : exn).

(** [needle in hay] on strings. *)
Fixpoint contains (needle hay : string) : bool :=
  String.prefix needle hay
  || match hay with
     | EmptyString => false
     | String _ hay' => contains needle hay'
     end.

(** The test that sends the loop to the next partition. *)
Definition skipped (part : Partition) : bool :=
  contains "cdrom" (opts part) || String.eqb (fstype part) "".

Fixpoint disks_loop (disk_usage : string -> answer) (parts : list Partition)
    (disks : gmap string Usage) : outcome (gmap string Usage) :=
  match parts with
  | [] => Returns disks
  | part :: parts' =>
      if skipped part then disks_loop disk_usage parts' disks
      else
        match disk_usage (mountpoint part) with
        | Answers usage =>
            disks_loop disk_usage parts' (<[device part := usage]> disks)
        | PermissionError => disks_loop disk_usage parts' disks
        | Fails e => Raises e
        end
  end.


End CollectDisks.

(** The partition is reported: it is not skipped and its usage query
    answers. *)
Definition reported (disk_usage : string -> CollectDisks.answer)
    (part : CollectDisks.Partition) : Prop :=
  CollectDisks.skipped part = false
  /\ exists u, disk_usage (CollectDisks.mountpoint part) = CollectDisks.Answers u.

(** The usage query of the partition is made and raises something else
    than [PermissionError]. *)
Definition breaks (disk_usage : string -> CollectDisks.answer)
    (part : CollectDisks.Partition) : Prop :=
  CollectDisks.skipped part = false
  /\ exists e, disk_usage (CollectDisks.mountpoint part) = CollectDisks.Fails e.




(** ** SysMonDashboard *)

Module SysMonDashboard.

Record t : Type := { logs : list string }.

(** [__init__]: [self.logs = []]; the other attributes are static texts. *)
Definition __init__ : t := {| logs := [] |}.

(** The line that [add_log] appends. *)
Definition entry (timestamp message : string) : string :=
  "[" +:+ timestamp +:+ "] " +:+ message.

(** [l[-10:]] *)
Definition last_ten {A} (l : list A) : list A := drop (length l - 10) l.

(** [timestamp] is what [datetime.now().strftime("%H:%M:%S")] gives. *)
Definition add_log (timestamp message : string) (self : t) : t :=
  {| logs := last_ten (logs self ++ [entry timestamp message]) |}.

(** [_get_color] *)
Definition _get_color (value : Q) : string :=
  if Qgtb 50 value then "green"
  else if Qgtb 80 value then "yellow"
  else "bold red".

(** [int(x)] on a float: truncation towards zero. *)
Definition py_int (x : Q) : Z := Z.quot (Qnum x) (Zpos (Qden x)).

(** The two characters of a bar: "█" and "░". *)
Inductive cell : Type := Full | Hollow.

(** [s * n] for a one-character string: empty when [n <= 0]. *)
Definition times (c : cell) (n : Z) : list cell := repeat c (Z.to_nat n).

(** What [_make_bar] formats as [f"[{color}]{bar}[/] {value:>3.0f}%"]. *)
Record Bar : Type := {
  bar_color : string;
  bar_cells : list cell;
  bar_value : Q
}.

(** [float] gives the float nearest to a real number: the percentage is
    a float, and each of the two operations of [(value / 100) * width]
    rounds its exact result. *)
Definition _make_bar (float : Q -> Q) (value : Q) (width : Z) : Bar :=
  let color := _get_color value in
  let filled := py_int (float (float (value / 100) * inject_Z width))%Q in
  {| bar_color := color;
     bar_cells := times Full filled ++ times Hollow (width - filled);
     bar_value := value |}.

(** The loop of [_format_bytes]: [while size > power: size /= power;
    n += 1].  [fuel] bounds the number of turns; [scale_enough] below
    shows that the bound used by [_format_bytes], the number of bits of
    the size, is never reached. *)
Fixpoint scale (fuel : nat) (size : Q) (n : Z) : Q * Z :=
  match fuel with
  | O => (size, n)
  | S fuel' =>
      if Qgtb size 1024 then scale fuel' (size / 1024) (n + 1) else (size, n)
  end.

Definition power_labels : gmap Z string :=
  {[ 0%Z := ""; 1%Z := "K"; 2%Z := "M"; 3%Z := "G"; 4%Z := "T" ]}.

Section Format.

(** [f"{size:.1f}"] *)
Variable format_1f : Q -> string.

Definition _format_bytes (size : Q) : outcome string :=
  let '(size', n) := scale (Z.to_nat (Z.log2_up (Qceiling size))) size 0 in
  match power_labels !! n with
  | Some label => Returns (format_1f size' +:+ " " +:+ label +:+ "B/s")
  | None => Raises {| exn_cls := KeyError; exn_str := pretty n |}
  end.

End Format.

(** One labelled bar of [cores_panel]: [f"C{number:02d}: {bar}"]. *)
Record CoreCell : Type := {
  core_number : Z;
  core_bar : Bar
}.

(** The rows of [cores_panel]: [for i in range(0, len(cores), 2)], where
    [rest] is [cores[i:]].  The second cell of a row stays [""] when
    [i + 1 < len(cores)] fails. *)
Fixpoint cores_rows (float : Q -> Q) (i : Z) (rest : list Q)
    : list (CoreCell * option CoreCell) :=
  match rest with
  | [] => []
  | [c1] =>
      [({| core_number := i + 1; core_bar := _make_bar float c1 10 |}, None)]
  | c1 :: c2 :: rest' =>
      ({| core_number := i + 1; core_bar := _make_bar float c1 10 |},
       Some {| core_number := i + 2; core_bar := _make_bar float c2 10 |})
      :: cores_rows float (i + 2) rest'
  end.

Definition cores_panel (float : Q -> Q) (cores : list Q)
    : list (CoreCell * option CoreCell) :=
  cores_rows float 0 cores.

(** [s.split(sep, 1)] for a one-character [sep]: the text before the first
    [sep] and the text after it.  [None] stands for the list of one element
    that Python returns when [sep] does not occur, which the unpacking
    [ts_part, msg_part = ...] refuses with a [ValueError]. *)
Fixpoint split_once (sep : Ascii.ascii) (s : string) : option (string * string) :=
  match s with
  | EmptyString => None
  | String c rest =>
      if Ascii.eqb c sep then Some (EmptyString, rest)
      else
        match split_once sep rest with
        | Some (before, after) => Some (String c before, after)
        | None => None
        end
  end.

(** [s.lstrip(c)], [s.rstrip(c)] and [s.strip(c)] for one character. *)
Fixpoint lstrip_char (c : Ascii.ascii) (s : string) : string :=
  match s with
  | EmptyString => EmptyString
  | String a rest => if Ascii.eqb a c then lstrip_char c rest else s
  end.

Fixpoint rstrip_char (c : Ascii.ascii) (s : string) : string :=
  match s with
  | EmptyString => EmptyString
  | String a rest =>
      match rstrip_char c rest with
      | EmptyString => if Ascii.eqb a c then EmptyString else String a EmptyString
      | rest' => String a rest'
      end
  end.

Definition strip_char (c : Ascii.ascii) (s : string) : string :=
  rstrip_char c (lstrip_char c s).

(** A row of the event log: [table.add_row(ts, Text(msg, style=style))],
    or [table.add_row("-", log_entry)] from the [except] branch. *)
Inductive LogRow : Type :=
| Parsed (ts msg style : string)
| Unparsed (log_entry : string).

(** What [log_panel] shows: the "No active events..." text, or the table. *)
Inductive LogView : Type :=
| NoEvents
| Events (rows : list LogRow).

(** [needle in hay] *)
Definition contains := CollectDisks.contains.

Section LogPanel.

(** [str.strip()], which removes the white space at both ends. *)
Variable strip : string -> string.

Definition style_of (msg : string) : string :=
  if contains "High" msg then "bold red"
  else if contains "cleanup" msg then "green"
  else "white".

(** One turn of the loop of [log_panel]. *)
Definition log_row (log_entry : string) : LogRow :=
  match split_once "]"%char log_entry with
  | Some (ts_part, msg_part) =>
      let ts := strip_char "["%char ts_part in
      let msg := strip msg_part in
      Parsed ts msg (style_of msg)
  | None => Unparsed log_entry
  end.

Definition log_panel (self : t) : LogView :=
  match logs self with
  | [] => NoEvents
  | _ => Events (map log_row (logs self))
  end.

End LogPanel.

End SysMonDashboard.

(** Consecutive [add_log] calls, each with its timestamp and message. *)
Definition add_logs (calls : list (string * string)) (self : SysMonDashboard.t)
    : SysMonDashboard.t :=
  foldl (fun d call => SysMonDashboard.add_log call.1 call.2 d) self calls.

(** The lines of a list of calls. *)
Definition entries (calls : list (string * string)) : list string :=
  map (fun call => SysMonDashboard.entry call.1 call.2) calls.

(** The cells of the grid of [cores_panel], row by row. *)
Definition cells_of (rows : list (SysMonDashboard.CoreCell
                                  * option SysMonDashboard.CoreCell))
    : list SysMonDashboard.CoreCell :=
  flat_map (fun row => row.1 :: match row.2 with
                                | Some c => [c]
                                | None => []
                                end) rows.

(** Every core with its number, counted from 1, and its bar of width 10. *)
Definition numbered (float : Q -> Q) (cores : list Q)
    : list SysMonDashboard.CoreCell :=
  imap (fun k c => {| SysMonDashboard.core_number := Z.of_nat k + 1;
                      SysMonDashboard.core_bar :=
                        SysMonDashboard._make_bar float c 10 |})
       cores.

(** The text holds no bracket, as a [strftime("%H:%M:%S")] text does. *)
Fixpoint bracket_free (s : string) : bool :=
  match s with
  | EmptyString => true
  | String a rest =>
      negb (Ascii.eqb a "[") && negb (Ascii.eqb a "]") && bracket_free rest
  end.

(** The row in which [log_panel] should show an [add_log] call. *)
Definition shown (strip : string -> string) (call : string * string)
    : SysMonDashboard.LogRow :=
  let msg := strip (" " +:+ call.2) in
  SysMonDashboard.Parsed call.1 msg (SysMonDashboard.style_of msg).

(** ** start_monitor *)

Module StartMonitor.

(** The objects that [start_monitor] creates and its loop works on. *)
Record t : Type := {
  alert_manager : AlertManager.t;
  dashboard : SysMonDashboard.t;
  collector : MetricsCollector.t
}.




Section Loop.

Variable cpu_between : MetricsCollector.Sample -> MetricsCollector.Sample -> Q.
Variable str_float : Q -> string.


End Loop.

End StartMonitor.


(** ** Examples of the further properties *)

(** A platform on which [OpenProcess] gives a null handle for pid 8. *)
Definition os_null_handle : CacheCleaner.Os :=
  {| CacheCleaner.gc_collect := Returns tt;
     CacheCleaner.windll := Returns tt;
     CacheCleaner.pids := Returns [4; 8; 12]%Z;
     CacheCleaner.open_process :=
       fun pid => Returns (if Z.eqb pid 8 then 0 else pid + 100)%Z;
     CacheCleaner.empty_working_set := fun _ => Returns tt;
     CacheCleaner.close_handle := fun _ => Returns tt;
     CacheCleaner.libc := Returns true;
     CacheCleaner.malloc_trim := Returns tt;
     CacheCleaner.os_system := Returns 0%Z |}.

(** A process that used [cpu] percent of a CPU over its last second. *)
Definition busy (pid : Z) (cpu : Q) : MetricsCollector.Queries :=
  answering pid (pid + 100) "worker" 0 0 1 (cpu / 100).

(** Six processes, two of them with the same CPU percent. *)
Definition six_busy : MetricsCollector.Os :=
  scan_at 4 [1; 2; 3; 4; 5; 6]%Z
    [busy 1 10; busy 2 30; busy 3 20; busy 4 30; busy 5 5; busy 6 40].

(** The entry of a [busy] process. *)
Definition busy_entry (pid : Z) (cpu : Q) : ProcInfo :=
  {| p_pid := pid; p_name := "worker";
     p_cpu_percent := percent_between
                        {| MetricsCollector.s_timer := 0;
                           MetricsCollector.s_cpu_time := 0 |}
                        {| MetricsCollector.s_timer := 1;
                           MetricsCollector.s_cpu_time := cpu / 100 |};
     p_memory_percent := 1 |}.

(** The process of pid 42 that [tracking_42] tracks, still running at the
    eighth cycle: half a CPU busy since timer 8. *)
Definition still_42 : MetricsCollector.Queries :=
  answering 42 200 "old" 8 905 (801 # 100) (181001 # 200).

Definition still_42_at_8 : MetricsCollector.Os :=
  scan_at 8 [1; 42]%Z [init_proc 8 11 8 11; still_42].

(** A process with pid 42 whose CPU reading is denied. *)
Definition denied_42 : MetricsCollector.Queries :=
  {| MetricsCollector.q_proc :=
       {| MetricsCollector.h_pid := 42; MetricsCollector.h_ident := 300;
          MetricsCollector.h_last := None |};
     MetricsCollector.q_info := None;
     MetricsCollector.q_baseline :=
       Returns {| MetricsCollector.s_timer := 8;
                  MetricsCollector.s_cpu_time := 0 |};
     MetricsCollector.q_cpu :=
       Raises {| exn_cls := AccessDenied; exn_str := "AccessDenied" |};
     MetricsCollector.q_mem := Returns 1%Q;
     MetricsCollector.q_name := Returns "guarded" |}.

(** A cycle in which [psutil.pids()] raises. *)
Definition pids_fail_at (time : Q) : MetricsCollector.Os :=
  {| MetricsCollector.now := time;
     MetricsCollector.net :=
       {| MetricsCollector.bytes_sent := 0; MetricsCollector.bytes_recv := 0 |};
     MetricsCollector.pids :=
       Raises {| exn_cls := OtherException; exn_str := "OSError" |};
     MetricsCollector.process_iter := [];
     MetricsCollector.cpu_percent := 10;
     MetricsCollector.memory_percent := 50 |}.


(** Three partitions: a disk, an optical drive and a mount that denies
    the usage query; and a fourth one whose query fails. *)
Definition root_part : CollectDisks.Partition :=
  {| CollectDisks.device := "/dev/sda1"; CollectDisks.mountpoint := "/";
     CollectDisks.fstype := "ext4"; CollectDisks.opts := "rw,relatime" |}.

Definition optical_part : CollectDisks.Partition :=
  {| CollectDisks.device := "/dev/sr0"; CollectDisks.mountpoint := "/media/cd";
     CollectDisks.fstype := "iso9660"; CollectDisks.opts := "ro,cdrom" |}.

Definition denied_part : CollectDisks.Partition :=
  {| CollectDisks.device := "/dev/sdb1"; CollectDisks.mountpoint := "/root/vault";
     CollectDisks.fstype := "ext4"; CollectDisks.opts := "rw" |}.

Definition unready_part : CollectDisks.Partition :=
  {| CollectDisks.device := "E:\"; CollectDisks.mountpoint := "E:\";
     CollectDisks.fstype := "FAT32"; CollectDisks.opts := "rw,removable" |}.

Definition root_usage : CollectDisks.Usage :=
  {| CollectDisks.total := 1000; CollectDisks.used := 400;
     CollectDisks.free := 600; CollectDisks.percent := 40 |}.

Definition usage_of (mountpoint : string) : CollectDisks.answer :=
  if String.eqb mountpoint "/" then CollectDisks.Answers root_usage
  else if String.eqb mountpoint "/root/vault" then CollectDisks.PermissionError
  else if String.eqb mountpoint "E:\"
       then CollectDisks.Fails {| exn_cls := OtherException;
                                  exn_str := "OSError" |}
       else CollectDisks.Answers root_usage.

(** A rounding for the examples, coarser than that of the floats:
    downward, to a multiple of 1/1024. *)
Definition to_grid (x : Q) : Q := (inject_Z (Qfloor (x * 1024)) / 1024)%Q.

(** A [strip] for the examples: the spaces at both ends are removed. *)
Definition strip_spaces (s : string) : string :=
  SysMonDashboard.strip_char " " s.

(** Twelve [add_log] calls, one a second. *)
Definition twelve_calls : list (string * string) :=
  map (fun k => ("12:00:" +:+ pretty (10 + k)%Z, "event " +:+ pretty k))
      [0; 1; 2; 3; 4; 5; 6; 7; 8; 9; 10; 11]%Z.



(** * Properties *)

(** ** The effect monad *)

Ltac unfold_monad :=
  unfold bind, ret, emit, get, put, extern, try_except, try_except_of, call,
    getitem, trace_of, store_of, result_of in *.

(** Linear arithmetic with [mod] by a constant. *)
Ltac mod_lia := Z.to_euclidean_division_equations; lia.

(** Closed comparisons of rationals, by evaluation. *)
Ltac q_compute := vm_compute; solve [reflexivity | discriminate].

Lemma Qgtb_true (x y : Q) : Qgtb x y = true <-> (y < x)%Q.
Proof.
  unfold Qgtb. rewrite negb_true_iff. split.
  - intros H. apply Qnot_le_lt. intros Hle.
    apply Qle_bool_iff in Hle. congruence.
  - intros H. destruct (Qle_bool x y) eqn:E; [|reflexivity].
    apply Qle_bool_iff in E. exfalso. apply (Qlt_not_le _ _ H E).
Qed.

Lemma Qgtb_false (x y : Q) : Qgtb x y = false <-> (x <= y)%Q.
Proof.
  unfold Qgtb. rewrite negb_false_iff. apply Qle_bool_iff.
Qed.

Lemma reclamations_app (t1 t2 : list event) :
  reclamations (t1 ++ t2) = (reclamations t1 + reclamations t2)%nat.
Proof. unfold reclamations. by rewrite List.filter_app, length_app. Qed.

(** [traces P m]: every event that [m] can record satisfies [P]. *)
Section Traces.
Context {S : Type} (P : event -> Prop).

Lemma traces_ret {A} (a : A) : traces (S:=S) P (ret a).
Proof. intros s. constructor. Qed.

Lemma traces_get : traces (S:=S) P get.
Proof. intros s. constructor. Qed.

Lemma traces_put (s' : S) : traces P (put s').
Proof. intros s. constructor. Qed.

Lemma traces_emit (ev : event) : P ev -> traces (S:=S) P (emit ev).
Proof. intros H s. by repeat constructor. Qed.

Lemma traces_extern {A} (ev : event) (o : outcome A) :
  P ev -> traces (S:=S) P (extern ev o).
Proof. intros H s. by repeat constructor. Qed.

Lemma traces_bind {A B} (m : M S A) (k : A -> M S B) :
  traces P m -> (forall a, traces P (k a)) -> traces P (bind m k).
Proof.
  intros Hm Hk s. specialize (Hm s). unfold_monad.
  destruct (m s) as [[t s1] [a|e]]; simpl in *; [|done].
  specialize (Hk a s1). destruct (k a s1) as [[t' s2] r]; simpl in *.
  by apply Forall_app.
Qed.

Lemma traces_try_except {A} (m : M S A) (h : exn -> M S A) :
  traces P m -> (forall e, traces P (h e)) -> traces P (try_except m h).
Proof.
  intros Hm Hh s. specialize (Hm s). unfold_monad.
  destruct (m s) as [[t s1] [a|e]]; simpl in *; [done|].
  specialize (Hh e s1). destruct (h e s1) as [[t' s2] r]; simpl in *.
  by apply Forall_app.
Qed.

Lemma traces_try_except_of {A} (c : exn_class -> bool) (m : M S A) (h : exn -> M S A) :
  traces P m -> (forall e, traces P (h e)) -> traces P (try_except_of c m h).
Proof.
  intros Hm Hh s. specialize (Hm s). unfold_monad.
  destruct (m s) as [[t s1] [a|e]]; simpl in *; [done|].
  destruct (c (exn_cls e)); simpl; [|done].
  specialize (Hh e s1). destruct (h e s1) as [[t' s2] r]; simpl in *.
  by apply Forall_app.
Qed.

Lemma traces_for_each {A} (body : A -> M S unit) (l : list A) :
  (forall x, traces P (body x)) -> traces P (for_each l body).
Proof.
  intros Hbody. induction l as [|x l IH]; simpl.
  - apply traces_ret.
  - apply traces_bind; auto.
Qed.

Lemma traces_call {L A} (locals : L) (m : M L A) :
  traces P m -> traces (S:=S) P (call locals m).
Proof.
  intros Hm s. specialize (Hm locals). unfold_monad.
  by destruct (m locals) as [[t s1] r].
Qed.

End Traces.

Ltac traces_step :=
  first
    [ apply traces_ret | apply traces_get | apply traces_put
    | apply traces_emit | apply traces_extern
    | apply traces_bind; [|intros ?] | apply traces_try_except; [|intros ?]
    | apply traces_try_except_of; [|intros ?]
    | apply traces_for_each; intros ? | apply traces_call
    | match goal with |- traces _ (if ?b then _ else _) => destruct b end
    | match goal with |- traces _ (match ?x with _ => _ end) => destruct x end ].

(** ** CacheCleaner.clean *)

Section CleanFacts.
Import CacheCleaner.

Lemma clean_returns (self : t) (os : Os) (s : bool) :
  exists tr, clean self os s = (tr, gc_completed os, Returns (gc_completed os)).
Proof.
  unfold clean, clean_try, gc_completed. unfold_monad.
  destruct (gc_collect os) as [[]|e]; simpl; [|eauto].
  destruct (String.eqb (os_type self) "windows").
  { destruct (_windows_trim os 0%Z) as [[tw sw] [b|e]]; simpl; eauto. }
  destruct (String.eqb (os_type self) "linux").
  { destruct (_linux_trim os tt) as [[tw sw] [b|e]]; simpl; eauto. }
  destruct (String.eqb (os_type self) "darwin").
  { destruct (_mac_trim os tt) as [[tw sw] [b|e]]; simpl; eauto. }
  simpl. eauto.
Qed.

Lemma clean_store_irrelevant (self : t) (os : Os) (s : bool) :
  clean self os s = clean self os false.
Proof. reflexivity. Qed.

Lemma clean_unrecognized (self : t) (os : Os) (s : bool) :
  recognized self = false ->
  trace_of (clean self os s) =
    [LoggerInfo "RAM cleanup triggered (best-effort)"; GcCollect]
    ++ match gc_collect os with
       | Returns _ => []
       | Raises e => [LoggerError ("RAM cleanup error: " +:+ exn_str e)]
       end.
Proof.
  unfold recognized. intros H.
  apply orb_false_elim in H as [H Hd]. apply orb_false_elim in H as [Hw Hl].
  unfold clean, clean_try. unfold_monad. rewrite Hw, Hl, Hd.
  destruct (gc_collect os) as [[]|e]; reflexivity.
Qed.

Lemma windows_trim_quiet (os : Os) : traces quiet (_windows_trim os).
Proof. unfold _windows_trim. repeat traces_step; reflexivity. Qed.

Lemma linux_trim_quiet (os : Os) : traces quiet (_linux_trim os).
Proof. unfold _linux_trim. repeat traces_step; reflexivity. Qed.

Lemma mac_trim_quiet (os : Os) : traces quiet (_mac_trim os).
Proof. unfold _mac_trim. repeat traces_step; reflexivity. Qed.

(** One [clean()] is one reclamation, whatever the platform does. *)
Lemma clean_reclamations (self : t) (os : Os) (s : bool) :
  reclamations (trace_of (clean self os s)) = 1%nat.
Proof.
  assert (Hq : traces quiet
            (put false ;;; try_except (clean_try self os)
               (fun e => emit (LoggerError ("RAM cleanup error: " +:+ exn_str e))) ;;;
             success <- get ;; ret success)%py).
  { unfold clean_try.
    pose proof (windows_trim_quiet os). pose proof (linux_trim_quiet os).
    pose proof (mac_trim_quiet os).
    repeat traces_step; try reflexivity; assumption. }
  specialize (Hq s). unfold clean. revert Hq.
  generalize (put false ;;; try_except (clean_try self os)
               (fun e => emit (LoggerError ("RAM cleanup error: " +:+ exn_str e))) ;;;
             success <- get ;; ret success)%py.
  intros m Hq. unfold_monad. simpl.
  destruct (m s) as [[t' s2] r]; simpl in *.
  unfold reclamations. simpl. f_equal.
  induction Hq as [|ev l Hev _ IH]; simpl; [done|].
  unfold quiet in Hev. by rewrite Hev.
Qed.

Lemma clean_raises_trace (self : t) (os : Os) (e : exn) :
  result_of (clean_try self os false) = Raises e ->
  exists pre,
    trace_of (clean self os false)
    = pre ++ [LoggerError ("RAM cleanup error: " +:+ exn_str e)].
Proof.
  unfold clean. unfold_monad. simpl.
  destruct (clean_try self os false) as [[tb sb] [[]|e']]; simpl; [done|].
  intros [= ->]. exists (LoggerInfo "RAM cleanup triggered (best-effort)" :: tb).
  simpl. by rewrite app_nil_r.
Qed.

(** C3, as amended.  [clean()] never raises to its caller; it returns
    [True] exactly when the generic [gc.collect()] step completed and
    [False] exactly when that step raised, whatever the platform step
    does; and on a platform that is none of the three recognized families
    it makes no platform-specific call. *)
Theorem clean_never_raises_reports_gc (self : t) (os : Os) (s : bool) :
  (exists tr, clean self os s = (tr, gc_completed os, Returns (gc_completed os)))
  /\ (recognized self = false ->
      Forall (fun ev => platform_event ev = false) (trace_of (clean self os s))).
Proof.
  split; [apply clean_returns|].
  intros H. rewrite (clean_unrecognized _ _ _ H).
  destruct (gc_collect os); repeat constructor.
Qed.

Lemma clean_never_raises_reports_gc_witness :
  recognized freebsd = false
  /\ Forall (fun ev => platform_event ev = false)
        (trace_of (clean freebsd os_gc_fail false)).
Proof.
  split; [reflexivity|].
  apply (proj2 (clean_never_raises_reports_gc freebsd os_gc_fail false)).
  reflexivity.
Defined.

(** C3, as stated, fails: on FreeBSD, with a garbage collector that
    works, [clean()] returns [True]. *)
Lemma clean_unrecognized_returns_true :
  recognized freebsd = false
  /\ result_of (clean freebsd os_quiet false) = Returns true
  /\ ~ spec_unrecognized_is_false freebsd os_quiet.
Proof.
  split; [reflexivity|]. split; [reflexivity|].
  intros H. specialize (H eq_refl). vm_compute in H. discriminate.
Qed.

End CleanFacts.

(** ** AlertManager.check *)

Section CheckFacts.
Import AlertManager.
Variable str_float : Q -> string.

Lemma threshold_cpu : thresholds !! "cpu" = Some 85%Q.
Proof. reflexivity. Qed.

Lemma threshold_memory : thresholds !! "memory" = Some 90%Q.
Proof. reflexivity. Qed.

(** The whole of [check], in closed form. *)
Lemma check_unfold (metrics : Metrics) (cb : bool) (now : Q)
    (os : CacheCleaner.Os) (self : t) :
  check str_float metrics cb now os self =
    let cpu := Qgtb (m_cpu_percent metrics) 85 in
    let t0 := if cpu then [AlertsAppend (cpu_alert str_float metrics)] else [] in
    let a0 := if cpu then [cpu_alert str_float metrics] else [] in
    if Qgtb (m_memory_percent metrics) 90 && Qgtb (now - last_memory self) cooldown
    then
      (t0 ++ [SetLastTrigger "memory" now]
          ++ (if cb then [UiCallback (memory_detected str_float metrics)] else [])
          ++ trace_of (CacheCleaner.clean (cleaner self) os false)
          ++ (if cb
              then [UiCallback (if gc_completed os
                                then "RAM cleanup completed (best-effort)"
                                else "RAM cleanup skipped (OS restricted)")]
              else [])
          ++ [AlertsAppend (memory_alert str_float metrics)],
       {| cleaner := cleaner self;
          last_trigger := <["memory" := now]> (last_trigger self) |},
       Returns (a0 ++ [memory_alert str_float metrics]))
    else (t0, self, Returns a0).
Proof.
  unfold check, append, last_memory. unfold getitem.
  rewrite threshold_cpu, threshold_memory.
  destruct (clean_returns (cleaner self) os false) as [tr Hc].
  unfold_monad. simpl.
  destruct (Qgtb (m_cpu_percent metrics) 85); simpl;
    destruct (Qgtb (m_memory_percent metrics) 90); simpl; try reflexivity;
    destruct (Qgtb _ cooldown); simpl; try reflexivity;
    rewrite Hc; simpl; destruct cb; simpl;
    destruct (gc_completed os); simpl; rewrite ?app_nil_r; reflexivity.
Qed.

Lemma no_reclamation_in_alerts (b : bool) (msg : string) :
  reclamations (if b then [AlertsAppend msg] else []) = 0%nat.
Proof. by destruct b. Qed.

(** Within the cooldown, or below the threshold, [check] leaves the
    reclaimer and the timestamp alone. *)
Lemma check_cooling (metrics : Metrics) (cb : bool) (now : Q)
    (os : CacheCleaner.Os) (self : t) :
  (now - last_memory self <= cooldown)%Q ->
  exists tr alerts,
    check str_float metrics cb now os self = (tr, self, Returns alerts)
    /\ reclamations tr = 0%nat.
Proof.
  intros H. rewrite check_unfold. cbv zeta.
  apply Qgtb_false in H. rewrite H, andb_false_r.
  eexists _, _. split; [reflexivity|]. apply no_reclamation_in_alerts.
Qed.

(** Past the cooldown and above the threshold, [check] reclaims once and
    records the time. *)
Lemma check_fires (metrics : Metrics) (cb : bool) (now : Q)
    (os : CacheCleaner.Os) (self : t) :
  (90 < m_memory_percent metrics)%Q ->
  (cooldown < now - last_memory self)%Q ->
  check str_float metrics cb now os self =
    ((if Qgtb (m_cpu_percent metrics) 85
      then [AlertsAppend (cpu_alert str_float metrics)] else [])
     ++ trigger_steps str_float metrics cb now os self,
     {| cleaner := cleaner self;
        last_trigger := <["memory" := now]> (last_trigger self) |},
     Returns ((if Qgtb (m_cpu_percent metrics) 85
               then [cpu_alert str_float metrics] else [])
              ++ [memory_alert str_float metrics])).
Proof.
  intros Hm Hc. rewrite check_unfold. cbv zeta.
  apply Qgtb_true in Hm, Hc. rewrite Hm, Hc. reflexivity.
Qed.

Lemma trigger_steps_reclamations (metrics : Metrics) (cb : bool) (now : Q)
    (os : CacheCleaner.Os) (self : t) :
  reclamations (trigger_steps str_float metrics cb now os self) = 1%nat.
Proof.
  unfold trigger_steps. rewrite !reclamations_app, clean_reclamations.
  by destruct cb.
Qed.

(** After a trigger at [t], cycles that all lie within the cooldown of [t]
    never reclaim. *)
Lemma checks_cooling (cs : list Cycle) (self : t) :
  Forall (fun c => (c_now c - last_memory self <= cooldown)%Q) cs ->
  exists tr alerts,
    checks str_float cs self = (tr, self, Returns alerts)
    /\ reclamations tr = 0%nat.
Proof.
  induction 1 as [|c cs Hc _ IH]; simpl.
  - by eexists _, _.
  - destruct (check_cooling (c_metrics c) (c_ui_callback c) (c_now c) (c_os c)
                self Hc) as (t1 & a1 & E1 & R1).
    destruct IH as (t2 & a2 & E2 & R2).
    unfold_monad. rewrite E1, E2. eexists _, _. split; [reflexivity|].
    rewrite !reclamations_app, R1, R2. reflexivity.
Qed.

(** C2, as amended.  Once the memory rule has triggered at time [t]:
    (1) no [check()] at a time [now] with [now - t <= 60] reclaims, however
    high the memory percent is, and the timestamp stays [t];
    (2) the first [check()] with [now - t > 60] and the memory percent above
    the threshold reclaims again, and records [now];
    (3) a run of cycles that starts with a trigger and whose later cycles
    all lie within 60 seconds of it reclaims exactly once. *)
Theorem memory_cooldown (self : t) :
  (forall metrics cb now os,
      (now - last_memory self <= 60)%Q ->
      exists tr alerts,
        check str_float metrics cb now os self = (tr, self, Returns alerts)
        /\ reclamations tr = 0%nat)
  /\ (forall metrics cb now os,
        (90 < m_memory_percent metrics)%Q ->
        (60 < now - last_memory self)%Q ->
        reclamations (trace_of (check str_float metrics cb now os self)) = 1%nat
        /\ last_memory (store_of (check str_float metrics cb now os self)) = now)
  /\ (forall c cs,
        (90 < m_memory_percent (c_metrics c))%Q ->
        (60 < c_now c - last_memory self)%Q ->
        Forall (fun c' => (c_now c' - c_now c <= 60)%Q) cs ->
        reclamations (trace_of (checks str_float (c :: cs) self)) = 1%nat).
Proof.
  split; [|split].
  - intros. by apply check_cooling.
  - intros metrics cb now os Hm Hc. rewrite (check_fires _ _ _ _ _ Hm Hc).
    unfold trace_of, store_of; simpl. split.
    + rewrite reclamations_app, trigger_steps_reclamations.
      by destruct (Qgtb _ _).
    + unfold last_memory; simpl. by rewrite lookup_insert_eq.
  - intros c cs Hm Hc Hcs. simpl. unfold bind at 1.
    rewrite (check_fires _ _ _ _ _ Hm Hc).
    set (self' := {| cleaner := cleaner self;
                     last_trigger := <["memory" := c_now c]> (last_trigger self) |}).
    assert (Hl : last_memory self' = c_now c).
    { unfold last_memory, self'; simpl. by rewrite lookup_insert_eq. }
    destruct (checks_cooling cs self') as (t2 & a2 & E2 & R2).
    { by rewrite Hl. }
    unfold_monad. rewrite E2. simpl.
    rewrite !reclamations_app, trigger_steps_reclamations, R2.
    by destruct (Qgtb _ _).
Qed.

(** C7.  Whenever the snapshot's CPU percent is above 85, [check] returns,
    and the CPU alert is the first alert of the list it returns, whatever
    the state of the manager, the clock and the platform. *)
Theorem cpu_alert_every_cycle (metrics : Metrics) (cb : bool) (now : Q)
    (os : CacheCleaner.Os) (self : t) :
  (85 < m_cpu_percent metrics)%Q ->
  exists tr self' rest,
    check str_float metrics cb now os self
    = (tr, self', Returns (cpu_alert str_float metrics :: rest)).
Proof.
  intros H. rewrite check_unfold. cbv zeta.
  apply Qgtb_true in H. rewrite H.
  destruct (_ && _); by eexists _, _, _.
Qed.

(** The steps of a memory trigger, with the gate as the code has it:
    the memory percent above 90 and [now - last > 60], where [last] is the
    time of the last trigger, or 0 when the rule never triggered.  Without
    a callback the two notifications are left out. *)
Lemma check_trigger_trace (metrics : Metrics) (cb : bool) (now : Q)
    (os : CacheCleaner.Os) (self : t) :
  (90 < m_memory_percent metrics)%Q ->
  (60 < now - last_memory self)%Q ->
  exists cleaned cpu_events cpu_alerts,
    result_of (CacheCleaner.clean (cleaner self) os false) = Returns cleaned
    /\ cpu_events = (if Qgtb (m_cpu_percent metrics) 85
                     then [AlertsAppend (cpu_alert str_float metrics)] else [])
    /\ cpu_alerts = (if Qgtb (m_cpu_percent metrics) 85
                     then [cpu_alert str_float metrics] else [])
    /\ check str_float metrics cb now os self =
         (cpu_events
          ++ [SetLastTrigger "memory" now]
          ++ (if cb then [UiCallback (memory_detected str_float metrics)] else [])
          ++ trace_of (CacheCleaner.clean (cleaner self) os false)
          ++ (if cb
              then [UiCallback (if cleaned : bool
                                then "RAM cleanup completed (best-effort)"
                                else "RAM cleanup skipped (OS restricted)")]
              else [])
          ++ [AlertsAppend (memory_alert str_float metrics)],
          {| cleaner := cleaner self;
             last_trigger := <["memory" := now]> (last_trigger self) |},
          Returns (cpu_alerts ++ [memory_alert str_float metrics]))
    /\ last_memory (store_of (check str_float metrics cb now os self)) = now.
Proof.
  intros Hm Hc.
  destruct (clean_returns (cleaner self) os false) as [tr Hclean].
  exists (gc_completed os). eexists _, _.
  split; [by rewrite Hclean|]. split; [reflexivity|]. split; [reflexivity|].
  rewrite (check_fires _ _ _ _ _ Hm Hc). split; [reflexivity|].
  unfold store_of, last_memory. simpl. by rewrite lookup_insert_eq.
Qed.

(** C8.  With a clock that reads more than 60, as [time.time()] does, on
    every fresh memory trigger, that is, with the memory percent above 90
    and the rule never triggered or triggered more than 60 seconds ago,
    [check], called with its callback, performs exactly these steps in
    this order after the CPU rule, all within the call: it records
    [last_trigger["memory"] = now]; it emits the "detected" notification;
    it runs [clean()]; it emits "completed" or "skipped" according to the
    boolean result; it appends the memory alert. *)
Theorem memory_trigger_steps (metrics : Metrics) (now : Q)
    (os : CacheCleaner.Os) (self : t) :
  (60 < now)%Q ->
  (90 < m_memory_percent metrics)%Q ->
  (last_trigger self !! "memory" = None
   \/ exists t, last_trigger self !! "memory" = Some t
                /\ (cooldown < now - t)%Q) ->
  exists cleaned cpu_events cpu_alerts,
    result_of (CacheCleaner.clean (cleaner self) os false) = Returns cleaned
    /\ cpu_events = (if Qgtb (m_cpu_percent metrics) 85
                     then [AlertsAppend (cpu_alert str_float metrics)] else [])
    /\ cpu_alerts = (if Qgtb (m_cpu_percent metrics) 85
                     then [cpu_alert str_float metrics] else [])
    /\ check str_float metrics true now os self =
         (cpu_events
          ++ [SetLastTrigger "memory" now;
              UiCallback (memory_detected str_float metrics)]
          ++ trace_of (CacheCleaner.clean (cleaner self) os false)
          ++ [UiCallback (if cleaned : bool
                          then "RAM cleanup completed (best-effort)"
                          else "RAM cleanup skipped (OS restricted)");
              AlertsAppend (memory_alert str_float metrics)],
          {| cleaner := cleaner self;
             last_trigger := <["memory" := now]> (last_trigger self) |},
          Returns (cpu_alerts ++ [memory_alert str_float metrics]))
    /\ last_memory (store_of (check str_float metrics true now os self)) = now.
Proof.
  intros Hnow Hm Hfresh.
  assert (Hc : (60 < now - last_memory self)%Q).
  { unfold last_memory.
    destruct Hfresh as [-> | (t & -> & Ht)]; simpl; [lra|exact Ht]. }
  destruct (check_trigger_trace metrics true now os self Hm Hc)
    as (cleaned & ev & al & Hclean & -> & -> & E & Hlast).
  exists cleaned. eexists _, _.
  split; [exact Hclean|]. split; [reflexivity|]. split; [reflexivity|].
  split; [|exact Hlast]. rewrite E. reflexivity.
Qed.

(** C4, as amended.  When a step inside [clean()] raises during a memory
    trigger, the exception is caught inside [clean()], which logs it, and
    [check] returns; the notification that follows is "skipped" when it was
    [gc.collect()] that raised, and "completed" when [gc.collect()] had
    completed and the platform step raised. *)
Theorem reclamation_exception_contained (metrics : Metrics) (cb : bool)
    (now : Q) (os : CacheCleaner.Os) (self : t) :
  step_raises (cleaner self) os ->
  (90 < m_memory_percent metrics)%Q ->
  (60 < now - last_memory self)%Q ->
  exists pre e self' alerts,
    check str_float metrics cb now os self =
      (pre ++ [LoggerError ("RAM cleanup error: " +:+ exn_str e)]
           ++ (if cb
               then [UiCallback (if gc_completed os
                                 then "RAM cleanup completed (best-effort)"
                                 else "RAM cleanup skipped (OS restricted)")]
               else [])
           ++ [AlertsAppend (memory_alert str_float metrics)],
       self', Returns alerts).
Proof.
  intros [e He] Hm Hc. rewrite (check_fires _ _ _ _ _ Hm Hc).
  destruct (clean_raises_trace _ _ _ He) as [pre Hpre].
  unfold trigger_steps. rewrite Hpre.
  exists ((if Qgtb (m_cpu_percent metrics) 85
           then [AlertsAppend (cpu_alert str_float metrics)] else [])
          ++ [SetLastTrigger "memory" now]
          ++ (if cb then [UiCallback (memory_detected str_float metrics)] else [])
          ++ pre), e.
  eexists _, _. do 2 f_equal.
  by rewrite <- !app_assoc.
Qed.

End CheckFacts.

(** *** Concrete runs of the alert rules *)

Lemma memory_cooldown_witness :
  (exists tr alerts,
      AlertManager.check show_Q (snapshot 10 95) true 130 os_quiet triggered_at_100
      = (tr, triggered_at_100, Returns alerts)
      /\ reclamations tr = 0%nat)
  /\ (reclamations (trace_of (AlertManager.check show_Q (snapshot 10 95) true 161
                                os_quiet triggered_at_100)) = 1%nat
      /\ last_memory (store_of (AlertManager.check show_Q (snapshot 10 95) true 161
                                  os_quiet triggered_at_100)) = 161%Q)
  /\ reclamations
       (trace_of (checks show_Q
                    [pressure_at 1000; pressure_at 1001; pressure_at 1030;
                     pressure_at 1059; pressure_at 1060]
                    (AlertManager.__init__ linux))) = 1%nat.
Proof.
  destruct (memory_cooldown show_Q triggered_at_100) as (H1 & H2 & _).
  destruct (memory_cooldown show_Q (AlertManager.__init__ linux)) as (_ & _ & H3).
  split; [|split].
  - apply H1. q_compute.
  - apply H2; reflexivity.
  - apply H3; [reflexivity | reflexivity |].
    repeat constructor; q_compute.
Defined.

(** C2, as stated, fails at the boundary: after a trigger at clock 100, a
    cycle at clock 160 with the memory at 95 percent has [now - t >= 60]
    and does not reclaim. *)
Lemma cooldown_boundary_no_refire :
  AlertManager.last_trigger triggered_at_100 !! "memory" = Some 100%Q
  /\ reclamations
       (trace_of (AlertManager.check show_Q (snapshot 10 95) true 160 os_quiet
                    triggered_at_100)) = 0%nat
  /\ ~ spec_refires_at_cooldown show_Q (snapshot 10 95) true 160 os_quiet
        triggered_at_100.
Proof.
  split; [reflexivity|]. split; [reflexivity|].
  intros H. specialize (H 100%Q eq_refl).
  assert (Hr : reclamations
            (trace_of (AlertManager.check show_Q (snapshot 10 95) true 160 os_quiet
                         triggered_at_100)) = 1%nat).
  { apply H; q_compute. }
  vm_compute in Hr. discriminate.
Qed.

Lemma cpu_alert_every_cycle_witness :
  exists tr self' rest,
    AlertManager.check show_Q (snapshot 97 50) false 5 os_quiet triggered_at_100
    = (tr, self', Returns (AlertManager.cpu_alert show_Q (snapshot 97 50) :: rest)).
Proof.
  apply (cpu_alert_every_cycle show_Q (snapshot 97 50) false 5 os_quiet
           triggered_at_100).
  reflexivity.
Defined.

Lemma memory_trigger_steps_witness :
  trace_of (AlertManager.check show_Q (snapshot 10 95) true 100 os_quiet
              (AlertManager.__init__ linux))
  = [SetLastTrigger "memory" 100;
     UiCallback "High memory (95/1%) detected. Cleaning RAM...";
     LoggerInfo "RAM cleanup triggered (best-effort)";
     GcCollect; CDLL "libc.so.6"; MallocTrim;
     LoggerInfo "Linux malloc_trim executed";
     UiCallback "RAM cleanup completed (best-effort)";
     AlertsAppend "High Memory usage: 95/1%"].
Proof.
  destruct (memory_trigger_steps show_Q (snapshot 10 95) 100 os_quiet
              (AlertManager.__init__ linux))
    as (cleaned & ev & al & Hc & -> & -> & E & _);
    [q_compute | q_compute | by left |].
  rewrite E. vm_compute in Hc. injection Hc as <-. reflexivity.
Defined.

(** The hypothesis on the clock is needed: a rule that never triggered is
    read as triggered at time 0, so with the memory at 95 percent and a
    clock that reads 0, which [time.time()] never does, [check] does
    nothing at all. *)
Lemma never_triggered_early_clock_is_silent :
  AlertManager.last_trigger (AlertManager.__init__ linux) !! "memory" = None
  /\ AlertManager.check show_Q (snapshot 10 95) true 0 os_quiet
       (AlertManager.__init__ linux)
     = ([], AlertManager.__init__ linux, Returns [])
  /\ ~ spec_fresh_trigger_steps show_Q (snapshot 10 95) 0 os_quiet
        (AlertManager.__init__ linux).
Proof.
  split; [reflexivity|]. split; [reflexivity|].
  intros H. destruct H as [pre Hpre]; [reflexivity | by left |].
  change (trace_of (AlertManager.check show_Q (snapshot 10 95) true 0 os_quiet
                      (AlertManager.__init__ linux))) with (@nil event) in Hpre.
  unfold trigger_steps in Hpre. destruct pre; discriminate.
Qed.

Lemma reclamation_exception_contained_witness :
  step_raises windows os_pids_fail
  /\ exists pre e self' alerts,
      AlertManager.check show_Q (snapshot 10 95) true 100 os_pids_fail
        (AlertManager.__init__ windows)
      = (pre ++ [LoggerError ("RAM cleanup error: " +:+ exn_str e)]
             ++ [UiCallback "RAM cleanup completed (best-effort)"]
             ++ [AlertsAppend (AlertManager.memory_alert show_Q (snapshot 10 95))],
         self', Returns alerts).
Proof.
  assert (Hs : step_raises windows os_pids_fail).
  { eexists. reflexivity. }
  split; [exact Hs|].
  apply (reclamation_exception_contained show_Q (snapshot 10 95) true 100
           os_pids_fail (AlertManager.__init__ windows)); [exact Hs| |];
    reflexivity.
Defined.

(** C4, as stated, fails when the platform step raises after
    [gc.collect()] completed: on Windows with a failing [psutil.pids()],
    the notification is "completed", not "skipped". *)
Lemma platform_exception_reports_completed :
  step_raises windows os_pids_fail
  /\ In (UiCallback "RAM cleanup completed (best-effort)")
       (trace_of (AlertManager.check show_Q (snapshot 10 95) true 100 os_pids_fail
                    (AlertManager.__init__ windows)))
  /\ ~ spec_raise_is_skipped show_Q (snapshot 10 95) 100 os_pids_fail
        (AlertManager.__init__ windows).
Proof.
  assert (Hs : step_raises windows os_pids_fail).
  { eexists. reflexivity. }
  assert (Hin : In (UiCallback "RAM cleanup completed (best-effort)")
       (trace_of (AlertManager.check show_Q (snapshot 10 95) true 100 os_pids_fail
                    (AlertManager.__init__ windows)))).
  { vm_compute. tauto. }
  split; [exact Hs|]. split; [exact Hin|].
  intros H. destruct H as [_ Hn]; [exact Hs | reflexivity | reflexivity |].
  exact (Hn Hin).
Qed.

(** ** Stores that a computation leaves alone *)

Section Stable.
Context {S : Type} (R : S -> S -> Prop) `{!Reflexive R} `{!Transitive R}.

Lemma stable_ret {A} (a : A) : stable R (ret a).
Proof. intros s. apply reflexivity. Qed.

Lemma stable_get : stable R get.
Proof. intros s. apply reflexivity. Qed.

Lemma stable_emit (ev : event) : stable R (emit ev).
Proof. intros s. apply reflexivity. Qed.

Lemma stable_extern {A} (ev : event) (o : outcome A) : stable R (extern ev o).
Proof. intros s. apply reflexivity. Qed.

Lemma stable_bind {A B} (m : M S A) (k : A -> M S B) :
  stable R m -> (forall a, stable R (k a)) -> stable R (bind m k).
Proof.
  intros Hm Hk s. specialize (Hm s). unfold_monad.
  destruct (m s) as [[t s1] [a|e]]; simpl in *; [|done].
  specialize (Hk a s1). destruct (k a s1) as [[t' s2] r]; simpl in *.
  by etrans.
Qed.

Lemma stable_try_except {A} (m : M S A) (h : exn -> M S A) :
  stable R m -> (forall e, stable R (h e)) -> stable R (try_except m h).
Proof.
  intros Hm Hh s. specialize (Hm s). unfold_monad.
  destruct (m s) as [[t s1] [a|e]]; simpl in *; [done|].
  specialize (Hh e s1). destruct (h e s1) as [[t' s2] r]; simpl in *.
  by etrans.
Qed.

Lemma stable_try_except_of {A} (c : exn_class -> bool) (m : M S A)
    (h : exn -> M S A) :
  stable R m -> (forall e, stable R (h e)) -> stable R (try_except_of c m h).
Proof.
  intros Hm Hh s. specialize (Hm s). unfold_monad.
  destruct (m s) as [[t s1] [a|e]]; simpl in *; [done|].
  destruct (c (exn_cls e)); simpl; [|done].
  specialize (Hh e s1). destruct (h e s1) as [[t' s2] r]; simpl in *.
  by etrans.
Qed.

End Stable.

Ltac stable_step :=
  first
    [ apply stable_ret | apply stable_get | apply stable_emit
    | apply stable_extern | apply stable_bind | apply stable_try_except
    | apply stable_try_except_of
    | match goal with |- stable _ (if ?b then _ else _) => destruct b end
    | match goal with |- stable _ (match ?x with _ => _ end) => destruct x end ];
  try exact _;
  try match goal with |- forall _, _ => intros ? end.

(** ** MetricsCollector.collect *)

Section CollectFacts.
Import MetricsCollector.
Local Open Scope Z_scope.
Variable cpu_between : Sample -> Sample -> Q.

#[local] Instance frame_refl : Reflexive frame.
Proof. by intros s. Qed.

#[local] Instance frame_trans : Transitive frame.
Proof.
  intros s1 s2 s3 (?&?&?&?) (?&?&?&?). unfold frame. naive_solver congruence.
Qed.

Lemma stable_frame_set_procs (f : gmap Z Process -> gmap Z Process) :
  stable frame (modify (set_procs f)).
Proof. by intros s. Qed.

Lemma stable_frame_cpu_percent (pid : Z) (reading : outcome Sample) :
  stable frame (proc_cpu_percent cpu_between pid reading).
Proof.
  intros s. unfold proc_cpu_percent. unfold_monad.
  destruct reading as [r|e]; simpl; [|done].
  by destruct (procs s !! pid).
Qed.

Lemma stable_frame_scan_item (q : Queries) (pl : list ProcInfo) :
  stable frame (scan_item cpu_between q pl).
Proof.
  unfold scan_item, scan_body, yielded.
  repeat first [ apply stable_frame_set_procs | apply stable_frame_cpu_percent
               | stable_step ].
Qed.

Lemma stable_frame_scan_loop (qs : list Queries) (pl : list ProcInfo) :
  stable frame (scan_loop cpu_between qs pl).
Proof.
  revert pl. induction qs as [|q qs IH]; intros pl; simpl.
  - stable_step.
  - stable_step; [apply stable_frame_scan_item | apply IH].
Qed.

(** A scan touches the process cache and the cached list only, and the
    cached list is what it returns; a scan that raises leaves the cached
    list as it was. *)
Lemma scan_frame (os : Os) (s : t) :
  let r := scan cpu_between os s in
  last_net (store_of r) = last_net s
  /\ last_time (store_of r) = last_time s
  /\ tick (store_of r) = tick s
  /\ cached_top_procs (store_of r)
     = match result_of r with
       | Returns top => top
       | Raises _ => cached_top_procs s
       end.
Proof.
  unfold scan, modify. unfold_monad.
  destruct (pids os) as [live|e]; simpl; [|done].
  pose proof (stable_frame_scan_loop (process_iter os) []
                (set_procs (remove_dead (list_to_set live)) s)) as Hf.
  unfold store_of in Hf.
  destruct (scan_loop _ _ _ _) as [[tl sl] [pl|e]];
    simpl in *; destruct Hf as (?&?&?&?); done.
Qed.

(** The whole of [collect], in terms of [scan]. *)
Lemma collect_unfold (os : Os) (self : t) :
  collect cpu_between os self =
    let self1 := set_tick (tick self + 1) (set_last (net os) (now os) self) in
    let metrics top :=
      {| m_cpu_percent := cpu_percent os;
         m_memory_percent := memory_percent os;
         net_sent := inject_Z (delta_sent os self) / rate_dt (elapsed os self);
         net_recv := inject_Z (delta_recv os self) / rate_dt (elapsed os self);
         top_procs := top |} in
    if Z.eqb ((tick self + 1) mod 4) 0 then
      match scan cpu_between os self1 with
      | (tr, self2, Returns top) => (tr, self2, Returns (metrics top))
      | (tr, self2, Raises _) => (tr, self2, Returns (metrics (cached_top_procs self)))
      end
    else ([], self1, Returns (metrics (cached_top_procs self))).
Proof.
  unfold collect, modify, delta_sent, delta_recv, elapsed. unfold_monad. simpl.
  destruct (Z.eqb _ 0); [|reflexivity].
  destruct (scan _ _ _) as [[tr s2] [top|e]]; simpl; by rewrite ?app_nil_r.
Qed.

(** [collect] always returns, advances the tick by one, and returns the
    list that it leaves in the cache. *)
Lemma collect_returns (os : Os) (self : t) :
  exists tr self' m,
    collect cpu_between os self = (tr, self', Returns m)
    /\ tick self' = tick self + 1
    /\ last_net self' = net os /\ last_time self' = now os
    /\ top_procs m = cached_top_procs self'
    /\ net_sent m = (inject_Z (delta_sent os self) / rate_dt (elapsed os self))%Q
    /\ net_recv m = (inject_Z (delta_recv os self) / rate_dt (elapsed os self))%Q.
Proof.
  rewrite collect_unfold. cbv zeta.
  destruct (Z.eqb _ 0).
  - pose proof (scan_frame os
        (set_tick (tick self + 1) (set_last (net os) (now os) self))) as Hs.
    cbv zeta in Hs. unfold store_of, result_of in Hs.
    destruct (scan _ _ _) as [[tr s2] [top|e]]; simpl in *;
      destruct Hs as (?&?&?&?); eexists _, _, _; by repeat split.
  - eexists _, _, _. by repeat split.
Qed.

(** A cycle whose tick is not a multiple of 4 makes no process query and
    returns the cached list. *)
Lemma collect_no_scan (os : Os) (self : t) :
  (tick self + 1) mod 4 <> 0 ->
  exists m,
    collect cpu_between os self
    = ([], set_tick (tick self + 1) (set_last (net os) (now os) self), Returns m)
    /\ top_procs m = cached_top_procs self.
Proof.
  intros H. rewrite collect_unfold. cbv zeta.
  apply Z.eqb_neq in H. rewrite H. by eexists.
Qed.

(** A cycle whose tick is a multiple of 4 starts a scan. *)
Lemma collect_scan (os : Os) (self : t) :
  (tick self + 1) mod 4 = 0 ->
  exists tr, trace_of (collect cpu_between os self) = PsutilPids :: tr.
Proof.
  intros H. rewrite collect_unfold. cbv zeta.
  apply Z.eqb_eq in H. rewrite H.
  unfold scan, modify. unfold_monad.
  destruct (pids os) as [live|e]; simpl; [|by eexists].
  destruct (scan_loop _ _ _ _) as [[tl sl] [pl|e]]; simpl; by eexists.
Qed.

(** *** The process cache *)

#[local] Instance same_at_refl (pid : Z) : Reflexive (same_at pid).
Proof. by intros s. Qed.

#[local] Instance same_at_trans (pid : Z) : Transitive (same_at pid).
Proof. intros s1 s2 s3 H1 H2. unfold same_at in *. congruence. Qed.

Lemma lookup_remove_dead (live : gset Z) (m : gmap Z Process) (k : Z) :
  remove_dead live m !! k = if decide (k ∈ live) then m !! k else None.
Proof.
  unfold remove_dead.
  assert (Hf : forall l : list Z,
             foldr delete m l !! k = if decide (k ∈ l) then None else m !! k).
  { induction l as [|x l IH]; cbn [foldr].
    - case_decide as H; [by apply not_elem_of_nil in H | done].
    - destruct (decide (x = k)) as [->|Hne].
      + rewrite lookup_delete_eq.
        destruct (decide (k ∈ k :: l)) as [|H]; [done|].
        exfalso. apply H. apply list_elem_of_here.
      + rewrite lookup_delete_ne by done. rewrite IH.
        destruct (decide (k ∈ l)) as [Hin|Hin].
        * rewrite decide_True; [done|]. by apply list_elem_of_further.
        * rewrite decide_False; [done|].
          rewrite elem_of_cons. intros [?|?]; congruence. }
  rewrite Hf. destruct (decide (k ∈ live)) as [Hl|Hl].
  - rewrite decide_False; [done|].
    rewrite elem_of_elements, elem_of_difference. tauto.
  - destruct (decide (k ∈ elements (dom m ∖ live))) as [|Hd]; [done|].
    rewrite elem_of_elements, elem_of_difference in Hd.
    apply not_elem_of_dom. tauto.
Qed.

Lemma stable_at_cpu_percent (k pid : Z) (reading : outcome Sample) :
  k <> pid -> stable (same_at k) (proc_cpu_percent cpu_between pid reading).
Proof.
  intros Hne s. unfold proc_cpu_percent, same_at. unfold_monad.
  destruct reading as [r|e]; simpl; [|done].
  destruct (procs s !! pid); simpl; [|done].
  by rewrite lookup_insert_ne.
Qed.

(** An item of the iteration touches the cache under its own pid only. *)
Lemma stable_at_scan_item (k : Z) (q : Queries) (pl : list ProcInfo) :
  k <> pid_of q -> stable (same_at k) (scan_item cpu_between q pl).
Proof.
  intros Hne. unfold scan_item, scan_body, yielded, pid_of in *.
  repeat first
    [ apply stable_at_cpu_percent; done
    | match goal with
      | |- stable _ (modify (set_procs (insert _ _))) =>
          intros s; unfold same_at; simpl; by rewrite lookup_insert_ne
      | |- stable _ (modify (set_procs (delete _))) =>
          intros s; unfold same_at; simpl; by rewrite lookup_delete_ne
      end
    | stable_step ].
Qed.

Lemma stable_at_scan_loop (k : Z) (qs : list Queries) (pl : list ProcInfo) :
  Forall (fun q => pid_of q <> k) qs ->
  stable (same_at k) (scan_loop cpu_between qs pl).
Proof.
  intros H. revert pl. induction H as [|q qs Hq _ IH]; intros pl; simpl.
  - stable_step.
  - stable_step; [by apply stable_at_scan_item | apply IH].
Qed.

Lemma set_procs_insert_id (k : Z) (p : Process) (s : t) :
  procs s !! k = Some p -> set_procs <[k := p]> s = s.
Proof.
  intros H. destruct s as [n l m c tk]. unfold set_procs. simpl in *.
  by rewrite insert_id.
Qed.

Lemma with_info_pid (i : option Sample) (p : Process) :
  h_pid (with_info i p) = h_pid p /\ h_ident (with_info i p) = h_ident p.
Proof. by destruct i. Qed.

Lemma seen_pid (q : Queries) (p : Process) :
  h_pid (seen q p) = h_pid p /\ h_ident (seen q p) = h_ident p.
Proof. unfold seen. destruct (same_object _ _); [apply with_info_pid|done]. Qed.

(** The step of the iterator, in closed form. *)
Lemma yielded_unfold (q : Queries) (s : t) :
  yielded q s = ([], after_yield q s, Returns (yield_object q s)).
Proof.
  unfold yielded, after_yield, yield_object, seen, pid_of, modify.
  unfold_monad.
  destruct (procs s !! h_pid (q_proc q)) as [p|] eqn:Hp; [|done].
  destruct (same_object p (q_proc q)); simpl; [done|].
  by rewrite (set_procs_insert_id _ _ _ Hp).
Qed.

Lemma scan_item_unfold (q : Queries) (pl : list ProcInfo) (s : t) :
  scan_item cpu_between q pl s
  = scan_body cpu_between q (yield_object q s) pl (after_yield q s).
Proof.
  unfold scan_item, bind. rewrite yielded_unfold.
  by destruct (scan_body _ _ _ _ _) as [[tr s'] r].
Qed.

Lemma after_yield_lookup (q : Queries) (s : t) :
  procs (after_yield q s) !! pid_of q = seen q <$> procs s !! pid_of q.
Proof.
  unfold after_yield. destruct (procs s !! pid_of q) as [p|] eqn:Hp; simpl.
  - by rewrite lookup_insert_eq.
  - by rewrite Hp.
Qed.

Lemma yield_object_pid (q : Queries) (s : t) :
  keyed (procs s) -> h_pid (yield_object q s) = pid_of q.
Proof.
  intros Hk. unfold yield_object.
  destruct (procs s !! pid_of q) as [p|] eqn:Hp;
    [destruct (same_object _ _)|]; rewrite (proj1 (with_info_pid _ _));
    try done.
  by apply Hk in Hp.
Qed.

(** A body that does not end the scan returns, and adds at most one
    entry, under its own pid. *)
Lemma scan_body_returns (q : Queries) (p0 : Process) (pl : list ProcInfo)
    (s : t) :
  aborts q = false ->
  exists tr s' ext,
    scan_body cpu_between q p0 pl s = (tr, s', Returns (pl ++ ext))
    /\ Forall (fun e => p_pid e = pid_of q) ext
    /\ (length ext <= 1)%nat.
Proof.
  unfold aborts, escapes. intros H.
  repeat (apply orb_false_elim in H as [H ?]).
  unfold scan_body, proc_cpu_percent, modify, pid_of. unfold_monad.
  destruct (decide (procs s !! h_pid (q_proc q) = None)) as [Hn|Hn]; simpl;
    rewrite ?lookup_insert_eq;
    destruct (procs s !! h_pid (q_proc q)) as [p|] eqn:Hp; try done;
    destruct (q_baseline q) as [b|eb]; destruct (q_cpu q) as [c|ec];
    destruct (q_mem q) as [mm|em]; destruct (q_name q) as [nm|en];
    simpl in *; rewrite ?lookup_insert_eq; simpl;
    repeat match goal with
      | H : negb (caught_by_scan ?c) = false |- _ =>
          apply negb_false_iff in H; rewrite ?H
      end; simpl;
    first
      [ by (eexists _, _, []; rewrite app_nil_r; repeat split; eauto)
      | by (eexists _, _, [_]; repeat split; eauto; repeat constructor) ].
Qed.

(** An item that does not end the scan returns, and adds at most one
    entry, under its own pid. *)
Lemma scan_item_returns (q : Queries) (pl : list ProcInfo) (s : t) :
  aborts q = false ->
  exists tr s' ext,
    scan_item cpu_between q pl s = (tr, s', Returns (pl ++ ext))
    /\ Forall (fun e => p_pid e = pid_of q) ext
    /\ (length ext <= 1)%nat.
Proof.
  intros H. rewrite scan_item_unfold. by apply scan_body_returns.
Qed.

(** An item whose pid is not in the cache is read on the object that the
    iteration yields, against a baseline taken at once. *)
Lemma scan_item_fresh (q : Queries) (pl : list ProcInfo) (s : t)
    (b c : Sample) (mm : Q) (nm : string) :
  procs s !! pid_of q = None ->
  q_baseline q = Returns b -> q_cpu q = Returns c ->
  q_mem q = Returns mm -> q_name q = Returns nm ->
  exists s',
    scan_item cpu_between q pl s
    = ([CpuPercent (pid_of q); CpuPercent (pid_of q);
        MemoryPercent (pid_of q); ProcName (pid_of q)], s',
       Returns (pl ++ [{| p_pid := pid_of q; p_name := nm;
                          p_cpu_percent := cpu_between b c;
                          p_memory_percent := mm |}]))
    /\ procs s' !! pid_of q
       = Some {| h_pid := h_pid (q_proc q); h_ident := h_ident (q_proc q);
                 h_last := Some c |}.
Proof.
  intros Hn Hb Hc Hm Hnm. rewrite scan_item_unfold.
  unfold after_yield, yield_object. rewrite Hn. unfold pid_of in *.
  unfold scan_body, proc_cpu_percent, modify. unfold_monad.
  rewrite decide_True by done. rewrite Hb, Hc, Hm, Hnm. simpl.
  rewrite !lookup_insert_eq. simpl. rewrite !lookup_insert_eq. simpl.
  eexists. split; [reflexivity|]. simpl. rewrite lookup_insert_eq.
  by destruct (with_info_pid (q_info q) (q_proc q)) as [-> ->].
Qed.

(** An item whose pid is in the cache is read on the cached object,
    against the accounting that this object holds once the iterator has
    yielded: its own, when the iterator yields another object, and the one
    that the iterator's call has just stored, when it yields this one. *)
Lemma scan_item_cached (q : Queries) (pl : list ProcInfo) (s : t)
    (p : Process) (a c : Sample) (mm : Q) (nm : string) :
  procs s !! pid_of q = Some p -> h_last (seen q p) = Some a ->
  q_cpu q = Returns c -> q_mem q = Returns mm -> q_name q = Returns nm ->
  exists s',
    scan_item cpu_between q pl s
    = ([CpuPercent (pid_of q); MemoryPercent (pid_of q); ProcName (pid_of q)],
       s',
       Returns (pl ++ [{| p_pid := pid_of q; p_name := nm;
                          p_cpu_percent := cpu_between a c;
                          p_memory_percent := mm |}]))
    /\ procs s' !! pid_of q
       = Some {| h_pid := h_pid p; h_ident := h_ident p; h_last := Some c |}.
Proof.
  intros Hp Ha Hc Hm Hnm. rewrite scan_item_unfold.
  pose proof (after_yield_lookup q s) as Hl. rewrite Hp in Hl. simpl in Hl.
  generalize dependent (after_yield q s). intros s1 Hl.
  generalize (yield_object q s). intros p0. unfold pid_of in *.
  unfold scan_body, proc_cpu_percent, modify. unfold_monad.
  rewrite decide_False by (rewrite Hl; done). rewrite Hc, Hm, Hnm. simpl.
  rewrite Hl, Ha. simpl.
  eexists. split; [reflexivity|]. simpl. rewrite lookup_insert_eq.
  by destruct (seen_pid q p) as [-> ->].
Qed.

(** Items that carry other pids and do not end the scan: the loop returns,
    leaves the cache under [k] alone and adds no entry for [k]. *)
Lemma scan_loop_others (k : Z) (qs : list Queries) (pl : list ProcInfo) (s : t) :
  Forall (fun q => pid_of q <> k /\ aborts q = false) qs ->
  exists tr s' ext,
    scan_loop cpu_between qs pl s = (tr, s', Returns (pl ++ ext))
    /\ Forall (fun e => p_pid e <> k) ext
    /\ (length ext <= length qs)%nat
    /\ procs s' !! k = procs s !! k.
Proof.
  intros H. revert pl s. induction H as [|q qs [Hq Ha] _ IH]; intros pl s; simpl.
  - exists [], s, []. unfold_monad. by rewrite app_nil_r.
  - destruct (scan_item_returns q pl s Ha) as (t1 & s1 & e1 & E1 & F1 & L1).
    pose proof (stable_at_scan_item k q pl (not_eq_sym Hq) s) as Hk.
    unfold store_of in Hk. rewrite E1 in Hk. simpl in Hk.
    destruct (IH (pl ++ e1) s1) as (t2 & s2 & e2 & E2 & F2 & L2 & K2).
    exists (t1 ++ t2), s2, (e1 ++ e2). unfold_monad. rewrite E1, E2.
    rewrite app_assoc. repeat split.
    + apply Forall_app. split; [|done].
      eapply Forall_impl; [exact F1|]. simpl. intros e He. congruence.
    + rewrite length_app. simpl. lia.
    + unfold same_at in Hk. congruence.
Qed.

Lemma scan_loop_app (qs1 qs2 : list Queries) (pl : list ProcInfo) (s : t) :
  scan_loop cpu_between (qs1 ++ qs2) pl s
  = bind (scan_loop cpu_between qs1 pl) (scan_loop cpu_between qs2) s.
Proof.
  revert pl s. induction qs1 as [|q qs1 IH]; intros pl s; simpl;
    unfold bind, ret in *.
  - by destruct (scan_loop cpu_between qs2 pl s) as [[t s'] r].
  - destruct (scan_item cpu_between q pl s) as [[t1 s1] [pl1|e]]; [|done].
    rewrite IH.
    destruct (scan_loop cpu_between qs1 pl1 s1) as [[t2 s2] [pl2|e]]; [|done].
    destruct (scan_loop cpu_between qs2 pl2 s2) as [[t3 s3] r].
    by rewrite app_assoc.
Qed.

Lemma In_insert_desc (x y : ProcInfo) (l : list ProcInfo) :
  In y (insert_desc x l) <-> y = x \/ In y l.
Proof.
  induction l as [|z l IH]; simpl; [intuition congruence|].
  destruct (Qgtb _ _); simpl; intuition congruence.
Qed.

Lemma In_sorted_desc (y : ProcInfo) (l : list ProcInfo) :
  In y (sorted_desc l) <-> In y l.
Proof.
  unfold sorted_desc. induction l as [|x l IH]; simpl; [done|].
  rewrite In_insert_desc. intuition congruence.
Qed.

Lemma length_insert_desc (x : ProcInfo) (l : list ProcInfo) :
  length (insert_desc x l) = Datatypes.S (length l).
Proof.
  induction l as [|z l IH]; simpl; [done|].
  destruct (Qgtb _ _); simpl; by rewrite ?IH.
Qed.

Lemma length_sorted_desc (l : list ProcInfo) :
  length (sorted_desc l) = length l.
Proof.
  unfold sorted_desc. induction l as [|x l IH]; simpl; [done|].
  by rewrite length_insert_desc, IH.
Qed.

Lemma In_take {A} (n : nat) (x : A) (l : list A) : In x (take n l) -> In x l.
Proof.
  revert n. induction l as [|y l IH]; intros [|n]; simpl; try done.
  intros [?|?]; [by left | right; eauto].
Qed.

(** A scan whose [psutil.pids()] answers: the dead are removed, then the
    iteration runs on what is left. *)
Lemma scan_unfold (os : Os) (live : list Z) (s : t) :
  pids os = Returns live ->
  scan cpu_between os s =
    match scan_loop cpu_between (process_iter os) []
            (set_procs (remove_dead (list_to_set live)) s) with
    | (tr, s', Returns pl) =>
        (PsutilPids :: ProcessIter :: tr,
         set_cached_top_procs (take 5 (sorted_desc pl)) s',
         Returns (take 5 (sorted_desc pl)))
    | (tr, s', Raises e) => (PsutilPids :: ProcessIter :: tr, s', Raises e)
    end.
Proof.
  intros H. unfold scan, modify. unfold_monad. rewrite H. simpl.
  destruct (scan_loop _ _ _ _) as [[tr s'] [pl|e]]; simpl; by rewrite ?app_nil_r.
Qed.

Lemma removed_or_absent (pid : Z) (live : list Z) (m : gmap Z Process) :
  m !! pid = None \/ pid ∉ live ->
  remove_dead (list_to_set live) m !! pid = None.
Proof.
  intros H. rewrite lookup_remove_dead.
  destruct (decide (pid ∈ (list_to_set live : gset Z))) as [Hin|]; [|done].
  apply elem_of_list_to_set in Hin. tauto.
Qed.

(** A cycle in which no process carries [pid] leaves [pid] out of the
    cache, if it was out of it or if the scan sees it dead. *)
Lemma collect_absent (pid : Z) (os : Os) (s : t) :
  unassigned pid os ->
  procs s !! pid = None
  \/ ((tick s + 1) mod 4 = 0 /\ exists live, pids os = Returns live /\ pid ∉ live) ->
  procs (store_of (collect cpu_between os s)) !! pid = None.
Proof.
  intros Hu H. rewrite collect_unfold. cbv zeta.
  destruct (Z.eqb_spec ((tick s + 1) mod 4) 0) as [Ht|Ht].
  - set (s1 := set_tick (tick s + 1) (set_last (net os) (now os) s)).
    assert (Hs : procs (store_of (scan cpu_between os s1)) !! pid = None).
    { destruct (pids os) as [live|e] eqn:Hp.
      - rewrite (scan_unfold os live s1 Hp).
        pose proof (stable_at_scan_loop pid (process_iter os) [] Hu
                      (set_procs (remove_dead (list_to_set live)) s1)) as Hk.
        unfold store_of, same_at in *.
        assert (Hr : procs (set_procs (remove_dead (list_to_set live)) s1) !! pid
                     = None).
        { simpl. apply removed_or_absent.
          destruct H as [H|(_ & live' & E & Hn)]; [by left|].
          right. congruence. }
        destruct (scan_loop _ _ _ _) as [[tr s'] [pl|e]]; simpl in *; congruence.
      - unfold scan. unfold_monad. rewrite Hp. simpl.
        destruct H as [H|(_ & live' & E & _)]; [done|discriminate]. }
    unfold store_of in *.
    by destruct (scan _ _ _) as [[tr s2] [top|e]].
  - simpl. destruct H as [H|(Ht' & _)]; [done|contradiction].
Qed.

Lemma collects_absent (pid : Z) (oss : list Os) (s : t) :
  Forall (unassigned pid) oss ->
  procs s !! pid = None ->
  procs (store_of (collects cpu_between oss s)) !! pid = None.
Proof.
  intros H. revert s. induction H as [|os oss Hu _ IH]; intros s Hs; simpl.
  - by unfold_monad.
  - pose proof (collect_absent pid os s Hu (or_introl Hs)) as H1.
    destruct (collect_returns os s) as (tr & s' & m & E & _).
    rewrite E in H1. specialize (IH s' H1).
    unfold_monad. rewrite E.
    by destruct (collects cpu_between oss s') as [[t2 s2] [ms|e]].
Qed.

(** A scanning cycle in which [pid] arrives, while the cache does not hold
    [pid] once the dead are removed. *)
Lemma scan_cycle_fresh (pid : Z) (q : Queries) (b c : Sample) (mm : Q)
    (nm : string) (os : Os) (live : list Z) (s : t) :
  (tick s + 1) mod 4 = 0 -> pids os = Returns live ->
  procs s !! pid = None \/ pid ∉ live ->
  arrives pid os q b c mm nm ->
  fresh_reading cpu_between pid q b c mm nm os s.
Proof.
  intros Ht Hp Hd (qs1 & qs2 & Hiter & Hpid & Hall & Hb & Hc & Hm & Hnm).
  apply Forall_app in Hall as [H1 H2].
  unfold fresh_reading. cbv zeta. rewrite collect_unfold. cbv zeta.
  apply Z.eqb_eq in Ht. rewrite Ht.
  rewrite (scan_unfold os live _ Hp), Hiter, scan_loop_app.
  set (s0 := set_procs (remove_dead (list_to_set live))
               (set_tick (tick s + 1) (set_last (net os) (now os) s))).
  assert (H0 : procs s0 !! pid = None) by (by apply removed_or_absent).
  destruct (scan_loop_others pid qs1 [] s0 H1)
    as (t1 & s1 & e1 & E1 & F1 & L1 & K1).
  simpl in E1. unfold bind. rewrite E1. simpl scan_loop. unfold bind.
  destruct (scan_item_fresh q e1 s1 b c mm nm) as (s2 & E2 & P2); try done.
  { rewrite Hpid. congruence. }
  rewrite E2.
  destruct (scan_loop_others pid qs2
              (e1 ++ [{| p_pid := pid_of q; p_name := nm;
                                 p_cpu_percent := cpu_between b c;
                                 p_memory_percent := mm |}]) s2 H2)
    as (t3 & s3 & e3 & E3 & F3 & L3 & K3).
  rewrite E3. unfold store_of, result_of. simpl.
  split; [rewrite K3, <- Hpid; exact P2|].
  eexists. split; [reflexivity|]. simpl. split.
  - intros e He Hepid. apply In_take in He.
    apply (proj1 (In_sorted_desc _ _)) in He.
    rewrite !in_app_iff in He. simpl in He.
    destruct He as [[He|[<-|[]]]|He]; [|done|].
    + rewrite List.Forall_forall in F1. by apply F1 in He.
    + rewrite List.Forall_forall in F3. by apply F3 in He.
  - intros Hlen. rewrite take_ge.
    + apply In_sorted_desc. rewrite !in_app_iff. simpl. rewrite Hpid. tauto.
    + rewrite length_sorted_desc, !length_app. simpl.
      rewrite length_app in Hlen. simpl in Hlen. lia.
Qed.

(** C6, as amended.  A scan removes the tracked pids that [psutil.pids()]
    no longer lists before it looks at any process: a tracked pid that is
    missing from the pids of a scan is out of the cache after it.  So when
    a new process carries that pid, in that same scan or in a later one,
    the scan caches the object that the iteration yields for the new
    process and reads its CPU percent against a baseline taken in that
    scan; the accounting of the old object is not used. *)
Theorem dead_pid_gets_fresh_baseline (pid : Z) (old : Process) (self : t) :
  procs self !! pid = Some old ->
  (forall os live,
      (tick self + 1) mod 4 = 0 -> pids os = Returns live -> pid ∉ live ->
      unassigned pid os ->
      procs (store_of (collect cpu_between os self)) !! pid = None)
  /\ (forall os live q b c mm nm,
      (tick self + 1) mod 4 = 0 -> pids os = Returns live -> pid ∉ live ->
        arrives pid os q b c mm nm ->
        fresh_reading cpu_between pid q b c mm nm os self)
  /\ (forall os1 live1 oss os2 live2 q b c mm nm,
        (tick self + 1) mod 4 = 0 -> pids os1 = Returns live1 -> pid ∉ live1 ->
        Forall (unassigned pid) (os1 :: oss) ->
        (tick (store_of (collects cpu_between (os1 :: oss) self)) + 1) mod 4 = 0 ->
        pids os2 = Returns live2 ->
        arrives pid os2 q b c mm nm ->
        fresh_reading cpu_between pid q b c mm nm os2
          (store_of (collects cpu_between (os1 :: oss) self))).
Proof.
  intros _. split; [|split].
  - intros os live Ht Hp Hd Hu. apply collect_absent; [done|]. right. eauto.
  - intros os live q b c mm nm Ht Hp Hd Ha.
    eapply scan_cycle_fresh; eauto.
  - intros os1 live1 oss os2 live2 q b c mm nm Ht Hp Hd Hu Ht2 Hp2 Ha.
    eapply scan_cycle_fresh; eauto. left.
    apply Forall_cons in Hu as [Hu1 Hus].
    assert (H1 : procs (store_of (collect cpu_between os1 self)) !! pid = None).
    { apply collect_absent; [done|]. right. eauto. }
    simpl. destruct (collect_returns os1 self) as (tr & s' & m & E & _).
    rewrite E in H1. pose proof (collects_absent pid oss s' Hus H1) as H2.
    unfold_monad. rewrite E.
    by destruct (collects cpu_between oss s') as [[t2 s2] [ms|e]].
Qed.

(** What the amendment leaves out: a pid that is reassigned between two
    scans is never missing from the pids of a scan, and the scan then
    reads the new process on the cached object, against the old
    accounting. *)
Lemma pid_reused_between_scans (q : Queries) (pl : list ProcInfo) (s : t)
    (old : Process) (a c : Sample) (mm : Q) (nm : string) :
  procs s !! pid_of q = Some old -> h_last old = Some a ->
  h_ident (q_proc q) <> h_ident old ->
  q_cpu q = Returns c -> q_mem q = Returns mm -> q_name q = Returns nm ->
  exists tr s',
    scan_item cpu_between q pl s
    = (tr, s', Returns (pl ++ [{| p_pid := pid_of q; p_name := nm;
                                  p_cpu_percent := cpu_between a c;
                                  p_memory_percent := mm |}]))
    /\ exists p, procs s' !! pid_of q = Some p /\ h_ident p = h_ident old.
Proof.
  intros Hp Ha Hi Hc Hm Hnm.
  assert (Hs : seen q old = old).
  { unfold seen, same_object.
    destruct (Z.eqb_spec (h_ident old) (h_ident (q_proc q))); congruence. }
  destruct (scan_item_cached q pl s old a c mm nm) as (s' & E & P); try done.
  { by rewrite Hs. }
  eexists _, s'. split; [exact E|]. eexists. split; [exact P|done].
Qed.

(** *** The network rates *)

Lemma rate_dt_nonzero (e : Q) : ~ (rate_dt e == 0)%Q.
Proof.
  unfold rate_dt. destruct (Qeq_bool e 0) eqn:E.
  - intros H. discriminate H.
  - by apply Qeq_bool_neq.
Qed.

Lemma rate_dt_zero (e : Q) : (e == 0)%Q -> rate_dt e = epsilon.
Proof.
  intros H. unfold rate_dt. apply Qeq_bool_iff in H. by rewrite H.
Qed.

Lemma rate_dt_other (e : Q) : ~ (e == 0)%Q -> rate_dt e = e.
Proof.
  intros H. unfold rate_dt. destruct (Qeq_bool e 0) eqn:E; [|done].
  by apply Qeq_bool_iff in E.
Qed.

Lemma rate_dt_positive (e : Q) : (0 <= e)%Q -> (0 < rate_dt e)%Q.
Proof.
  intros H. unfold rate_dt. destruct (Qeq_bool e 0) eqn:E; [reflexivity|].
  apply Qeq_bool_neq in E. apply Qle_lt_or_eq in H as [H|H]; [done|].
  exfalso. apply E. by symmetry.
Qed.

Lemma rate_dt_max (e : Q) :
  (e == 0)%Q \/ (epsilon <= e)%Q -> (rate_dt e == Qmax e epsilon)%Q.
Proof.
  intros [H|H].
  - rewrite (rate_dt_zero _ H). symmetry. apply Q.max_r.
    rewrite H. discriminate.
  - rewrite rate_dt_other.
    + symmetry. by apply Q.max_l.
    + intros E. rewrite E in H. by apply H.
Qed.

Lemma rate_nonnegative (delta : Z) (dt : Q) :
  (0 < dt)%Q -> 0 <= delta -> (0 <= inject_Z delta / dt)%Q.
Proof.
  intros Hd Hn. apply Qle_shift_div_l; [done|].
  rewrite Qmult_0_l. unfold Qle; simpl. lia.
Qed.

Lemma rate_negative (delta : Z) (dt : Q) :
  (0 < dt)%Q -> delta < 0 -> (inject_Z delta / dt < 0)%Q.
Proof.
  intros Hd Hn. apply Qlt_shift_div_r; [done|].
  rewrite Qmult_0_l. unfold Qlt; simpl. lia.
Qed.

(** C9, as amended.  Each rate is [(current - previous) / dt], where [dt]
    is the elapsed time, replaced by 0.001 when it is exactly 0.  So the
    divisor is never 0, and it is positive whenever the clock has not gone
    backwards; it is [max(elapsed, 0.001)] when the elapsed time is 0 or at
    least 0.001. *)
Theorem rate_divisor (os : Os) (self : t) :
  (exists tr self' m,
      collect cpu_between os self = (tr, self', Returns m)
      /\ net_sent m = (inject_Z (delta_sent os self) / rate_dt (elapsed os self))%Q
      /\ net_recv m = (inject_Z (delta_recv os self) / rate_dt (elapsed os self))%Q)
  /\ ~ (rate_dt (elapsed os self) == 0)%Q
  /\ ((elapsed os self == 0)%Q -> rate_dt (elapsed os self) = epsilon)
  /\ (~ (elapsed os self == 0)%Q -> rate_dt (elapsed os self) = elapsed os self)
  /\ ((0 <= elapsed os self)%Q -> (0 < rate_dt (elapsed os self))%Q)
  /\ ((elapsed os self == 0)%Q \/ (epsilon <= elapsed os self)%Q ->
      (rate_dt (elapsed os self) == Qmax (elapsed os self) epsilon)%Q).
Proof.
  split.
  { destruct (collect_returns os self) as (tr & s' & m & E & _ & _ & _ & _ & Hs & Hr).
    by exists tr, s', m. }
  split; [apply rate_dt_nonzero|]. split; [apply rate_dt_zero|].
  split; [apply rate_dt_other|]. split; [apply rate_dt_positive|].
  apply rate_dt_max.
Qed.

(** C1, as amended.  When the clock has not gone backwards, a counter that
    did not decrease gives a rate that is not negative, and a counter that
    decreased gives a negative rate: [collect] has no reset handling. *)
Theorem rates_sign (os : Os) (self : t) :
  exists tr self' m,
    collect cpu_between os self = (tr, self', Returns m)
    /\ ((0 <= elapsed os self)%Q -> 0 <= delta_sent os self -> (0 <= net_sent m)%Q)
    /\ ((0 <= elapsed os self)%Q -> 0 <= delta_recv os self -> (0 <= net_recv m)%Q)
    /\ ((0 <= elapsed os self)%Q -> delta_sent os self < 0 -> (net_sent m < 0)%Q)
    /\ ((0 <= elapsed os self)%Q -> delta_recv os self < 0 -> (net_recv m < 0)%Q).
Proof.
  destruct (collect_returns os self) as (tr & s' & m & E & _ & _ & _ & _ & Hs & Hr).
  exists tr, s', m. rewrite Hs, Hr. split; [done|].
  repeat split; intros He Hd;
    first [ apply rate_nonnegative | apply rate_negative ];
    auto using rate_dt_positive.
Qed.

(** *** The throttle *)

Lemma collects_tick (oss : list Os) (self : t) :
  tick (store_of (collects cpu_between oss self)) = tick self + Z.of_nat (length oss).
Proof.
  revert self. induction oss as [|os oss IH]; intros self; simpl.
  - unfold_monad. simpl. lia.
  - destruct (collect_returns os self) as (tr & s' & m & E & Ht & _).
    specialize (IH s'). unfold_monad. rewrite E.
    destruct (collects cpu_between oss s') as [[t2 s2] [ms|e]]; simpl in *; lia.
Qed.

(** From a tick that is a multiple of 4, the next three cycles make no
    process query and return the cached list. *)
Lemma three_cycles_no_scan (os1 os2 os3 : Os) (self : t) :
  tick self mod 4 = 0 ->
  exists m1 m2 m3 self',
    collects cpu_between [os1; os2; os3] self = ([], self', Returns [m1; m2; m3])
    /\ top_procs m1 = cached_top_procs self
    /\ top_procs m2 = cached_top_procs self
    /\ top_procs m3 = cached_top_procs self
    /\ procs self' = procs self
    /\ cached_top_procs self' = cached_top_procs self
    /\ tick self' = tick self + 3.
Proof.
  intros H. simpl.
  destruct (collect_no_scan os1 self) as (m1 & E1 & T1); [mod_lia|].
  set (s1 := set_tick (tick self + 1) (set_last (net os1) (now os1) self)) in *.
  destruct (collect_no_scan os2 s1) as (m2 & E2 & T2); [simpl; mod_lia|].
  set (s2 := set_tick (tick s1 + 1) (set_last (net os2) (now os2) s1)) in *.
  destruct (collect_no_scan os3 s2) as (m3 & E3 & T3); [simpl; mod_lia|].
  exists m1, m2, m3. eexists.
  unfold_monad. rewrite E1, E2, E3. simpl.
  repeat split; try done. subst s1 s2. simpl. lia.
Qed.

(** C5.  Every [collect()] advances the tick by exactly one, whether it
    scans or not, so [n] calls advance it by [n]; a call scans the process
    table only when the new tick is a multiple of 4, and makes no process
    query otherwise; and the three calls that follow a scanning call return
    the very [top_procs] that the scanning call returned. *)
Theorem scan_throttle (os : Os) (self : t) :
  let r := collect cpu_between os self in
  tick (store_of r) = tick self + 1
  /\ (forall oss,
        tick (store_of (collects cpu_between oss self)) = tick self + Z.of_nat (length oss))
  /\ ((tick self + 1) mod 4 <> 0 ->
      trace_of r = [] /\ procs (store_of r) = procs self)
  /\ ((tick self + 1) mod 4 = 0 ->
      (exists tr, trace_of r = PsutilPids :: tr)
      /\ forall os1 os2 os3,
          exists m m1 m2 m3 self',
            result_of r = Returns m
            /\ collects cpu_between [os1; os2; os3] (store_of r)
               = ([], self', Returns [m1; m2; m3])
            /\ top_procs m1 = top_procs m
            /\ top_procs m2 = top_procs m
            /\ top_procs m3 = top_procs m).
Proof.
  cbv zeta.
  destruct (collect_returns os self) as (tr & s' & m & E & Ht & _ & _ & Hc & _).
  split; [by rewrite E|]. split; [intros; apply collects_tick|].
  split.
  - intros H. destruct (collect_no_scan os self H) as (m' & E' & _).
    by rewrite E'.
  - intros H. split; [by apply collect_scan|].
    intros os1 os2 os3. rewrite E. unfold store_of, result_of. simpl.
    destruct (three_cycles_no_scan os1 os2 os3 s')
      as (m1 & m2 & m3 & s3 & E3 & T1 & T2 & T3 & _); [by rewrite Ht|].
    exists m, m1, m2, m3, s3. rewrite Hc. by repeat split.
Qed.

(** C10.  After construction the tick is 0 and the cached list is empty:
    the first three [collect()] calls make no process query and return an
    empty [top_procs], leaving the process cache empty; the fourth call
    scans. *)
Theorem first_scan_on_fourth_call (net0 : NetIO) (now0 : Q) (os1 os2 os3 os4 : Os) :
  exists m1 m2 m3 self',
    collects cpu_between [os1; os2; os3] (__init__ net0 now0)
    = ([], self', Returns [m1; m2; m3])
    /\ top_procs m1 = [] /\ top_procs m2 = [] /\ top_procs m3 = []
    /\ procs self' = ∅ /\ tick self' = 3
    /\ exists tr, trace_of (collect cpu_between os4 self') = PsutilPids :: tr.
Proof.
  destruct (three_cycles_no_scan os1 os2 os3 (__init__ net0 now0))
    as (m1 & m2 & m3 & s3 & E3 & T1 & T2 & T3 & Hp & _ & Ht); [done|].
  exists m1, m2, m3, s3. repeat split; try done.
  apply collect_scan. rewrite Ht. reflexivity.
Qed.

End CollectFacts.

(** *** Concrete runs of the collector *)

Lemma rates_sign_witness :
  (exists tr self' m,
      MetricsCollector.collect percent_between (net_at 2 6000) (collector_at 0 5000)
      = (tr, self', Returns m)
      /\ (0 <= net_sent m)%Q /\ (0 <= net_recv m)%Q)
  /\ (exists tr self' m,
        MetricsCollector.collect percent_between (net_at 1 1000) (collector_at 0 5000)
        = (tr, self', Returns m)
        /\ (net_sent m < 0)%Q).
Proof.
  split.
  - destruct (rates_sign percent_between (net_at 2 6000) (collector_at 0 5000))
      as (tr & s' & m & E & Hs & Hr & _).
    exists tr, s', m. split; [exact E|].
    split; [apply Hs | apply Hr]; q_compute.
  - destruct (rates_sign percent_between (net_at 1 1000) (collector_at 0 5000))
      as (tr & s' & m & E & _ & _ & Hs & _).
    exists tr, s', m. split; [exact E|]. apply Hs; q_compute.
Defined.

(** C1, as stated, fails: the sent counter goes from 5000 down to 1000 in
    one second, and the reported rate is -4000 bytes per second, not 0. *)
Lemma negative_rate_on_counter_reset :
  delta_sent (net_at 1 1000) (collector_at 0 5000) = (-4000)%Z
  /\ (exists m,
        result_of (MetricsCollector.collect percent_between (net_at 1 1000)
                     (collector_at 0 5000)) = Returns m
        /\ (net_sent m == -4000)%Q)
  /\ ~ spec_rates_nonnegative percent_between (net_at 1 1000) (collector_at 0 5000).
Proof.
  split; [reflexivity|]. split.
  { eexists. split; reflexivity. }
  intros H. destruct (H _ eq_refl) as (Hs & _).
  vm_compute in Hs. by apply Hs.
Qed.

Lemma rate_divisor_witness :
  MetricsCollector.rate_dt (elapsed (net_at 5 1000) (collector_at 5 0)) = epsilon
  /\ MetricsCollector.rate_dt (elapsed (net_at 7 1000) (collector_at 5 0))
     = elapsed (net_at 7 1000) (collector_at 5 0)
  /\ (0 < MetricsCollector.rate_dt (elapsed (net_at 5 1000) (collector_at 5 0)))%Q
  /\ (MetricsCollector.rate_dt (elapsed (net_at 7 1000) (collector_at 5 0))
      == Qmax (elapsed (net_at 7 1000) (collector_at 5 0)) epsilon)%Q.
Proof.
  destruct (rate_divisor percent_between (net_at 5 1000) (collector_at 5 0))
    as (_ & _ & H0 & _ & Hp & _).
  destruct (rate_divisor percent_between (net_at 7 1000) (collector_at 5 0))
    as (_ & _ & _ & Hn & _ & Hm).
  split; [apply H0; q_compute|]. split; [apply Hn; q_compute|].
  split; [apply Hp; q_compute|]. apply Hm. right. q_compute.
Defined.

(** C9, as stated, fails: half a millisecond after the previous call the
    divisor is 0.0005, not [max(0.0005, 0.001)], so 1000 bytes give a rate of
    2000000, where the formula of the spec gives 1000000; and when the
    clock has gone back by a second the divisor is -1, not positive. *)
Lemma rate_divisor_is_not_max :
  (exists m,
      result_of (MetricsCollector.collect percent_between (net_at (1 # 2000) 1000)
                   (collector_at 0 0)) = Returns m
      /\ (net_sent m == 2000000)%Q
      /\ (spec_rate 1000 (1 # 2000) == 1000000)%Q)
  /\ ~ spec_rates_by_max percent_between (net_at (1 # 2000) 1000) (collector_at 0 0)
  /\ (MetricsCollector.rate_dt (elapsed (net_at 4 1000) (collector_at 5 0)) == -1)%Q
  /\ ~ spec_rates_by_max percent_between (net_at 4 1000) (collector_at 5 0).
Proof.
  split.
  { eexists. split; [reflexivity|]. split; reflexivity. }
  split.
  { intros [_ H]. destruct (H _ eq_refl) as (Hs & _).
    vm_compute in Hs. discriminate. }
  split; [reflexivity|].
  intros [H _]. vm_compute in H. discriminate.
Qed.

Lemma scan_throttle_witness :
  (trace_of (MetricsCollector.collect percent_between (net_at 1 10) (collector_at 0 0))
   = []
   /\ MetricsCollector.procs
        (store_of (MetricsCollector.collect percent_between (net_at 1 10)
                     (collector_at 0 0)))
      = MetricsCollector.procs (collector_at 0 0))
  /\ exists tr,
      trace_of (MetricsCollector.collect percent_between (net_at 4 40)
                  after_three_calls)
      = PsutilPids :: tr.
Proof.
  destruct (scan_throttle percent_between (net_at 1 10) (collector_at 0 0))
    as (_ & _ & Hquiet & _).
  destruct (scan_throttle percent_between (net_at 4 40) after_three_calls)
    as (_ & _ & _ & Hscan).
  split; [apply Hquiet; q_compute|].
  apply Hscan. reflexivity.
Defined.

Lemma dead_pid_gets_fresh_baseline_witness :
  MetricsCollector.procs tracking_42 !! 42%Z
  = Some {| MetricsCollector.h_pid := 42; MetricsCollector.h_ident := 200;
            MetricsCollector.h_last :=
              Some {| MetricsCollector.s_timer := 401 # 100;
                      MetricsCollector.s_cpu_time := 900 |} |}
  /\ MetricsCollector.procs
       (store_of (MetricsCollector.collect percent_between gone_42 tracking_42))
     !! 42%Z = None
  /\ fresh_reading percent_between 42 new_42
       {| MetricsCollector.s_timer := 12; MetricsCollector.s_cpu_time := 0 |}
       {| MetricsCollector.s_timer := 1201 # 100;
          MetricsCollector.s_cpu_time := 1 # 200 |}
       1 "new" (scan_at 8 [1]%Z [init_proc 8 11 8 11; new_42]) tracking_42
  /\ fresh_reading percent_between 42 new_42
       {| MetricsCollector.s_timer := 12; MetricsCollector.s_cpu_time := 0 |}
       {| MetricsCollector.s_timer := 1201 # 100;
          MetricsCollector.s_cpu_time := 1 # 200 |}
       1 "new" back_42
       (store_of (collects percent_between
                    [gone_42; net_at 9 90; net_at 10 100; net_at 11 110]
                    tracking_42)).
Proof.
  assert (Hold : MetricsCollector.procs tracking_42 !! 42%Z
            = Some {| MetricsCollector.h_pid := 42; MetricsCollector.h_ident := 200;
                      MetricsCollector.h_last :=
                        Some {| MetricsCollector.s_timer := 401 # 100;
                                MetricsCollector.s_cpu_time := 900 |} |}).
  { reflexivity. }
  assert (Hdead : 42%Z ∉ [1%Z]).
  { apply (proj1 (bool_decide_eq_false _)). reflexivity. }
  destruct (dead_pid_gets_fresh_baseline percent_between 42%Z _ tracking_42 Hold)
    as (Hgone & Hsame & Hlater).
  split; [exact Hold|]. split; [|split].
  - apply (Hgone gone_42 [1%Z]); [reflexivity | reflexivity | exact Hdead |].
    repeat constructor. discriminate.
  - apply (Hsame _ [1%Z]); [reflexivity | reflexivity | exact Hdead |].
    exists [init_proc 8 11 8 11], []. repeat split.
    repeat constructor. discriminate.
  - apply Hlater with (live1 := [1%Z]) (live2 := [1%Z; 42%Z]).
    + reflexivity.
    + reflexivity.
    + exact Hdead.
    + repeat constructor; discriminate.
    + reflexivity.
    + reflexivity.
    + exists [init_proc 12 12 12 12], []. repeat split.
      repeat constructor. discriminate.
Defined.

(** C6, as stated, fails for a pid that is reassigned between two scans:
    pid 42, tracked since the fourth cycle, is listed by [psutil.pids()]
    at the eighth cycle, under another process.  The scan keeps the object
    of the old process and reads the new process against the accounting
    stored at the fourth cycle, not against the baseline of the eighth. *)
Lemma reassigned_between_scans_reads_old_accounting :
  MetricsCollector.procs tracking_42 !! 42%Z
  = Some {| MetricsCollector.h_pid := 42; MetricsCollector.h_ident := 200;
            MetricsCollector.h_last :=
              Some {| MetricsCollector.s_timer := 401 # 100;
                      MetricsCollector.s_cpu_time := 900 |} |}
  /\ MetricsCollector.procs
       (store_of (MetricsCollector.collect percent_between reused_42_at_8
                    tracking_42)) !! 42%Z
     = Some {| MetricsCollector.h_pid := 42; MetricsCollector.h_ident := 200;
               MetricsCollector.h_last :=
                 Some {| MetricsCollector.s_timer := 801 # 100;
                         MetricsCollector.s_cpu_time := 1 # 200 |} |}
  /\ (exists m,
        result_of (MetricsCollector.collect percent_between reused_42_at_8
                     tracking_42) = Returns m
        /\ In {| p_pid := 42; p_name := "new";
                 p_cpu_percent :=
                   percent_between
                     {| MetricsCollector.s_timer := 401 # 100;
                        MetricsCollector.s_cpu_time := 900 |}
                     {| MetricsCollector.s_timer := 801 # 100;
                        MetricsCollector.s_cpu_time := 1 # 200 |};
                 p_memory_percent := 1 |} (top_procs m))
  /\ ~ spec_reassigned_is_fresh percent_between 42 reused_42
        {| MetricsCollector.s_timer := 8; MetricsCollector.s_cpu_time := 0 |}
        {| MetricsCollector.s_timer := 801 # 100;
           MetricsCollector.s_cpu_time := 1 # 200 |}
        1 "new" reused_42_at_8 tracking_42.
Proof.
  assert (Hold : MetricsCollector.procs tracking_42 !! 42%Z
            = Some {| MetricsCollector.h_pid := 42; MetricsCollector.h_ident := 200;
                      MetricsCollector.h_last :=
                        Some {| MetricsCollector.s_timer := 401 # 100;
                                MetricsCollector.s_cpu_time := 900 |} |})
    by reflexivity.
  assert (Hnew : MetricsCollector.procs
       (store_of (MetricsCollector.collect percent_between reused_42_at_8
                    tracking_42)) !! 42%Z
     = Some {| MetricsCollector.h_pid := 42; MetricsCollector.h_ident := 200;
               MetricsCollector.h_last :=
                 Some {| MetricsCollector.s_timer := 801 # 100;
                         MetricsCollector.s_cpu_time := 1 # 200 |} |})
    by (vm_compute; reflexivity).
  split; [exact Hold|]. split; [exact Hnew|]. split.
  - eexists. split; [vm_compute; reflexivity|]. right. left. reflexivity.
  - intros Hspec.
    destruct (Hspec _ Hold) as [Hfresh _].
    + discriminate.
    + reflexivity.
    + exists [init_proc 8 11 8 11], []. repeat split.
      repeat constructor. discriminate.
    + rewrite Hnew in Hfresh. discriminate.
Qed.

(** * Further properties *)

(** ** The platform steps of CacheCleaner *)

Section TrimFacts.
Import CacheCleaner.

Lemma linux_trim_returns (os : Os) (s : unit) :
  exists tr, _linux_trim os s = (tr, s, Returns (linux_trims os)).
Proof.
  unfold _linux_trim, linux_trims, returned. unfold_monad.
  destruct (libc os) as [[|]|e]; simpl; [|by eexists..].
  destruct (malloc_trim os) as [[]|e]; simpl; by eexists.
Qed.

Lemma mac_trim_returns (os : Os) (s : unit) :
  exists tr, _mac_trim os s = (tr, s, Returns (mac_purges os)).
Proof.
  unfold _mac_trim, mac_purges. unfold_monad.
  destruct (os_system os) as [st|e]; by eexists.
Qed.

(** X1.  [_linux_trim] never raises.  It returns [True] exactly when
    [libc.so.6] loads, exports [malloc_trim] and the call answers; it calls
    [malloc_trim] only when the symbol is there, and it writes its log line
    exactly when it returns [True]. *)
Theorem linux_trim_total (os : Os) (s : unit) :
  exists tr,
    _linux_trim os s = (tr, s, Returns (linux_trims os))
    /\ (In MallocTrim tr <-> libc os = Returns true)
    /\ (In (LoggerInfo "Linux malloc_trim executed") tr <-> linux_trims os = true).
Proof.
  unfold _linux_trim, linux_trims, returned. unfold_monad.
  destruct (libc os) as [[|]|e]; simpl.
  - destruct (malloc_trim os) as [[]|e]; simpl; eexists;
      (split; [reflexivity|]); simpl; intuition congruence.
  - eexists. split; [reflexivity|]. simpl. intuition congruence.
  - eexists. split; [reflexivity|]. simpl. intuition congruence.
Qed.

(** One turn of the loop of [_windows_trim]. *)
Lemma windows_turn (os : Os) (pid : Z) (count : Z) :
  exists tr,
    try_except
      (handle <- extern (OpenProcess pid) (open_process os pid) ;;
       if Z.eqb handle 0 then ret tt
       else
         extern (EmptyWorkingSet handle) (empty_working_set os handle) ;;;
         extern (CloseHandle handle) (close_handle os handle) ;;;
         count <- get ;;
         put (count + 1)%Z)%py
      (fun _ => ret tt) count
    = (tr, (if trims_pid os pid then count + 1 else count)%Z, Returns tt)
    /\ opened tr = [pid]
    /\ Forall handle_call tr.
Proof.
  unfold trims_pid, returned. unfold_monad.
  destruct (open_process os pid) as [h|e]; simpl.
  - destruct (Z.eqb h 0); simpl.
    + eexists. split; [reflexivity|]. split; [done|]. by repeat constructor.
    + destruct (empty_working_set os h) as [[]|e]; simpl;
        [destruct (close_handle os h) as [[]|e]; simpl|];
        (eexists; split; [reflexivity|]; split; [done|]; by repeat constructor).
  - eexists. split; [reflexivity|]. split; [done|]. by repeat constructor.
Qed.

Lemma opened_app (t1 t2 : list event) : opened (t1 ++ t2) = opened t1 ++ opened t2.
Proof.
  induction t1 as [|ev t1 IH]; simpl; [done|].
  destruct ev; simpl; by rewrite ?IH.
Qed.

(** The loop of [_windows_trim]: a failure on one pid does not stop it. *)
Lemma windows_loop (os : Os) (ps : list Z) (count : Z) :
  exists tr,
    for_each ps (fun pid =>
       try_except
         (handle <- extern (OpenProcess pid) (open_process os pid) ;;
          if Z.eqb handle 0 then ret tt
          else
            extern (EmptyWorkingSet handle) (empty_working_set os handle) ;;;
            extern (CloseHandle handle) (close_handle os handle) ;;;
            count <- get ;;
            put (count + 1)%Z)%py
         (fun _ => ret tt)) count
    = (tr, (count + Z.of_nat (length (List.filter (trims_pid os) ps)))%Z, Returns tt)
    /\ opened tr = ps
    /\ Forall handle_call tr.
Proof.
  revert count. induction ps as [|pid ps IH]; intros count.
  - exists []. simpl. unfold ret. by rewrite Z.add_0_r.
  - cbn [for_each List.filter]. unfold bind at 1.
    destruct (windows_turn os pid count) as (t1 & E1 & O1 & F1). rewrite E1.
    destruct (IH (if trims_pid os pid then count + 1 else count)%Z)
      as (t2 & E2 & O2 & F2).
    rewrite E2. exists (t1 ++ t2). split.
    + f_equal. f_equal. destruct (trims_pid os pid); simpl length; lia.
    + split; [by rewrite opened_app, O1, O2 | by apply Forall_app].
Qed.

(** X2.  [_windows_trim] raises only when [ctypes.windll] or
    [psutil.pids()] does, before any process is touched.  Otherwise it
    calls [OpenProcess] on every pid, in order, whatever happens on the
    others; it counts the pids whose handle is not null and on which
    [EmptyWorkingSet] and [CloseHandle] answer; and it returns [True], with
    a log line that gives the count, exactly when the count is positive. *)
Theorem windows_trim_counts (os : Os) :
  (forall e, windll os = Raises e ->
             _windows_trim os 0%Z = ([Windll], 0%Z, Raises e))
  /\ (forall e, windll os = Returns tt -> pids os = Raises e ->
               _windows_trim os 0%Z = ([Windll; PsutilPids], 0%Z, Raises e))
  /\ (forall ps, windll os = Returns tt -> pids os = Returns ps ->
        let count := Z.of_nat (length (List.filter (trims_pid os) ps)) in
        exists calls,
          _windows_trim os 0%Z
          = ([Windll; PsutilPids] ++ calls
               ++ (if Z.ltb 0 count then [trimmed_line count] else []),
             count, Returns (Z.ltb 0 count))
          /\ opened calls = ps
          /\ Forall handle_call calls).
Proof.
  split; [|split].
  - intros e H. unfold _windows_trim. unfold_monad. by rewrite H.
  - intros e Hw H. unfold _windows_trim. unfold_monad. by rewrite Hw, H.
  - intros ps Hw H. cbv zeta.
    destruct (windows_loop os ps 0%Z) as (calls & E & Ho & Hf).
    exists calls. split; [|done].
    unfold _windows_trim, trimmed_line. unfold bind at 1 2 3.
    unfold extern at 1 2. rewrite Hw, H. rewrite E. unfold_monad. simpl.
    destruct (Z.ltb 0 _); simpl; by rewrite ?app_nil_r.
Qed.

End TrimFacts.

(** ** When clean() logs an error *)

Section CleanErrors.
Import CacheCleaner.

Lemma clean_try_no_error (self : t) (os : Os) :
  traces no_error (clean_try self os).
Proof.
  unfold clean_try, _windows_trim, _linux_trim, _mac_trim.
  repeat traces_step; reflexivity.
Qed.

Lemma existsb_error_quiet (tr : list event) :
  Forall no_error tr -> existsb is_error tr = false.
Proof.
  induction 1 as [|ev tr H _ IH]; simpl; [done|].
  unfold no_error in H. by rewrite H, IH.
Qed.

Lemma windows_trim_raises_iff (os : Os) :
  (exists e, result_of (_windows_trim os 0%Z) = Raises e)
  <-> windows_fails os = true.
Proof.
  unfold windows_fails, returned, _windows_trim.
  unfold bind at 1 2 3. unfold extern at 1 2.
  destruct (windll os) as [[]|e]; simpl; [|split; eauto].
  destruct (pids os) as [ps|e]; simpl; [|split; eauto].
  destruct (windows_loop os ps 0%Z) as (calls & E & _). rewrite E.
  unfold_monad. simpl.
  destruct (Z.ltb 0 _); simpl; (split; [intros [e He]|]; discriminate).
Qed.

(** Which inputs make the body of the [try] raise. *)
Lemma step_raises_iff (self : t) (os : Os) :
  step_raises self os <->
  gc_completed os = false
  \/ (os_type self = "windows" /\ windows_fails os = true).
Proof.
  unfold step_raises, gc_completed, clean_try.
  unfold_monad.
  destruct (gc_collect os) as [[]|e]; simpl; [|split; eauto].
  destruct (String.eqb_spec (os_type self) "windows") as [Hw|Hw].
  - rewrite <- windows_trim_raises_iff. unfold result_of.
    destruct (_windows_trim os 0%Z) as [[tw sw] [b|e]]; simpl.
    + split; [intros [e He]; discriminate | intros [?|[_ [e He]]]; discriminate].
    + split; eauto.
  - destruct (String.eqb (os_type self) "linux").
    { pose proof (linux_trim_returns os tt) as [tr E]. rewrite E. simpl.
      split; [intros [e He]; discriminate | intros [?|[? _]]; congruence]. }
    destruct (String.eqb (os_type self) "darwin").
    { pose proof (mac_trim_returns os tt) as [tr E]. rewrite E. simpl.
      split; [intros [e He]; discriminate | intros [?|[? _]]; congruence]. }
    simpl. split; [intros [e He]; discriminate | intros [?|[? _]]; congruence].
Qed.

(** X3.  [clean()] writes its "RAM cleanup error" line exactly when
    [gc.collect()] raises, or, on Windows, when [ctypes.windll] or
    [psutil.pids()] raises; nothing that happens in the Linux and macOS
    steps, or on a single Windows process, is ever reported as an error.
    And when [gc.collect()] raises, no platform step is attempted. *)
Theorem clean_error_line (self : t) (os : Os) (s : bool) :
  (existsb is_error (trace_of (clean self os s)) = true <->
   gc_completed os = false
   \/ (os_type self = "windows" /\ windows_fails os = true))
  /\ (forall e, gc_collect os = Raises e ->
        clean self os s
        = ([LoggerInfo "RAM cleanup triggered (best-effort)"; GcCollect;
            LoggerError ("RAM cleanup error: " +:+ exn_str e)],
           false, Returns false)).
Proof.
  split.
  - rewrite <- step_raises_iff. unfold step_raises, clean.
    pose proof (clean_try_no_error self os false) as Hq.
    unfold_monad. simpl.
    destruct (clean_try self os false) as [[tb sb] [[]|e]]; simpl in *.
    + rewrite app_nil_r, (existsb_error_quiet _ Hq).
      split; [done | intros [e He]; discriminate].
    + rewrite app_nil_r, existsb_app. simpl. rewrite orb_true_r.
      split; eauto.
  - intros e He. unfold clean, clean_try. unfold_monad. by rewrite He.
Qed.

End CleanErrors.

(** ** The memory rule over a run *)

Section RunFacts.
Import AlertManager.
Variable str_float : Q -> string.

Lemma trigger_times_app (t1 t2 : list event) :
  trigger_times (t1 ++ t2) = trigger_times t1 ++ trigger_times t2.
Proof.
  induction t1 as [|ev t1 IH]; simpl; [done|].
  destruct ev; simpl; by rewrite ?IH.
Qed.

Lemma trigger_times_none (tr : list event) :
  Forall no_trigger tr -> trigger_times tr = [].
Proof.
  induction 1 as [|ev tr H _ IH]; simpl; [done|].
  by destruct ev.
Qed.

Lemma clean_no_trigger (self : CacheCleaner.t) (os : CacheCleaner.Os) :
  traces no_trigger (CacheCleaner.clean self os).
Proof.
  unfold CacheCleaner.clean, CacheCleaner.clean_try, CacheCleaner._windows_trim,
    CacheCleaner._linux_trim, CacheCleaner._mac_trim.
  repeat traces_step; exact I.
Qed.

Lemma trigger_steps_times (metrics : Metrics) (cb : bool) (now : Q)
    (os : CacheCleaner.Os) (self : t) :
  trigger_times (trigger_steps str_float metrics cb now os self) = [now].
Proof.
  unfold trigger_steps. simpl. rewrite !trigger_times_app.
  rewrite (trigger_times_none _ (clean_no_trigger (cleaner self) os false)).
  by destruct cb.
Qed.

(** One [check]: either it triggers, and then the clock is more than the
    cooldown past the recorded time, or it leaves the manager alone. *)
Lemma check_step (metrics : Metrics) (cb : bool) (now : Q)
    (os : CacheCleaner.Os) (self : t) :
  exists tr self' alerts,
    check str_float metrics cb now os self = (tr, self', Returns alerts)
    /\ ((trigger_times tr = [now] /\ reclamations tr = 1%nat
         /\ last_memory self' = now
         /\ (cooldown < now - last_memory self)%Q
         /\ (90 < m_memory_percent metrics)%Q
         /\ In (memory_alert str_float metrics) alerts)
        \/ (trigger_times tr = [] /\ reclamations tr = 0%nat
            /\ self' = self
            /\ ~ In (memory_alert str_float metrics) alerts
            /\ ((m_memory_percent metrics <= 90)%Q
                \/ (now - last_memory self <= cooldown)%Q)))
    /\ (length alerts <= 2)%nat.
Proof.
  destruct (Qgtb (m_memory_percent metrics) 90) eqn:Hm;
    [destruct (Qgtb (now - last_memory self) cooldown) eqn:Hc|].
  - pose proof Hm as Hm'. pose proof Hc as Hc'.
    apply Qgtb_true in Hm', Hc'.
    rewrite (check_fires str_float _ cb _ os _ Hm' Hc').
    eexists _, _, _. split; [reflexivity|]. split.
    + left. rewrite trigger_times_app, trigger_steps_times.
      rewrite reclamations_app, trigger_steps_reclamations.
      repeat split; try done.
      * by destruct (Qgtb (m_cpu_percent metrics) 85).
      * by destruct (Qgtb (m_cpu_percent metrics) 85).
      * unfold last_memory. simpl. by rewrite lookup_insert_eq.
      * apply in_or_app. right. by left.
    + rewrite length_app. destruct (Qgtb (m_cpu_percent metrics) 85); simpl; lia.
  - rewrite check_unfold. cbv zeta. rewrite Hm, Hc. simpl.
    eexists _, _, _. split; [reflexivity|]. split.
    + right. apply Qgtb_false in Hc.
      destruct (Qgtb (m_cpu_percent metrics) 85); simpl;
        repeat split; try done; try (by right); by intros [].
    + destruct (Qgtb (m_cpu_percent metrics) 85); simpl; lia.
  - rewrite check_unfold. cbv zeta. rewrite Hm. simpl.
    eexists _, _, _. split; [reflexivity|]. split.
    + right. apply Qgtb_false in Hm.
      destruct (Qgtb (m_cpu_percent metrics) 85); simpl;
        repeat split; try done; try (by left); by intros [].
    + destruct (Qgtb (m_cpu_percent metrics) 85); simpl; lia.
Qed.

(** X4.  Over any run of [check()] calls, with any clock readings, the
    run returns, and every reclamation comes more than 60 seconds (by the
    readings) after the previous one, the first one after the time the
    manager held at the start; the manager ends with the time of the last
    reclamation, and there are as many reclamations as recorded times. *)
Theorem reclamations_spaced (cs : list Cycle) (self : t) :
  exists tr self' alerts,
    checks str_float cs self = (tr, self', Returns alerts)
    /\ spaced (last_memory self) (trigger_times tr)
    /\ last_memory self' = final_time (last_memory self) (trigger_times tr)
    /\ reclamations tr = length (trigger_times tr)
    /\ length alerts = length cs.
Proof.
  revert self. induction cs as [|c cs IH]; intros self; simpl.
  - eexists [], self, []. by unfold_monad.
  - destruct (check_step (c_metrics c) (c_ui_callback c) (c_now c) (c_os c) self)
      as (t1 & s1 & a1 & E1 & Hcase & _).
    destruct (IH s1) as (t2 & s2 & a2 & E2 & Hsp & Hlast & Hn & Hlen).
    unfold bind at 1. rewrite E1. unfold bind at 1. rewrite E2.
    eexists _, _, _. split; [reflexivity|].
    rewrite app_nil_r, trigger_times_app, reclamations_app, Hn. simpl length.
    destruct Hcase as [(Ht & Hr & Hl & Hc & _)|(Ht & Hr & -> & _)];
      rewrite Ht, Hr; simpl.
    + rewrite Hl in Hsp, Hlast. repeat split; try done; try lia.
      rewrite Hlast. unfold final_time.
      destruct (trigger_times t2) as [|x l] eqn:Ex; [done|].
      simpl. clear. revert x. induction l as [|y l IHl]; intros x; [done|].
      simpl. destruct l; [done|]. apply (IHl y).
    + repeat split; try done; lia.
Qed.

(** X5.  [check()] returns at most two alerts.  The memory alert is among
    them exactly when the call reclaimed, and the call changes the manager
    exactly then: below the memory threshold or inside the cooldown it
    reports no memory alert at all, however high the memory is. *)
Theorem memory_alert_follows_reclamation (metrics : Metrics) (cb : bool)
    (now : Q) (os : CacheCleaner.Os) (self : t) :
  exists tr self' alerts,
    check str_float metrics cb now os self = (tr, self', Returns alerts)
    /\ (length alerts <= 2)%nat
    /\ (In (memory_alert str_float metrics) alerts <-> reclamations tr = 1%nat)
    /\ (self' = self <-> reclamations tr = 0%nat).
Proof.
  destruct (check_step metrics cb now os self)
    as (tr & s' & al & E & Hcase & Hlen).
  exists tr, s', al. split; [done|]. split; [done|].
  destruct Hcase as [(Ht & Hr & Hl & Hc & _ & Hin)|(Ht & Hr & -> & Hin & _)];
    rewrite Hr.
  - split; [tauto|]. split; [|discriminate].
    intros ->. exfalso. rewrite Hl in Hc. unfold cooldown in Hc. lra.
  - split; [split; [tauto|discriminate] | tauto].
Qed.

End RunFacts.

(** ** The ranking of the processes *)

Section RankingFacts.
Import MetricsCollector.
Variable cpu_between : Sample -> Sample -> Q.

Lemma insert_desc_perm (x : ProcInfo) (l : list ProcInfo) :
  Permutation (insert_desc x l) (x :: l).
Proof.
  induction l as [|y l IH]; simpl; [done|].
  destruct (Qgtb _ _); [|done].
  rewrite IH. apply perm_swap.
Qed.

Lemma sorted_desc_perm (l : list ProcInfo) : Permutation (sorted_desc l) l.
Proof.
  unfold sorted_desc. induction l as [|x l IH]; simpl; [done|].
  by rewrite insert_desc_perm, IH.
Qed.

Lemma insert_desc_sorted (x : ProcInfo) (l : list ProcInfo) :
  StronglySorted cpu_ge l -> StronglySorted cpu_ge (insert_desc x l).
Proof.
  induction 1 as [|y l Hs IH Hy]; simpl.
  - repeat constructor.
  - destruct (Qgtb (p_cpu_percent y) (p_cpu_percent x)) eqn:E.
    + apply Qgtb_true in E. constructor; [done|].
      rewrite insert_desc_perm. constructor; [|done].
      unfold cpu_ge. by apply Qlt_le_weak.
    + apply Qgtb_false in E. constructor; [by constructor|].
      constructor; [done|].
      eapply Forall_impl; [exact Hy|]. unfold cpu_ge. simpl.
      intros z Hz. by eapply Qle_trans.
Qed.

Lemma sorted_desc_sorted (l : list ProcInfo) :
  StronglySorted cpu_ge (sorted_desc l).
Proof.
  unfold sorted_desc. induction l as [|x l IH]; simpl; [constructor|].
  by apply insert_desc_sorted.
Qed.

(** Insertion goes past the entries that rank strictly higher only, so it
    never overtakes an entry of equal CPU percent. *)
Lemma insert_desc_stable (k : Q) (x : ProcInfo) (l : list ProcInfo) :
  List.filter (same_cpu k) (insert_desc x l)
  = List.filter (same_cpu k) (x :: l).
Proof.
  induction l as [|y l IH]; [done|]. cbn [insert_desc].
  destruct (Qgtb (p_cpu_percent y) (p_cpu_percent x)) eqn:E; [|done].
  apply Qgtb_true in E. cbn [List.filter] in *. rewrite IH.
  destruct (same_cpu k x) eqn:Ex; [|done].
  destruct (same_cpu k y) eqn:Ey; [|done].
  unfold same_cpu in Ex, Ey. apply Qeq_bool_iff in Ex, Ey.
  exfalso. rewrite Ex, Ey in E. by apply Qlt_irrefl in E.
Qed.

Lemma sorted_desc_stable (k : Q) (l : list ProcInfo) :
  List.filter (same_cpu k) (sorted_desc l) = List.filter (same_cpu k) l.
Proof.
  unfold sorted_desc. induction l as [|x l IH]; [done|].
  cbn [foldr]. rewrite insert_desc_stable. cbn [List.filter].
  by rewrite IH.
Qed.





(** X6.  When a scan runs to its end, the list it returns and caches is
    the head, cut at five, of a stable descending sort of the scanned
    entries: no entry left out has a higher CPU percent than an entry kept,
    and entries of equal CPU percent stay in enumeration order. *)
Theorem scan_returns_top_five (os : Os) (live : list Z) (s : t)
    (tr : list event) (s' : t) (pl : list ProcInfo) :
  pids os = Returns live ->
  scan_loop cpu_between (process_iter os) []
    (set_procs (remove_dead (list_to_set live)) s) = (tr, s', Returns pl) ->
  exists top,
    result_of (scan cpu_between os s) = Returns top
    /\ cached_top_procs (store_of (scan cpu_between os s)) = top
    /\ top_five_of top pl.
Proof.
  intros Hp Hl. rewrite (scan_unfold cpu_between os live s Hp), Hl.
  eexists. split; [reflexivity|]. split; [reflexivity|].
  exists (drop 5 (sorted_desc pl)). rewrite take_drop. repeat split.
  - rewrite length_take, length_sorted_desc. done.
  - apply sorted_desc_perm.
  - apply sorted_desc_sorted.
  - intros k. apply sorted_desc_stable.
Qed.

End RankingFacts.

(** ** The process cache over a scan *)

Section CacheFacts.
Import MetricsCollector.
Variable cpu_between : Sample -> Sample -> Q.
Local Open Scope Z_scope.

#[local] Instance keeps_keyed_refl : Reflexive keeps_keyed.
Proof. intros s H. exact H. Qed.

#[local] Instance keeps_keyed_trans : Transitive keeps_keyed.
Proof. intros s1 s2 s3 H1 H2 H. by apply H2, H1. Qed.

Lemma keyed_insert (m : gmap Z Process) (p : Process) :
  keyed m -> keyed (<[h_pid p := p]> m).
Proof.
  intros H k p' Hl. destruct (decide (h_pid p = k)) as [<-|Hne].
  - rewrite lookup_insert_eq in Hl. by injection Hl as <-.
  - rewrite lookup_insert_ne in Hl by done. by apply H.
Qed.

Lemma keyed_delete (m : gmap Z Process) (k : Z) : keyed m -> keyed (delete k m).
Proof.
  intros H k' p Hl. destruct (decide (k = k')) as [<-|Hne].
  - by rewrite lookup_delete_eq in Hl.
  - rewrite lookup_delete_ne in Hl by done. by apply H.
Qed.

Lemma keyed_remove_dead (live : gset Z) (m : gmap Z Process) :
  keyed m -> keyed (remove_dead live m).
Proof.
  intros H k p. rewrite lookup_remove_dead.
  destruct (decide (k ∈ live)); [apply H|done].
Qed.

Lemma keeps_keyed_cpu_percent (pid : Z) (reading : outcome Sample) :
  stable keeps_keyed (proc_cpu_percent cpu_between pid reading).
Proof.
  intros s Hk. unfold proc_cpu_percent. unfold_monad.
  destruct reading as [r|e]; simpl; [|done].
  destruct (procs s !! pid) as [p|] eqn:Hp; simpl; [|done].
  rewrite <- (Hk _ _ Hp) at 1.
  by apply (keyed_insert _ {| h_pid := h_pid p; h_ident := h_ident p;
                             h_last := Some r |}).
Qed.

Lemma keeps_keyed_scan_body (q : Queries) (p0 : Process) (pl : list ProcInfo) :
  h_pid p0 = pid_of q ->
  stable keeps_keyed (scan_body cpu_between q p0 pl).
Proof.
  intros H0. unfold scan_body. fold (pid_of q). rewrite <- H0.
  repeat first
    [ apply keeps_keyed_cpu_percent
    | match goal with
      | |- stable _ (modify (set_procs (insert _ _))) =>
          intros s Hk; simpl; by apply keyed_insert
      | |- stable _ (modify (set_procs (delete _))) =>
          intros s Hk; simpl; by apply keyed_delete
      end
    | stable_step ].
Qed.

Lemma keyed_after_yield (q : Queries) (s : t) :
  keyed (procs s) -> keyed (procs (after_yield q s)).
Proof.
  intros Hk. unfold after_yield.
  destruct (procs s !! pid_of q) as [p|] eqn:Hp; [|done]. simpl.
  rewrite <- (Hk _ _ Hp), <- (proj1 (seen_pid q p)).
  by apply keyed_insert.
Qed.

Lemma keeps_keyed_scan_item (q : Queries) (pl : list ProcInfo) :
  stable keeps_keyed (scan_item cpu_between q pl).
Proof.
  intros s Hk. rewrite scan_item_unfold.
  apply (keeps_keyed_scan_body q (yield_object q s) pl).
  - by apply yield_object_pid.
  - by apply keyed_after_yield.
Qed.

Lemma keeps_keyed_scan_loop (qs : list Queries) (pl : list ProcInfo) :
  stable keeps_keyed (scan_loop cpu_between qs pl).
Proof.
  revert pl. induction qs as [|q qs IH]; intros pl; simpl.
  - stable_step.
  - stable_step; [apply keeps_keyed_scan_item | apply IH].
Qed.

Lemma keeps_keyed_collect (os : Os) (self : t) :
  keeps_keyed self (store_of (collect cpu_between os self)).
Proof.
  intros Hk. rewrite collect_unfold. cbv zeta.
  destruct (Z.eqb _ 0); [|done].
  set (s1 := set_tick (tick self + 1) (set_last (net os) (now os) self)).
  assert (Hs : keyed (procs (store_of (scan cpu_between os s1)))).
  { destruct (pids os) as [live|e] eqn:Hp.
    - rewrite (scan_unfold cpu_between os live s1 Hp).
      pose proof (keeps_keyed_scan_loop (process_iter os) []
                    (set_procs (remove_dead (list_to_set live)) s1)) as Hl.
      unfold store_of in *.
      destruct (scan_loop _ _ _ _) as [[tr s'] [pl|e]]; simpl in *;
        apply Hl; by apply keyed_remove_dead.
    - unfold scan. unfold_monad. by rewrite Hp. }
  unfold store_of in *. by destruct (scan _ _ _) as [[tr s2] [top|e]].
Qed.

(** X8.  After a scanning cycle whose [psutil.pids()] answered, the cache
    holds no pid other than those that [psutil.pids()] listed and those
    that the iteration yielded in that cycle, even when the scan was cut
    short by an exception. *)
Theorem cache_within_live (os : Os) (live : list Z) (self : t) (k : Z) :
  (tick self + 1) mod 4 = 0 ->
  pids os = Returns live ->
  is_Some (procs (store_of (collect cpu_between os self)) !! k) ->
  k ∈ live \/ k ∈ map pid_of (process_iter os).
Proof.
  intros Ht Hp Hk.
  destruct (decide (k ∈ map pid_of (process_iter os))) as [|Hn]; [by right|].
  left. rewrite collect_unfold in Hk. cbv zeta in Hk.
  apply Z.eqb_eq in Ht. rewrite Ht in Hk.
  rewrite (scan_unfold cpu_between os live _ Hp) in Hk.
  assert (Hu : Forall (fun q => pid_of q <> k) (process_iter os)).
  { apply List.Forall_forall. intros q Hq Heq. apply Hn.
    apply list_elem_of_In, in_map_iff. exists q. by split. }
  pose proof (stable_at_scan_loop cpu_between k (process_iter os) [] Hu
    (set_procs (remove_dead (list_to_set live))
       (set_tick (tick self + 1) (set_last (net os) (now os) self)))) as Hs.
  unfold same_at, store_of in *.
  destruct (scan_loop _ _ _ _) as [[tr s'] [pl|e]]; simpl in *;
    rewrite Hs, lookup_remove_dead in Hk;
    (destruct (decide (k ∈ (list_to_set live : gset Z))) as [Hin|];
       [by apply elem_of_list_to_set in Hin | by destruct Hk]).
Qed.

(** X9.  In any run of [collect()] calls after construction, every object
    of the cache is filed under the pid it was created for. *)
Theorem cache_keyed_by_pid (net0 : NetIO) (now0 : Q) (oss : list Os) :
  keyed (procs (store_of (collects cpu_between oss (__init__ net0 now0)))).
Proof.
  assert (H : forall self, keyed (procs self) ->
            keyed (procs (store_of (collects cpu_between oss self)))).
  { induction oss as [|os oss' IH]; intros self Hk; simpl.
    - by unfold_monad.
    - pose proof (keeps_keyed_collect os self Hk) as H1.
      destruct (collect_returns cpu_between os self) as (tr & s' & m & E & _).
      rewrite E in H1. specialize (IH s' H1).
      unfold_monad. rewrite E.
      by destruct (collects cpu_between oss' s') as [[t2 s2] [ms|e]]. }
  apply H. intros k p Hl. simpl in Hl. by rewrite lookup_empty in Hl.
Qed.

(** The body of the loop, by the first query that raises. *)
Lemma scan_body_failure (q : Queries) (p0 : Process) (pl : list ProcInfo)
    (s : t) :
  let r := scan_body cpu_between q p0 pl s in
  match first_failure (bool_decide (procs s !! pid_of q = None)) q with
  | None =>
      (exists e, result_of r = Returns (pl ++ [e]) /\ p_pid e = pid_of q)
      /\ is_Some (procs (store_of r) !! pid_of q)
  | Some e =>
      if caught_by_scan (exn_cls e)
      then result_of r = Returns pl /\ procs (store_of r) !! pid_of q = None
      else result_of r = Raises e /\ is_Some (procs (store_of r) !! pid_of q)
  end.
Proof.
  cbv zeta.
  unfold first_failure, failure, scan_body, proc_cpu_percent, modify, pid_of.
  unfold_monad.
  destruct (decide (procs s !! h_pid (q_proc q) = None)) as [Hn|Hn].
  - rewrite bool_decide_eq_true_2 by done. simpl.
    rewrite ?lookup_insert_eq.
    destruct (q_baseline q) as [b|eb]; simpl;
      [|destruct (caught_by_scan (exn_cls eb)); simpl;
        rewrite ?lookup_delete_eq, ?lookup_insert_eq; eauto].
    rewrite ?lookup_insert_eq. simpl.
    destruct (q_cpu q) as [c|ec]; simpl;
      [|destruct (caught_by_scan (exn_cls ec)); simpl;
        rewrite ?lookup_delete_eq, ?lookup_insert_eq; eauto].
    rewrite ?lookup_insert_eq. simpl.
    destruct (q_mem q) as [mm|em]; simpl;
      [|destruct (caught_by_scan (exn_cls em)); simpl;
        rewrite ?lookup_delete_eq, ?lookup_insert_eq; eauto].
    destruct (q_name q) as [nm|en]; simpl;
      [|destruct (caught_by_scan (exn_cls en)); simpl;
        rewrite ?lookup_delete_eq, ?lookup_insert_eq; eauto].
    rewrite ?lookup_insert_eq. eauto.
  - rewrite bool_decide_eq_false_2 by done. simpl.
    destruct (procs s !! h_pid (q_proc q)) as [p|] eqn:Hp; [|done].
    destruct (q_cpu q) as [c|ec]; simpl;
      [|destruct (caught_by_scan (exn_cls ec)); simpl;
        rewrite ?lookup_delete_eq, ?Hp; eauto].
    destruct (q_mem q) as [mm|em]; simpl;
      [|destruct (caught_by_scan (exn_cls em)); simpl;
        rewrite ?lookup_delete_eq, ?lookup_insert_eq; eauto].
    destruct (q_name q) as [nm|en]; simpl;
      [|destruct (caught_by_scan (exn_cls en)); simpl;
        rewrite ?lookup_delete_eq, ?lookup_insert_eq; eauto].
    rewrite ?lookup_insert_eq. eauto.
Qed.

(** X10.  What an item of the iteration does when a query on it raises.
    With no failure the item adds one entry, under its pid.  When the
    first failure is [NoSuchProcess] or [AccessDenied], the item adds
    nothing, its pid is dropped from the cache and the scan goes on.  Any
    other exception ends the scan, and the object stays in the cache.  In
    every case the cache is untouched under the other pids. *)
Theorem scan_item_failure (q : Queries) (pl : list ProcInfo) (s : t) :
  let r := scan_item cpu_between q pl s in
  match first_failure (bool_decide (procs s !! pid_of q = None)) q with
  | None =>
      (exists e, result_of r = Returns (pl ++ [e]) /\ p_pid e = pid_of q)
      /\ is_Some (procs (store_of r) !! pid_of q)
  | Some e =>
      if caught_by_scan (exn_cls e)
      then result_of r = Returns pl /\ procs (store_of r) !! pid_of q = None
      else result_of r = Raises e /\ is_Some (procs (store_of r) !! pid_of q)
  end
  /\ forall k, k <> pid_of q -> procs (store_of r) !! k = procs s !! k.
Proof.
  cbv zeta. split.
  - rewrite scan_item_unfold.
    assert (Hb : bool_decide (procs s !! pid_of q = None)
                 = bool_decide (procs (after_yield q s) !! pid_of q = None)).
    { apply bool_decide_ext. rewrite after_yield_lookup.
      by destruct (procs s !! pid_of q). }
    rewrite Hb. apply scan_body_failure.
  - intros k Hk. by apply (stable_at_scan_item cpu_between k q pl).
Qed.

End CacheFacts.

(** ** Interrupted scans and the readings of tracked pids *)

Section ScanFacts.
Import MetricsCollector.
Variable cpu_between : Sample -> Sample -> Q.
Local Open Scope Z_scope.

(** X11.  When the scan of a scanning cycle is cut short by an exception,
    [collect()] still returns: with the list cached before, which stays
    cached, and with the tick advanced.  When it is [psutil.pids()] that
    raises, no process is queried and the process cache is untouched. *)
Theorem interrupted_scan_keeps_list (os : Os) (self : t) :
  (tick self + 1) mod 4 = 0 ->
  let s1 := set_tick (tick self + 1) (set_last (net os) (now os) self) in
  ((exists e, result_of (scan cpu_between os s1) = Raises e) ->
   exists m,
     collect cpu_between os self
     = (trace_of (scan cpu_between os s1), store_of (scan cpu_between os s1),
        Returns m)
     /\ top_procs m = cached_top_procs self
     /\ cached_top_procs (store_of (scan cpu_between os s1))
        = cached_top_procs self
     /\ tick (store_of (scan cpu_between os s1)) = tick self + 1)
  /\ (forall e, pids os = Raises e ->
        exists m,
          collect cpu_between os self = ([PsutilPids], s1, Returns m)
          /\ top_procs m = cached_top_procs self).
Proof.
  intros Ht. cbv zeta. apply Z.eqb_eq in Ht. split.
  - intros [e He]. rewrite collect_unfold. cbv zeta. rewrite Ht.
    pose proof (scan_frame cpu_between os
      (set_tick (tick self + 1) (set_last (net os) (now os) self))) as Hf.
    cbv zeta in Hf. unfold trace_of, store_of, result_of in *.
    destruct (scan _ _ _) as [[tr s2] [top|e']]; simpl in *; [done|].
    destruct Hf as (_ & _ & Hk & Hc). eexists. by repeat split.
  - intros e Hp. rewrite collect_unfold. cbv zeta. rewrite Ht.
    unfold scan. unfold_monad. rewrite Hp. simpl. by eexists.
Qed.

(** A scanning cycle in which the cache holds [pid] and the iteration
    yields an item for it: the reading is taken on the cached object,
    against the accounting that the object holds once the iterator has
    yielded. *)
Lemma scan_cycle_cached (pid : Z) (p : Process) (a c : Sample)
    (q : Queries) (mm : Q) (nm : string) (os : Os) (live : list Z) (s : t) :
  (tick s + 1) mod 4 = 0 -> pids os = Returns live -> pid ∈ live ->
  procs s !! pid = Some p -> h_last (seen q p) = Some a ->
  present pid os q c mm nm ->
  reading_against cpu_between pid p a c mm nm os s.
Proof.
  intros Ht Hp Hin Hs Ha (qs1 & qs2 & Hiter & Hpid & Hall & Hc & Hm & Hnm).
  apply Forall_app in Hall as [H1 H2].
  unfold reading_against. cbv zeta. rewrite collect_unfold. cbv zeta.
  apply Z.eqb_eq in Ht. rewrite Ht.
  rewrite (scan_unfold cpu_between os live _ Hp), Hiter, scan_loop_app.
  set (s0 := set_procs (remove_dead (list_to_set live))
               (set_tick (tick s + 1) (set_last (net os) (now os) s))).
  assert (H0 : procs s0 !! pid = Some p).
  { simpl. rewrite lookup_remove_dead.
    rewrite decide_True; [done|]. by apply elem_of_list_to_set. }
  destruct (scan_loop_others cpu_between pid qs1 [] s0 H1)
    as (t1 & s1 & e1 & E1 & F1 & L1 & K1).
  simpl in E1. unfold bind. rewrite E1. simpl scan_loop. unfold bind.
  destruct (scan_item_cached cpu_between q e1 s1 p a c mm nm) as (s2 & E2 & P2);
    try done.
  { rewrite Hpid. congruence. }
  rewrite E2.
  destruct (scan_loop_others cpu_between pid qs2
              (e1 ++ [{| p_pid := pid_of q; p_name := nm;
                         p_cpu_percent := cpu_between a c;
                         p_memory_percent := mm |}]) s2 H2)
    as (t3 & s3 & e3 & E3 & F3 & L3 & K3).
  rewrite E3. unfold store_of, result_of. simpl.
  split; [rewrite K3, <- Hpid; exact P2|].
  eexists. split; [reflexivity|]. simpl. split.
  - intros e He Hepid. apply In_take in He.
    apply (proj1 (In_sorted_desc _ _)) in He.
    rewrite !in_app_iff in He. simpl in He.
    destruct He as [[He|[<-|[]]]|He]; [|done|].
    + rewrite List.Forall_forall in F1. by apply F1 in He.
    + rewrite List.Forall_forall in F3. by apply F3 in He.
  - intros Hlen. rewrite take_ge.
    + apply In_sorted_desc. rewrite !in_app_iff. simpl. rewrite Hpid. tauto.
    + rewrite length_sorted_desc, !length_app. simpl.
      rewrite length_app in Hlen. simpl in Hlen. lia.
Qed.

(** X12.  For a pid that is tracked and that [psutil.pids()] still lists,
    a scan reads the CPU percent on the cached object.  When the iterator
    yields that very object and its own [cpu_percent()] call on it
    answered, the reading is taken against the accounting stored by that
    call, an instant earlier in the same scan, whatever the object held
    from the previous scan.  Only when the iterator yields another object
    for the pid, or its call was denied, is the reading taken against the
    accounting that the cached object stored at its previous reading. *)
Theorem tracked_pid_read_within_scan (pid : Z) (p : Process) (c : Sample)
    (q : Queries) (mm : Q) (nm : string) (os : Os) (live : list Z) (s : t) :
  (tick s + 1) mod 4 = 0 -> pids os = Returns live -> pid ∈ live ->
  procs s !! pid = Some p ->
  present pid os q c mm nm ->
  (forall i,
     same_object p (q_proc q) = true -> q_info q = Some i ->
     reading_against cpu_between pid p i c mm nm os s)
  /\ (forall a,
        same_object p (q_proc q) = false \/ q_info q = None ->
        h_last p = Some a ->
        reading_against cpu_between pid p a c mm nm os s).
Proof.
  intros Ht Hp Hin Hs Hq. split.
  - intros i Hsame Hi. eapply scan_cycle_cached; eauto.
    unfold seen. by rewrite Hsame, Hi.
  - intros a Hcase Ha. eapply scan_cycle_cached; eauto.
    unfold seen. destruct Hcase as [->| ->]; [done|].
    by destruct (same_object _ _).
Qed.

End ScanFacts.

(** ** The disks *)

Section DiskFacts.
Import CollectDisks.
Variable disk_usage : string -> answer.

Lemma disks_loop_raises (parts : list Partition) (acc : gmap string Usage) :
  (exists e, disks_loop disk_usage parts acc = Raises e)
  <-> Exists (breaks disk_usage) parts.
Proof.
  revert acc. induction parts as [|part parts IH]; intros acc; simpl.
  - split; [intros [e He]; discriminate | intros H; inversion H].
  - unfold breaks at 1. rewrite Exists_cons.
    destruct (skipped part) eqn:Hs.
    + rewrite IH. split; [tauto|]. intros [[? _]|?]; [discriminate|done].
    + destruct (disk_usage (mountpoint part)) as [u| |e] eqn:Hu.
      * rewrite IH. split; [tauto|].
        intros [[_ [e He]]|?]; [discriminate|done].
      * rewrite IH. split; [tauto|].
        intros [[_ [e He]]|?]; [discriminate|done].
      * split; eauto.
Qed.

Lemma disks_loop_lookup (parts : list Partition) (acc d : gmap string Usage)
    (dev : string) (u : Usage) :
  disks_loop disk_usage parts acc = Returns d ->
  d !! dev = Some u ->
  acc !! dev = Some u
  \/ exists part, In part parts /\ device part = dev
                  /\ skipped part = false
                  /\ disk_usage (mountpoint part) = Answers u.
Proof.
  revert acc. induction parts as [|part parts IH]; intros acc; simpl.
  - intros [= ->] H. by left.
  - destruct (skipped part) eqn:Hs.
    { intros H1 H2. destruct (IH _ H1 H2) as [?|(p & ? & ?)]; [by left|].
      right. exists p. tauto. }
    destruct (disk_usage (mountpoint part)) as [u'| |e] eqn:Hu; [| |done].
    + intros H1 H2. destruct (IH _ H1 H2) as [Hl|(p & ? & ?)].
      * destruct (decide (device part = dev)) as [Hd|Hd].
        -- rewrite <- Hd, lookup_insert_eq in Hl. injection Hl as ->.
           right. exists part. by repeat split; auto.
        -- rewrite lookup_insert_ne in Hl by done. by left.
      * right. exists p. tauto.
    + intros H1 H2. destruct (IH _ H1 H2) as [?|(p & ? & ?)]; [by left|].
      right. exists p. tauto.
Qed.

Lemma disks_loop_keeps (parts : list Partition) (acc d : gmap string Usage)
    (dev : string) :
  disks_loop disk_usage parts acc = Returns d ->
  is_Some (acc !! dev)
  \/ (exists part, In part parts /\ device part = dev
                   /\ reported disk_usage part) ->
  is_Some (d !! dev).
Proof.
  revert acc. induction parts as [|part parts IH]; intros acc; simpl.
  - intros [= ->] [H|(p & [] & _)]. done.
  - unfold reported.
    destruct (skipped part) eqn:Hs.
    { intros H1 [H2|(p & [<-|Hin] & Hd & Hsk & Hu)]; apply (IH _ H1); eauto.
      - congruence.
      - right. exists p. by repeat split. }
    destruct (disk_usage (mountpoint part)) as [u'| |e] eqn:Hu; [| |done].
    + intros H1 H2. apply (IH _ H1).
      destruct H2 as [H2|(p & [<-|Hin] & Hd & Hsk & Hu')].
      * left. destruct (decide (device part = dev)) as [->|Hd].
        -- by rewrite lookup_insert_eq.
        -- by rewrite lookup_insert_ne.
      * left. rewrite Hd. by rewrite lookup_insert_eq.
      * right. exists p. by repeat split.
    + intros H1 [H2|(p & [<-|Hin] & Hd & Hsk & [u Hu'])]; apply (IH _ H1); eauto.
      * congruence.
      * right. exists p. repeat split; eauto.
Qed.

(** X14.  The disk loop raises exactly when the usage query of a partition
    that is not skipped raises something else than [PermissionError].
    Otherwise the mapping it builds has an entry for a device exactly when
    a partition of that device is neither optical ("cdrom" in its options)
    nor without file system and its usage query answers, and every entry
    holds the answer for such a partition: a partition that is skipped, or
    whose query is denied, adds nothing and stops nothing. *)
Theorem disks_reported (parts : list Partition) :
  ((exists e, disks_loop disk_usage parts ∅ = Raises e)
   <-> Exists (breaks disk_usage) parts)
  /\ forall disks, disks_loop disk_usage parts ∅ = Returns disks ->
       forall dev,
         (is_Some (disks !! dev)
          <-> exists part, In part parts /\ device part = dev
                           /\ reported disk_usage part)
         /\ forall u, disks !! dev = Some u ->
              exists part, In part parts /\ device part = dev
                           /\ skipped part = false
                           /\ disk_usage (mountpoint part) = Answers u.
Proof.
  split; [apply disks_loop_raises|].
  intros disks Hd dev. split; [split|].
  - intros [u Hu].
    destruct (disks_loop_lookup _ _ _ _ _ Hd Hu) as [H|(p & ? & ? & ? & ?)].
    + by rewrite lookup_empty in H.
    + exists p. unfold reported. eauto 10.
  - intros H. apply (disks_loop_keeps _ _ _ _ Hd). by right.
  - intros u Hu.
    destruct (disks_loop_lookup _ _ _ _ _ Hd Hu) as [H|H]; [|done].
    by rewrite lookup_empty in H.
Qed.


End DiskFacts.

(** ** The event log of the dashboard *)

Section LogFacts.
Import SysMonDashboard.

Lemma last_ten_step {A} (l : list A) (x : A) :
  last_ten (last_ten l ++ [x]) = last_ten (l ++ [x]).
Proof.
  unfold last_ten. rewrite !length_app, length_drop. simpl.
  destruct (decide (length l <= 10)%nat) as [Hle|Hgt].
  - replace (length l - 10)%nat with 0%nat by lia.
    rewrite drop_0. f_equal. lia.
  - rewrite <- (drop_app_le l [x]) by lia.
    rewrite drop_drop. f_equal. lia.
Qed.

Lemma add_logs_from (calls : list (string * string)) (l : list string) :
  logs (add_logs calls {| logs := last_ten l |}) = last_ten (l ++ entries calls).
Proof.
  revert l. induction calls as [|[ts msg] calls IH]; intros l; simpl.
  - by rewrite app_nil_r.
  - unfold add_log. simpl. rewrite last_ten_step, IH.
    by rewrite <- app_assoc.
Qed.

(** X16.  After any sequence of [add_log] calls on a new dashboard, the
    event log is the last ten lines of all the lines logged, oldest first:
    it never holds more than ten lines, the newest line is the last one,
    and no line is reordered or rewritten. *)
Theorem event_log_keeps_last_ten (calls : list (string * string)) :
  logs (add_logs calls __init__)
  = drop (length calls - 10) (entries calls)
  /\ (length (logs (add_logs calls __init__)) <= 10)%nat
  /\ (calls <> [] ->
      List.last (logs (add_logs calls __init__)) ""
      = List.last (entries calls) "").
Proof.
  assert (E : logs (add_logs calls __init__)
              = drop (length calls - 10) (entries calls)).
  { pose proof (add_logs_from calls []) as H. unfold last_ten in H at 1.
    simpl in H. unfold __init__. rewrite H. unfold last_ten, entries.
    by rewrite length_map. }
  rewrite E. split; [done|]. split.
  - rewrite length_drop. unfold entries. rewrite length_map. lia.
  - intros Hne.
    assert (Hl : (length calls - 10 < length (entries calls))%nat).
    { unfold entries. rewrite length_map. destruct calls; simpl; [done|lia]. }
    revert Hl. generalize (length calls - 10)%nat. generalize (entries calls).
    clear. intros l n. revert n. induction l as [|x l IH]; intros n Hn.
    + simpl in Hn. lia.
    + destruct n as [|n]; [done|]. simpl drop. simpl in Hn.
      rewrite IH by lia. destruct l; [simpl in Hn; lia|done].
Qed.

End LogFacts.

(** ** The figures of the dashboard *)

Section FigureFacts.
Import SysMonDashboard.
Local Open Scope Z_scope.

Lemma pow1024_step (j : Z) :
  0 <= j -> (inject_Z (1024 ^ (j + 1)) == 1024 * inject_Z (1024 ^ j))%Q.
Proof.
  intros Hj. rewrite Z.pow_add_r by lia. rewrite inject_Z_mult.
  change (inject_Z (1024 ^ 1)) with 1024%Q. ring.
Qed.

Lemma pow1024_pos (j : Z) : 0 <= j -> (0 < inject_Z (1024 ^ j))%Q.
Proof.
  intros Hj. change 0%Q with (inject_Z 0). rewrite <- Zlt_Qlt.
  by apply Z.pow_pos_nonneg.
Qed.

(** With enough turns allowed, the loop stops by its own test. *)
Lemma scale_enough (fuel : nat) (size : Q) (n : Z) :
  (size <= 1024 * inject_Z (2 ^ Z.of_nat fuel))%Q ->
  let d := (scale fuel size n).1 in
  let k := (scale fuel size n).2 in
  (d <= 1024)%Q /\ n <= k
  /\ (size == d * inject_Z (1024 ^ (k - n)))%Q
  /\ (n < k -> (1 < d)%Q)
  /\ (k = n <-> (size <= 1024)%Q).
Proof.
  revert size n. induction fuel as [|fuel IH]; intros size n Hb; cbv zeta.
  - change (inject_Z (2 ^ Z.of_nat 0)) with 1%Q in Hb.
    simpl. rewrite Z.sub_diag. change (inject_Z (1024 ^ 0)) with 1%Q.
    split; [lra|]. split; [lia|]. split; [ring|]. split; [lia|].
    split; [intros _; lra | done].
  - cbn [scale]. destruct (Qgtb size 1024) eqn:Hg.
    + apply Qgtb_true in Hg.
      assert (Hf : (0 < inject_Z (2 ^ Z.of_nat fuel))%Q).
      { change 0%Q with (inject_Z 0). rewrite <- Zlt_Qlt.
        apply Z.pow_pos_nonneg; lia. }
      assert (Hs : (inject_Z (2 ^ Z.of_nat (S fuel))
                    == 2 * inject_Z (2 ^ Z.of_nat fuel))%Q).
      { rewrite Nat2Z.inj_succ, Z.pow_succ_r by lia. by rewrite inject_Z_mult. }
      assert (Hd : (size / 1024 == size * (1 # 1024))%Q) by (by field).
      destruct (IH (size / 1024)%Q (n + 1)) as (H1 & H2 & H3 & H4 & H5).
      { rewrite Hd. rewrite Hs in Hb. lra. }
      cbv zeta in *.
      set (d := (scale fuel (size / 1024) (n + 1)).1) in *.
      set (k := (scale fuel (size / 1024) (n + 1)).2) in *.
      split; [done|]. split; [lia|]. split; [|split].
      * replace (k - n) with ((k - (n + 1)) + 1) by lia.
        rewrite pow1024_step by lia.
        rewrite Hd in H3.
        assert (Hx : (size == 1024 * (size * (1 # 1024)))%Q) by ring.
        rewrite Hx, H3. ring.
      * intros _. destruct (decide (k = n + 1)) as [Hk|Hk].
        -- apply H5 in Hk as Hle. rewrite Hk, Z.sub_diag in H3.
           change (inject_Z (1024 ^ 0)) with 1%Q in H3.
           rewrite Hd in H3, Hle. lra.
        -- apply H4. lia.
      * split; [lia | lra].
    + apply Qgtb_false in Hg. simpl. rewrite Z.sub_diag.
      change (inject_Z (1024 ^ 0)) with 1%Q.
      split; [done|]. split; [lia|]. split; [ring|]. split; [lia|done].
Qed.

Lemma power_labels_lookup (k : Z) :
  power_labels !! k
  = if decide (k = 0) then Some ""%string
    else if decide (k = 1) then Some "K"%string
    else if decide (k = 2) then Some "M"%string
    else if decide (k = 3) then Some "G"%string
    else if decide (k = 4) then Some "T"%string
    else None.
Proof.
  unfold power_labels.
  repeat (case_decide; [subst; reflexivity|]).
  rewrite !lookup_insert_ne by done. by rewrite lookup_singleton_ne.
Qed.

Variable format_1f : Q -> string.

(** X17.  [_format_bytes] always leaves its loop.  Up to [1024^5] bytes
    per second it returns the size divided by [1024^k], with the label of
    [k], where [k] is 0 exactly up to 1024 (so 1024 itself is shown in
    bytes, and a negative rate too), and otherwise the displayed number
    lies above 1 and at most at 1024.  Above [1024^5] it raises
    [KeyError]: there is no label beyond "T". *)
Theorem format_bytes_scales (size : Q) :
  ((size <= inject_Z (1024 ^ 5))%Q ->
   exists d k label,
     _format_bytes format_1f size
     = Returns (format_1f d +:+ " " +:+ label +:+ "B/s")
     /\ power_labels !! k = Some label
     /\ 0 <= k <= 4
     /\ (size == d * inject_Z (1024 ^ k))%Q
     /\ (d <= 1024)%Q
     /\ (0 < k -> (1 < d)%Q)
     /\ (k = 0 <-> (size <= 1024)%Q))
  /\ ((inject_Z (1024 ^ 5) < size)%Q ->
      exists k, 5 <= k
        /\ _format_bytes format_1f size
           = Raises {| exn_cls := KeyError; exn_str := pretty k |}).
Proof.
  assert (Hb : (size <= 1024 * inject_Z (2 ^ Z.of_nat (Z.to_nat
                                   (Z.log2_up (Qceiling size)))))%Q).
  { pose proof (Qle_ceiling size) as Hc.
    pose proof (Z.log2_up_nonneg (Qceiling size)) as Hn.
    rewrite Z2Nat.id by done.
    assert (Hz : (inject_Z (Qceiling size)
                  <= inject_Z (2 ^ Z.log2_up (Qceiling size)))%Q).
    { rewrite <- Zle_Qle.
      destruct (Z.le_gt_cases (Qceiling size) 1) as [Hle|Hgt].
      - rewrite Z.log2_up_eqn0 by done. simpl. lia.
      - apply Z.log2_up_spec. lia. }
    assert (Hp : (0 < inject_Z (2 ^ Z.log2_up (Qceiling size)))%Q).
    { change 0%Q with (inject_Z 0). rewrite <- Zlt_Qlt.
      by apply Z.pow_pos_nonneg. }
    lra. }
  destruct (scale_enough _ size 0 Hb) as (H1 & H2 & H3 & H4 & H5).
  cbv zeta in *. unfold _format_bytes.
  destruct (scale (Z.to_nat (Z.log2_up (Qceiling size))) size 0) as [d k].
  simpl in *.
  rewrite Z.sub_0_r in H3.
  assert (Hpow : forall j, 5 <= j -> (inject_Z (1024 ^ 5) <= inject_Z (1024 ^ j))%Q).
  { intros j Hj. rewrite <- Zle_Qle. apply Z.pow_le_mono_r; lia. }
  destruct (decide (k <= 4)) as [Hk|Hk].
  - split.
    + intros _. rewrite power_labels_lookup.
      repeat (case_decide;
              [eexists d, k, _; subst k; repeat split; try done; try lia; tauto|]).
      lia.
    + intros Hs. exfalso.
      assert (Hc : (size <= 1024 * inject_Z (1024 ^ 4))%Q).
      { rewrite H3.
        assert (Hle : (inject_Z (1024 ^ k) <= inject_Z (1024 ^ 4))%Q).
        { rewrite <- Zle_Qle. apply Z.pow_le_mono_r; lia. }
        pose proof (pow1024_pos k H2) as Hp.
        destruct (Qlt_le_dec d 0) as [Hneg|Hpos].
        - assert (d * inject_Z (1024 ^ k) <= 0)%Q; [|lra].
          rewrite <- (Qmult_0_l (inject_Z (1024 ^ k))).
          apply Qmult_le_compat_r; lra.
        - eapply Qle_trans.
          + apply Qmult_le_compat_r; [exact H1|lra].
          + rewrite (Qmult_comm 1024), (Qmult_comm 1024).
            apply Qmult_le_compat_r; [exact Hle|lra]. }
      change (inject_Z (1024 ^ 4)) with 1099511627776%Q in Hc.
      change (inject_Z (1024 ^ 5)) with 1125899906842624%Q in Hs.
      lra.
  - assert (Hd : (1 < d)%Q) by (apply H4; lia).
    assert (Hgt : (inject_Z (1024 ^ 5) < size)%Q).
    { rewrite H3. eapply Qle_lt_trans; [apply (Hpow k); lia|].
      rewrite <- (Qmult_1_l (inject_Z (1024 ^ k))) at 1.
      apply Qmult_lt_compat_r; [apply pow1024_pos; lia | done]. }
    split.
    + intros Hs. exfalso. lra.
    + intros _. exists k. split; [lia|].
      rewrite power_labels_lookup.
      repeat (case_decide; [lia|]). done.
Qed.

Lemma py_int_floor (x : Q) : (0 <= x)%Q -> py_int x = Qfloor x.
Proof.
  destruct x as [n d]. unfold py_int, Qfloor, Qle. simpl.
  intros H. apply Z.quot_div_nonneg; lia.
Qed.

Section Floats.

(** The rounding of float arithmetic: it keeps the order, and the
    integers up to [2^53] are floats. *)
Variable float : Q -> Q.
Hypothesis float_monotone : forall x y : Q, (x <= y)%Q -> (float x <= float y)%Q.
Hypothesis float_integer :
  forall z : Z, 0 <= z <= 2 ^ 53 -> (float (inject_Z z) == inject_Z z)%Q.

Lemma float_between (lo hi : Z) (x : Q) :
  0 <= lo <= 2 ^ 53 -> 0 <= hi <= 2 ^ 53 ->
  (inject_Z lo <= x)%Q -> (x <= inject_Z hi)%Q ->
  (inject_Z lo <= float x)%Q /\ (float x <= inject_Z hi)%Q.
Proof.
  intros Hlo Hhi H1 H2. split.
  - rewrite <- (float_integer lo Hlo). by apply float_monotone.
  - rewrite <- (float_integer hi Hhi). by apply float_monotone.
Qed.

(** X18.  Whatever the rounding of the two float operations, for a
    percentage between 0 and 100 [_make_bar] draws exactly [width] cells,
    the filled ones first.  From 100 percent on it draws no hollow cell,
    and at least [width] filled ones: a value above 100 can make the bar
    longer than [width]. *)
Theorem make_bar_width (value : Q) (width : Z) :
  0 <= width <= 2 ^ 53 ->
  let filled := py_int (float (float (value / 100) * inject_Z width))%Q in
  ((0 <= value)%Q -> (value <= 100)%Q ->
   bar_cells (_make_bar float value width)
   = repeat Full (Z.to_nat filled) ++ repeat Hollow (Z.to_nat (width - filled))
   /\ 0 <= filled <= width
   /\ length (bar_cells (_make_bar float value width)) = Z.to_nat width)
  /\ ((100 <= value)%Q ->
      bar_cells (_make_bar float value width) = repeat Full (Z.to_nat filled)
      /\ width <= filled).
Proof.
  intros Hw. cbv zeta.
  assert (Hwq : (0 <= inject_Z width)%Q).
  { change 0%Q with (inject_Z 0). rewrite <- Zle_Qle. lia. }
  assert (H53 : 0 < 2 ^ 53) by (by apply Z.pow_pos_nonneg).
  set (a := float (value / 100)%Q).
  set (x := float (a * inject_Z width)%Q).
  split.
  - intros H0 H100. unfold _make_bar, times. cbn [bar_cells]. fold a x.
    destruct (float_between 0 1 (value / 100)) as [Ha0 Ha1]; [lia|lia| | |].
    { apply Qle_shift_div_l; [reflexivity|].
      change (inject_Z 0) with 0%Q. lra. }
    { apply Qle_shift_div_r; [reflexivity|].
      change (inject_Z 1) with 1%Q. lra. }
    fold a in Ha0, Ha1.
    change (inject_Z 0) with 0%Q in Ha0. change (inject_Z 1) with 1%Q in Ha1.
    destruct (float_between 0 width (a * inject_Z width)) as [Hx0 Hxw];
      [lia|lia| | |].
    { change (inject_Z 0) with 0%Q. by apply Qmult_le_0_compat. }
    { rewrite <- (Qmult_1_l (inject_Z width)) at 2.
      by apply Qmult_le_compat_r. }
    fold x in Hx0, Hxw. change (inject_Z 0) with 0%Q in Hx0.
    rewrite (py_int_floor _ Hx0).
    pose proof (Qfloor_resp_le 0 x Hx0) as Hf0.
    change (Qfloor 0) with 0 in Hf0.
    pose proof (Qfloor_resp_le _ _ Hxw) as Hfw. rewrite Qfloor_Z in Hfw.
    split; [done|]. split; [lia|].
    rewrite length_app, !repeat_length. lia.
  - intros H100. unfold _make_bar, times. cbn [bar_cells]. fold a x.
    assert (Ha1 : (1 <= a)%Q).
    { unfold a. rewrite <- (float_integer 1) by lia.
      apply float_monotone. apply Qle_shift_div_l; [reflexivity|].
      change (inject_Z 1) with 1%Q. lra. }
    assert (Hxw : (inject_Z width <= x)%Q).
    { unfold x. rewrite <- (float_integer width) at 1 by lia.
      apply float_monotone.
      rewrite <- (Qmult_1_l (inject_Z width)) at 1.
      by apply Qmult_le_compat_r. }
    assert (Hx0 : (0 <= x)%Q) by lra.
    rewrite (py_int_floor _ Hx0).
    pose proof (Qfloor_resp_le _ _ Hxw) as Hfw. rewrite Qfloor_Z in Hfw.
    split; [|done].
    replace (Z.to_nat (width - Qfloor x)) with 0%nat by lia.
    simpl. by rewrite app_nil_r.
Qed.

End Floats.

End FigureFacts.

(** ** The panels of the dashboard *)

Section PanelFacts.
Import SysMonDashboard.
Local Open Scope Z_scope.
Variable float : Q -> Q.

Lemma pair_ind {A} (P : list A -> Prop) :
  P [] -> (forall x, P [x]) -> (forall x y l, P l -> P (x :: y :: l)) ->
  forall l, P l.
Proof.
  intros H0 H1 H2 l.
  assert (H : P l /\ forall x, P (x :: l)); [|by destruct H].
  induction l as [|y l [IH1 IH2]]; [by split|].
  split; [apply IH2|]. intros x. by apply H2.
Qed.

Lemma cores_rows_cells (rest : list Q) (i : Z) :
  cells_of (cores_rows float i rest)
  = imap (fun k c => {| core_number := i + Z.of_nat k + 1;
                        core_bar := _make_bar float c 10 |}) rest.
Proof.
  revert i. induction rest as [|c1|c1 c2 rest IH] using pair_ind; intros i.
  - done.
  - simpl. by rewrite Z.add_0_r.
  - unfold cells_of in *. cbn [cores_rows flat_map fst snd app imap].
    rewrite IH.
    assert (Hc : forall n m c, n = m ->
              {| core_number := n; core_bar := _make_bar float c 10 |}
              = {| core_number := m; core_bar := _make_bar float c 10 |})
      by (by intros n m c ->).
    f_equal; [apply Hc; lia|]. f_equal; [apply Hc; simpl; lia|].
    apply imap_ext. intros k c _. apply Hc. simpl. lia.
Qed.

Lemma cores_rows_length (rest : list Q) (i : Z) :
  length (cores_rows float i rest) = Nat.div2 (length rest + 1).
Proof.
  revert i. induction rest as [|c1|c1 c2 rest IH] using pair_ind; intros i.
  - done.
  - done.
  - cbn [cores_rows length]. rewrite IH.
    replace (S (S (length rest)) + 1)%nat with (S (S (length rest + 1))) by lia.
    done.
Qed.

Lemma cores_rows_lookup (rest : list Q) (i : Z) (k : nat)
    (row : CoreCell * option CoreCell) :
  cores_rows float i rest !! k = Some row ->
  (row.2 = None <-> length rest = (2 * k + 1)%nat).
Proof.
  revert i k.
  induction rest as [|c1|c1 c2 rest IH] using pair_ind; intros i k Hk.
  - done.
  - destruct k as [|k]; [|done]. simpl in Hk. by injection Hk as <-.
  - destruct k as [|k].
    + simpl in Hk. injection Hk as <-. simpl. split; [done|lia].
    + cbn [cores_rows] in Hk. rewrite lookup_cons in Hk.
      rewrite (IH _ _ Hk). simpl. lia.
Qed.

(** X19.  The grid of [cores_panel] shows every core exactly once, in
    order and numbered from 1, two to a row, each with a bar of width 10.
    There are [ceil(n / 2)] rows, and the right cell of a row is empty only
    in the last row of an odd number of cores. *)
Theorem cores_panel_pairs (cores : list Q) :
  cells_of (cores_panel float cores) = numbered float cores
  /\ length (cores_panel float cores) = Nat.div2 (length cores + 1)
  /\ forall k row, cores_panel float cores !! k = Some row ->
       (row.2 = None <-> length cores = (2 * k + 1)%nat).
Proof.
  unfold cores_panel. split; [|split].
  - rewrite cores_rows_cells. unfold numbered. apply imap_ext.
    intros k c _. simpl. f_equal.
  - apply cores_rows_length.
  - intros k row. apply cores_rows_lookup.
Qed.

Section EventLog.
Variable strip : string -> string.

Lemma split_once_stamp (ts rest : string) :
  bracket_free ts = true ->
  split_once "]" (ts +:+ String "]" rest) = Some (ts, rest).
Proof.
  induction ts as [|a ts IH]; simpl; intros H; [done|].
  apply andb_prop in H as [H Hts]. apply andb_prop in H as [_ H].
  apply negb_true_iff in H. rewrite H, (IH Hts). done.
Qed.

Lemma lstrip_char_free (ts : string) :
  bracket_free ts = true -> lstrip_char "[" ts = ts.
Proof.
  destruct ts as [|a ts]; simpl; intros H; [done|].
  apply andb_prop in H as [H _]. apply andb_prop in H as [H _].
  apply negb_true_iff in H. by rewrite H.
Qed.

Lemma rstrip_char_free (ts : string) :
  bracket_free ts = true -> rstrip_char "[" ts = ts.
Proof.
  induction ts as [|a ts IH]; simpl; intros H; [done|].
  apply andb_prop in H as [H Hts]. apply andb_prop in H as [H _].
  apply negb_true_iff in H. rewrite (IH Hts), H. by destruct ts.
Qed.

Lemma log_row_entry (ts msg : string) :
  bracket_free ts = true ->
  log_row strip (entry ts msg) = shown strip (ts, msg).
Proof.
  intros H. unfold log_row, entry.
  change ("[" +:+ ts +:+ "] " +:+ msg)
    with (String "[" (ts +:+ String "]" (" " +:+ msg))).
  cbn [split_once]. change (Ascii.eqb "[" "]") with false. cbv iota.
  rewrite (split_once_stamp _ _ H). unfold strip_char. cbn [lstrip_char].
  change (Ascii.eqb "[" "[") with true. cbv iota.
  by rewrite (lstrip_char_free _ H), (rstrip_char_free _ H).
Qed.

(** X20.  Every line that [add_log] wrote is parsed back by [log_panel]
    into the timestamp and the message it was made of, whatever the message
    holds (brackets too), provided the timestamp holds no bracket: the
    panel shows the last ten calls in order, each with its timestamp, its
    stripped message and the style of that message, and never falls back
    to the unparsed row.  Only a dashboard without any call shows the
    "No active events..." text. *)
Theorem logged_lines_parse_back (calls : list (string * string)) :
  Forall (fun call => bracket_free call.1 = true) calls ->
  log_panel strip (add_logs calls __init__)
  = match calls with
    | [] => NoEvents
    | _ => Events (drop (length calls - 10) (map (shown strip) calls))
    end.
Proof.
  intros Hfree.
  assert (E : logs (add_logs calls __init__)
              = drop (length calls - 10) (entries calls)).
  { pose proof (add_logs_from calls []) as H. unfold last_ten in H at 1.
    simpl in H. unfold __init__. rewrite H. unfold last_ten, entries.
    by rewrite length_map. }
  unfold log_panel. rewrite E.
  assert (Hrows : map (log_row strip) (entries calls) = map (shown strip) calls).
  { unfold entries. rewrite map_map. apply map_ext_Forall.
    eapply Forall_impl; [exact Hfree|]. intros [ts msg] H.
    by apply log_row_entry. }
  rewrite <- Hrows, List.skipn_map.
  destruct calls as [|call calls]; [done|].
  destruct (drop _ _) eqn:Hd; [|done].
  apply (f_equal length) in Hd. rewrite length_drop in Hd.
  unfold entries in Hd. rewrite length_map in Hd. simpl in Hd. lia.
Qed.

End EventLog.

End PanelFacts.

(** ** The loop of [start_monitor] *)

Section LoopFacts.
Import StartMonitor.
Variable cpu_between : MetricsCollector.Sample -> MetricsCollector.Sample -> Q.
Variable str_float : Q -> string.








End LoopFacts.

(** * Examples *)

Section Examples.
Local Open Scope Z_scope.

(** On a platform where pid 8 gives a null handle, [_windows_trim] still
    opens the three pids and counts two; and when [psutil.pids()] raises,
    so does [_windows_trim]. *)
Lemma windows_trim_counts_witness :
  (exists calls,
     CacheCleaner._windows_trim os_null_handle 0%Z
     = ([Windll; PsutilPids] ++ calls ++ [trimmed_line 2], 2%Z, Returns true)
     /\ opened calls = [4; 8; 12]%Z
     /\ Forall handle_call calls)
  /\ CacheCleaner._windows_trim os_pids_fail 0%Z
     = ([Windll; PsutilPids], 0%Z,
        Raises {| exn_cls := OtherException; exn_str := "OSError" |}).
Proof.
  split.
  - exact (proj2 (proj2 (windows_trim_counts os_null_handle))
             [4; 8; 12]%Z eq_refl eq_refl).
  - exact (proj1 (proj2 (windows_trim_counts os_pids_fail)) _ eq_refl eq_refl).
Defined.

(** When [gc.collect()] raises on Windows, the error line is the only
    thing that follows it. *)
Lemma clean_error_line_witness :
  CacheCleaner.gc_collect os_gc_fail
  = Raises {| exn_cls := OtherException; exn_str := "MemoryError" |}
  /\ CacheCleaner.clean windows os_gc_fail false
     = ([LoggerInfo "RAM cleanup triggered (best-effort)"; GcCollect;
         LoggerError "RAM cleanup error: MemoryError"],
        false, Returns false).
Proof.
  split; [reflexivity|].
  exact (proj2 (clean_error_line windows os_gc_fail false) _ eq_refl).
Defined.

(** Of six processes, the scan keeps the five busiest, and pid 2 stays
    before pid 4, which has the same CPU percent. *)
Lemma scan_returns_top_five_witness :
  MetricsCollector.pids six_busy = Returns [1; 2; 3; 4; 5; 6]%Z
  /\ exists top,
      result_of (MetricsCollector.scan percent_between six_busy after_three_calls)
      = Returns top
      /\ MetricsCollector.cached_top_procs
           (store_of (MetricsCollector.scan percent_between six_busy
                        after_three_calls))
         = top
      /\ top_five_of top
           [busy_entry 1 10; busy_entry 2 30; busy_entry 3 20;
            busy_entry 4 30; busy_entry 5 5; busy_entry 6 40].
Proof.
  split; [reflexivity|].
  apply (scan_returns_top_five percent_between six_busy [1; 2; 3; 4; 5; 6]%Z
           after_three_calls
           (trace_of (MetricsCollector.scan_loop percent_between
                        (MetricsCollector.process_iter six_busy) []
                        (MetricsCollector.set_procs
                           (MetricsCollector.remove_dead
                              (list_to_set [1; 2; 3; 4; 5; 6]%Z))
                           after_three_calls)))
           (store_of (MetricsCollector.scan_loop percent_between
                        (MetricsCollector.process_iter six_busy) []
                        (MetricsCollector.set_procs
                           (MetricsCollector.remove_dead
                              (list_to_set [1; 2; 3; 4; 5; 6]%Z))
                           after_three_calls)))).
  - reflexivity.
  - vm_compute. reflexivity.
Defined.

(** After the scan of the fourth cycle, pid 42 is in the cache, and it is
    one of the pids that [psutil.pids()] listed. *)
Lemma cache_within_live_witness :
  (MetricsCollector.tick after_three_calls + 1) mod 4 = 0
  /\ is_Some (MetricsCollector.procs
                (store_of (MetricsCollector.collect percent_between
                             (scan_at 4 [1; 42]%Z [init_proc 4 10 4 10; old_42])
                             after_three_calls)) !! 42%Z)
  /\ (42%Z ∈ [1; 42]%Z
      \/ 42%Z ∈ map pid_of [init_proc 4 10 4 10; old_42]).
Proof.
  assert (Ht : (MetricsCollector.tick after_three_calls + 1) mod 4 = 0)
    by reflexivity.
  assert (Hs : is_Some (MetricsCollector.procs
                (store_of (MetricsCollector.collect percent_between
                             (scan_at 4 [1; 42]%Z [init_proc 4 10 4 10; old_42])
                             after_three_calls)) !! 42%Z)).
  { eexists. reflexivity. }
  split; [exact Ht|]. split; [exact Hs|].
  exact (cache_within_live percent_between
           (scan_at 4 [1; 42]%Z [init_proc 4 10 4 10; old_42]) [1; 42]%Z
           after_three_calls 42%Z Ht eq_refl Hs).
Defined.

(** An item for the tracked pid 42 whose reading is denied adds no entry
    and drops pid 42 from the cache, and pid 1 stays as it was. *)
Lemma scan_item_failure_witness :
  result_of (MetricsCollector.scan_item percent_between denied_42 [] tracking_42)
  = Returns []
  /\ MetricsCollector.procs
       (store_of (MetricsCollector.scan_item percent_between denied_42 []
                    tracking_42)) !! 42%Z = None
  /\ MetricsCollector.procs
       (store_of (MetricsCollector.scan_item percent_between denied_42 []
                    tracking_42)) !! 1%Z
     = MetricsCollector.procs tracking_42 !! 1%Z.
Proof.
  pose proof (scan_item_failure percent_between denied_42 [] tracking_42) as H.
  cbv zeta in H.
  assert (Hf : first_failure
                 (bool_decide (MetricsCollector.procs tracking_42
                               !! pid_of denied_42 = None)) denied_42
               = Some {| exn_cls := AccessDenied; exn_str := "AccessDenied" |})
    by (vm_compute; reflexivity).
  rewrite Hf in H.
  cbv beta iota delta [MetricsCollector.caught_by_scan exn_cls] in H.
  destruct H as [[Hr Hp] Hk].
  split; [exact Hr|]. split; [exact Hp|].
  apply Hk. discriminate.
Defined.

(** A fourth cycle in which [psutil.pids()] raises: [collect()] returns,
    with the list cached before. *)
Lemma interrupted_scan_keeps_list_witness :
  (MetricsCollector.tick after_three_calls + 1) mod 4 = 0
  /\ (exists m,
        MetricsCollector.collect percent_between (pids_fail_at 4) after_three_calls
        = (trace_of (MetricsCollector.scan percent_between (pids_fail_at 4)
                       (MetricsCollector.set_tick
                          (MetricsCollector.tick after_three_calls + 1)
                          (MetricsCollector.set_last
                             (MetricsCollector.net (pids_fail_at 4))
                             (MetricsCollector.now (pids_fail_at 4))
                             after_three_calls))),
           store_of (MetricsCollector.scan percent_between (pids_fail_at 4)
                       (MetricsCollector.set_tick
                          (MetricsCollector.tick after_three_calls + 1)
                          (MetricsCollector.set_last
                             (MetricsCollector.net (pids_fail_at 4))
                             (MetricsCollector.now (pids_fail_at 4))
                             after_three_calls))),
           Returns m)
        /\ top_procs m = MetricsCollector.cached_top_procs after_three_calls)
  /\ exists m,
       MetricsCollector.collect percent_between (pids_fail_at 4) after_three_calls
       = ([PsutilPids],
          MetricsCollector.set_tick
            (MetricsCollector.tick after_three_calls + 1)
            (MetricsCollector.set_last
               (MetricsCollector.net (pids_fail_at 4))
               (MetricsCollector.now (pids_fail_at 4))
               after_three_calls),
          Returns m)
       /\ top_procs m = MetricsCollector.cached_top_procs after_three_calls.
Proof.
  assert (Ht : (MetricsCollector.tick after_three_calls + 1) mod 4 = 0)
    by reflexivity.
  destruct (interrupted_scan_keeps_list percent_between (pids_fail_at 4)
              after_three_calls Ht) as [Hscan Hpids].
  split; [exact Ht|]. split.
  - destruct Hscan as (m & Hm & Htop & _).
    + eexists. reflexivity.
    + exists m. by split.
  - exact (Hpids _ eq_refl).
Defined.

(** The eighth cycle finds the process of pid 42 still running: its
    reading is taken against the accounting that the iterator stored at
    timer 8, not against the one of the scan of the fourth cycle.  When
    another process has taken pid 42 since, the reading is taken against
    the accounting of the old one. *)
Lemma tracked_pid_read_within_scan_witness :
  reading_against percent_between 42
    {| MetricsCollector.h_pid := 42; MetricsCollector.h_ident := 200;
       MetricsCollector.h_last :=
         Some {| MetricsCollector.s_timer := 401 # 100;
                 MetricsCollector.s_cpu_time := 900 |} |}
    {| MetricsCollector.s_timer := 8; MetricsCollector.s_cpu_time := 905 |}
    {| MetricsCollector.s_timer := 801 # 100;
       MetricsCollector.s_cpu_time := 181001 # 200 |}
    1 "old" still_42_at_8 tracking_42
  /\ reading_against percent_between 42
       {| MetricsCollector.h_pid := 42; MetricsCollector.h_ident := 200;
          MetricsCollector.h_last :=
            Some {| MetricsCollector.s_timer := 401 # 100;
                    MetricsCollector.s_cpu_time := 900 |} |}
       {| MetricsCollector.s_timer := 401 # 100;
          MetricsCollector.s_cpu_time := 900 |}
       {| MetricsCollector.s_timer := 1201 # 100;
          MetricsCollector.s_cpu_time := 1 # 200 |}
       1 "new" back_42 tracking_42.
Proof.
  assert (Hin : 42 ∈ [1; 42]).
  { apply (proj1 (bool_decide_eq_true _)). reflexivity. }
  split.
  - destruct (tracked_pid_read_within_scan percent_between 42
                {| MetricsCollector.h_pid := 42; MetricsCollector.h_ident := 200;
                   MetricsCollector.h_last :=
                     Some {| MetricsCollector.s_timer := 401 # 100;
                             MetricsCollector.s_cpu_time := 900 |} |}
                {| MetricsCollector.s_timer := 801 # 100;
                   MetricsCollector.s_cpu_time := 181001 # 200 |}
                still_42 1 "old" still_42_at_8 [1; 42] tracking_42)
      as [H _].
    + reflexivity.
    + reflexivity.
    + exact Hin.
    + reflexivity.
    + exists [init_proc 8 11 8 11], []. repeat split.
      repeat constructor. discriminate.
    + apply H; reflexivity.
  - destruct (tracked_pid_read_within_scan percent_between 42
                {| MetricsCollector.h_pid := 42; MetricsCollector.h_ident := 200;
                   MetricsCollector.h_last :=
                     Some {| MetricsCollector.s_timer := 401 # 100;
                             MetricsCollector.s_cpu_time := 900 |} |}
                {| MetricsCollector.s_timer := 1201 # 100;
                   MetricsCollector.s_cpu_time := 1 # 200 |}
                new_42 1 "new" back_42 [1; 42] tracking_42)
      as [_ H].
    + reflexivity.
    + reflexivity.
    + exact Hin.
    + reflexivity.
    + exists [init_proc 12 12 12 12], []. repeat split.
      repeat constructor. discriminate.
    + apply H; [left|]; reflexivity.
Defined.

(** Of a disk, an optical drive and a mount that denies the query, only
    the disk is reported; a drive that is not ready stops the loop. *)
Lemma disks_reported_witness :
  CollectDisks.disks_loop usage_of [root_part; optical_part; denied_part] ∅
  = Returns {[ "/dev/sda1" := root_usage ]}
  /\ (exists part,
        In part [root_part; optical_part; denied_part]
        /\ CollectDisks.device part = "/dev/sda1"
        /\ CollectDisks.skipped part = false
        /\ usage_of (CollectDisks.mountpoint part)
           = CollectDisks.Answers root_usage)
  /\ exists e,
       CollectDisks.disks_loop usage_of [root_part; unready_part; denied_part] ∅
       = Raises e.
Proof.
  assert (Hl : CollectDisks.disks_loop usage_of
                 [root_part; optical_part; denied_part] ∅
               = Returns {[ "/dev/sda1" := root_usage ]})
    by (vm_compute; reflexivity).
  split; [exact Hl|]. split.
  - apply (proj2 (proj2 (disks_reported usage_of
                           [root_part; optical_part; denied_part])
                    _ Hl "/dev/sda1") root_usage).
    vm_compute. reflexivity.
  - apply (proj2 (proj1 (disks_reported usage_of
                           [root_part; unready_part; denied_part]))).
    apply Exists_cons_tl, Exists_cons_hd.
    split; [reflexivity|]. eexists. reflexivity.
Defined.


(** After twelve calls the newest line of the log is the twelfth. *)
Lemma event_log_keeps_last_ten_witness :
  twelve_calls <> []
  /\ List.last (SysMonDashboard.logs
                  (add_logs twelve_calls SysMonDashboard.__init__)) ""
     = List.last (entries twelve_calls) "".
Proof.
  assert (H : twelve_calls <> []) by discriminate.
  split; [exact H|].
  exact (proj2 (proj2 (event_log_keeps_last_ten twelve_calls)) H).
Defined.

(** Five million bytes per second are shown in megabytes; two petabytes
    per second have no label. *)
Lemma format_bytes_scales_witness :
  (5000000 <= inject_Z (1024 ^ 5))%Q
  /\ (exists d k label,
        SysMonDashboard._format_bytes show_Q 5000000
        = Returns (show_Q d +:+ " " +:+ label +:+ "B/s")
        /\ SysMonDashboard.power_labels !! k = Some label
        /\ 0 <= k <= 4
        /\ (5000000 == d * inject_Z (1024 ^ k))%Q
        /\ (d <= 1024)%Q
        /\ (0 < k -> (1 < d)%Q)
        /\ (k = 0 <-> (5000000 <= 1024)%Q))
  /\ (inject_Z (1024 ^ 5) < 2000000000000000)%Q
  /\ exists k, 5 <= k
       /\ SysMonDashboard._format_bytes show_Q 2000000000000000
          = Raises {| exn_cls := KeyError; exn_str := pretty k |}.
Proof.
  assert (H1 : (5000000 <= inject_Z (1024 ^ 5))%Q) by q_compute.
  assert (H2 : (inject_Z (1024 ^ 5) < 2000000000000000)%Q) by q_compute.
  split; [exact H1|]. split.
  - exact (proj1 (format_bytes_scales show_Q 5000000) H1).
  - split; [exact H2|].
    exact (proj2 (format_bytes_scales show_Q 2000000000000000) H2).
Defined.

Lemma to_grid_monotone (x y : Q) : (x <= y)%Q -> (to_grid x <= to_grid y)%Q.
Proof.
  intros H. unfold to_grid.
  assert (Hf : Qfloor (x * 1024) <= Qfloor (y * 1024)).
  { apply Qfloor_resp_le. lra. }
  apply Qle_shift_div_l; [reflexivity|].
  assert (Hq : (inject_Z (Qfloor (x * 1024)) <= inject_Z (Qfloor (y * 1024)))%Q)
    by (by rewrite <- Zle_Qle).
  field_simplify. lra.
Qed.

Lemma to_grid_integer (z : Z) :
  0 <= z <= 2 ^ 53 -> (to_grid (inject_Z z) == inject_Z z)%Q.
Proof.
  intros _. unfold to_grid.
  assert (E : (inject_Z z * 1024 == inject_Z (z * 1024))%Q).
  { rewrite inject_Z_mult. reflexivity. }
  rewrite E, Qfloor_Z, inject_Z_mult. field.
Qed.

(** With the coarse rounding, 29 percent of a bar of width 100 is 28
    filled cells and 72 hollow ones; at 150 percent a bar of width 10 has
    no hollow cell. *)
Lemma make_bar_width_witness :
  SysMonDashboard.py_int (to_grid (to_grid (29 / 100) * inject_Z 100)) = 28
  /\ (SysMonDashboard.bar_cells (SysMonDashboard._make_bar to_grid 29 100)
      = repeat SysMonDashboard.Full
          (Z.to_nat (SysMonDashboard.py_int
                       (to_grid (to_grid (29 / 100) * inject_Z 100))))
        ++ repeat SysMonDashboard.Hollow
             (Z.to_nat (100 - SysMonDashboard.py_int
                                (to_grid (to_grid (29 / 100) * inject_Z 100))))
      /\ 0 <= SysMonDashboard.py_int
                (to_grid (to_grid (29 / 100) * inject_Z 100)) <= 100
      /\ length (SysMonDashboard.bar_cells
                   (SysMonDashboard._make_bar to_grid 29 100))
         = Z.to_nat 100)
  /\ (SysMonDashboard.bar_cells (SysMonDashboard._make_bar to_grid 150 10)
      = repeat SysMonDashboard.Full
          (Z.to_nat (SysMonDashboard.py_int
                       (to_grid (to_grid (150 / 100) * inject_Z 10))))
      /\ 10 <= SysMonDashboard.py_int
                 (to_grid (to_grid (150 / 100) * inject_Z 10))).
Proof.
  split; [reflexivity|]. split.
  - apply (proj1 (make_bar_width to_grid to_grid_monotone to_grid_integer
                    29 100 ltac:(lia))); q_compute.
  - apply (proj2 (make_bar_width to_grid to_grid_monotone to_grid_integer
                    150 10 ltac:(lia))); q_compute.
Defined.

(** With three cores the second row has an empty right cell. *)
Lemma cores_panel_pairs_witness :
  SysMonDashboard.cores_panel to_grid [10; 90; 50]%Q !! 1%nat
  = Some ({| SysMonDashboard.core_number := 3;
             SysMonDashboard.core_bar := SysMonDashboard._make_bar to_grid 50 10 |}, None)
  /\ ((None : option SysMonDashboard.CoreCell) = None
      <-> length [10; 90; 50]%Q = (2 * 1 + 1)%nat).
Proof.
  assert (H : SysMonDashboard.cores_panel to_grid [10; 90; 50]%Q !! 1%nat
              = Some ({| SysMonDashboard.core_number := 3;
                         SysMonDashboard.core_bar :=
                           SysMonDashboard._make_bar to_grid 50 10 |}, None))
    by reflexivity.
  split; [exact H|].
  exact (proj2 (proj2 (cores_panel_pairs to_grid [10; 90; 50]%Q)) 1%nat _ H).
Defined.

(** After twelve calls the panel shows the last ten, each parsed back
    into its timestamp and its message. *)
Lemma logged_lines_parse_back_witness :
  Forall (fun call => bracket_free call.1 = true) twelve_calls
  /\ SysMonDashboard.log_panel strip_spaces
       (add_logs twelve_calls SysMonDashboard.__init__)
     = SysMonDashboard.Events
         (drop (length twelve_calls - 10) (map (shown strip_spaces) twelve_calls)).
Proof.
  assert (H : Forall (fun call => bracket_free call.1 = true) twelve_calls).
  { repeat constructor. }
  split; [exact H|].
  exact (logged_lines_parse_back strip_spaces twelve_calls H).
Defined.


End Examples.
